(** * Role-based access control of the links backend

    A shallow embedding of the permission engine
    ([app/core/security/permissions.py]), of the entities it reads
    ([app/core/db/models.py]) and of the two providers that create the
    rows it reads ([create_link] in [providers/link.py],
    [assign_role_to_user] in [providers/user.py]).

    Python code that talks to the database session becomes a computation
    in a state-and-exception monad over an explicit [Session]; a raised
    exception keeps the session it was raised in, as in Python, where the
    session object outlives the exception. *)

From Stdlib Require Import String List Bool Arith ZArith Lia.
From Stdlib Require Import DecimalString.
Import ListNotations.
Open Scope string_scope.

(** ** Entities ([app/core/db/models.py])

    One module per SQLModel class, so that the columns keep their names.
    Only the columns are rows of a table; relationships are derived from
    the link table. *)

Module User.
Record t : Type := mk
  { id : string;
    email : string;
    username : string;
    hashed_password : string;
    name : string }.
End User.

Module RoleUserLink.
(** Composite primary key [(user_id, role_id)]. *)
Record t : Type := mk
  { user_id : string;
    role_id : string }.

Definition same_key (a b : t) : bool :=
  (user_id a =? user_id b) && (role_id a =? role_id b).
End RoleUserLink.

Module Link.
Record t : Type := mk
  { id : string;
    user_id : string;
    label : string;
    url : string;
    created_at : Z;                 (* a UTC timestamp *)
    description : option string }.
End Link.

Module Role.
(** [name] is nullable: an unnamed role is a personal one. *)
Record t : Type := mk
  { id : string;
    name : option string }.
End Role.

Module Permission.
(** [resource_id] and [role_id] are nullable columns. *)
Record t : Type := mk
  { permission_id : string;
    resource_name : string;
    resource_id : option string;
    action : string;
    role_id : option string }.
End Permission.

(** [LinkDTO] of [dto/link.py] and [Link.to_dto]. *)
Module LinkDTO.
Record t : Type := mk
  { id : string;
    label : string;
    url : string;
    description : option string;
    created_at : Z;
    author_id : string }.
End LinkDTO.

Definition to_dto (self : Link.t) : LinkDTO.t :=
  {| LinkDTO.id := Link.id self;
     LinkDTO.label := Link.label self;
     LinkDTO.url := Link.url self;
     LinkDTO.description := Link.description self;
     LinkDTO.created_at := Link.created_at self;
     LinkDTO.author_id := Link.user_id self |}.

(** [LinkCreationDTO]; [url] holds [str(data.url)]. *)
Module LinkCreationDTO.
Record t : Type := mk
  { label : string;
    url : string;
    description : option string }.
End LinkCreationDTO.

(** [MessageResponse] of [dto/message.py]: a single [message] field. *)
Record MessageResponse : Type := { message : string }.

(** ** Constants of [permissions.py] *)

Definition ADMIN_ROLE_NAME := "admin".
Definition ADMIN_RESOURCE := "admin".
Definition USER_RESOURCE := "user".
Definition LINK_RESOURCE := "link".
Definition ROLE_RESOURCE := "role".
Definition ACTION_READ := "r".
Definition ACTION_READWRITE := "rw".

Definition HTTP_401_UNAUTHORIZED : nat := 401.
Definition HTTP_404_NOT_FOUND : nat := 404.
Definition HTTP_409_CONFLICT : nat := 409.

(** ** The database and the session *)

(** The committed tables. Rows are kept in insertion order. *)
Record Database : Type :=
  { users : list User.t;
    links : list Link.t;
    roles : list Role.t;
    permissions : list Permission.t;
    role_user_links : list RoleUserLink.t }.

(** A transient [Role] as Python holds it before it is flushed: the row
    together with its [users] relationship. Flushing writes the row and
    one [RoleUserLink] per related user. *)
Record RoleInstance : Type :=
  { role_row : Role.t;
    role_users : list User.t }.

(** What [db_session.add] accepts in the modelled providers. *)
Inductive Instance : Type :=
| NewLink (l : Link.t)
| NewRole (r : RoleInstance)
| NewPermission (p : Permission.t)
| NewRoleUserLink (l : RoleUserLink.t).

(** The calls made on the session object, most recent first. *)
Inductive Call : Type :=
| CExec | CGet | CAdd | CCommit | CRefresh.

(** A [Session]: the committed database it is connected to, the objects
    added and not yet flushed ([Session.new] in SQLAlchemy) and the record
    of the calls made on it.  No modelled provider queries between an
    [add] and the [commit] that follows, so queries read [db]. *)
Record Session : Type :=
  { db : Database;
    new : list Instance;
    calls : list Call }.

Definition called (c : Call) (s : Session) : Session :=
  {| db := db s; new := new s; calls := c :: calls s |}.

(** ** Exceptions and the monad *)

Inductive Exception : Type :=
| HTTPException (status_code : nat) (detail : option string)
| IntegrityError
| InvalidRequestError
| ValueError.

Inductive Result (A : Type) : Type :=
| Return (a : A)
| Raise (e : Exception).
Arguments Return {A} a.
Arguments Raise {A} e.

Definition M (A : Type) : Type := Session -> Result A * Session.

Definition ret {A} (a : A) : M A := fun s => (Return a, s).

Definition raise {A} (e : Exception) : M A := fun s => (Raise e, s).

Definition bind {A B} (m : M A) (k : A -> M B) : M B :=
  fun s =>
    match m s with
    | (Return a, s') => k a s'
    | (Raise e, s') => (Raise e, s')
    end.

Declare Scope session_scope.
Delimit Scope session_scope with session.
Notation "x <- m ;; k" := (bind m (fun x => k))
  (at level 100, m at next level, right associativity) : session_scope.
Notation "m ;;; k" := (bind m (fun _ => k))
  (at level 100, right associativity) : session_scope.
Open Scope session_scope.

(** [outcome m s] is what the call returns or raises, [after m s] the
    session it leaves. *)
Definition outcome {A} (m : M A) (s : Session) : Result A := fst (m s).
Definition after {A} (m : M A) (s : Session) : Session := snd (m s).

(** ** SQL comparisons *)

(** [column == value] on a nullable text column: NULL equals nothing, and
    two strings are equal when they are the same string (a binary
    collation). *)
Definition sql_eq (column : option string) (value : string) : bool :=
  match column with
  | Some c => c =? value
  | None => false
  end.

(** ** Session primitives *)

(** [db_session.exec(select(T).where(...)).first()] on table [rows].  The
    query reads the committed rows; the flush of pending objects that
    precedes a real query is not modelled, so what is stated of a query
    is stated for sessions without pending objects. *)
Definition exec_first {A} (rows : Database -> list A) (where_ : A -> bool)
  : M (option A) :=
  fun s => (Return (find where_ (rows (db s))), called CExec s).

(** [db_session.get(T, key)]: lookup by primary key, among the committed
    rows.  As for [exec_first], the flush of pending objects before the
    lookup is not modelled. *)
Definition get {A} (rows : Database -> list A) (pk : A -> string)
  (key : string) : M (option A) :=
  fun s => (Return (find (fun r => pk r =? key) (rows (db s))), called CGet s).

(** [db_session.add(instance)]: nothing reaches the database yet. *)
Definition add (i : Instance) : M unit :=
  fun s => (Return tt,
            {| db := db s; new := new s ++ [i]; calls := CAdd :: calls s |}).

(** *** Flushing: INSERTs under the primary-key constraints *)

Definition insert_link (l : Link.t) (d : Database) : option Database :=
  if existsb (fun r => Link.id r =? Link.id l) (links d) then None
  else Some {| users := users d; links := links d ++ [l]; roles := roles d;
               permissions := permissions d;
               role_user_links := role_user_links d |}.

Definition insert_role (r : Role.t) (d : Database) : option Database :=
  if existsb (fun x => Role.id x =? Role.id r) (roles d) then None
  else Some {| users := users d; links := links d; roles := roles d ++ [r];
               permissions := permissions d;
               role_user_links := role_user_links d |}.

Definition insert_permission (p : Permission.t) (d : Database)
  : option Database :=
  if existsb (fun x => Permission.permission_id x =? Permission.permission_id p)
       (permissions d) then None
  else Some {| users := users d; links := links d; roles := roles d;
               permissions := permissions d ++ [p];
               role_user_links := role_user_links d |}.

Definition insert_role_user_link (l : RoleUserLink.t) (d : Database)
  : option Database :=
  if existsb (RoleUserLink.same_key l) (role_user_links d) then None
  else Some {| users := users d; links := links d; roles := roles d;
               permissions := permissions d;
               role_user_links := role_user_links d ++ [l] |}.

Fixpoint insert_role_users (role_id : string) (us : list User.t)
  (d : Database) : option Database :=
  match us with
  | [] => Some d
  | u :: rest =>
      match insert_role_user_link
              {| RoleUserLink.user_id := User.id u;
                 RoleUserLink.role_id := role_id |} d with
      | Some d' => insert_role_users role_id rest d'
      | None => None
      end
  end.

Definition insert (i : Instance) (d : Database) : option Database :=
  match i with
  | NewLink l => insert_link l d
  | NewRole r =>
      match insert_role (role_row r) d with
      | Some d' => insert_role_users (Role.id (role_row r)) (role_users r) d'
      | None => None
      end
  | NewPermission p => insert_permission p d
  | NewRoleUserLink l => insert_role_user_link l d
  end.

(** The pending objects are written one after the other inside the
    transaction; the first violated constraint aborts the whole flush. *)
Fixpoint flush (pending : list Instance) (d : Database) : option Database :=
  match pending with
  | [] => Some d
  | i :: rest =>
      match insert i d with
      | Some d' => flush rest d'
      | None => None
      end
  end.

(** [db_session.commit()]: flush, then make the transaction durable.  A
    failed flush rolls the transaction back: the database keeps its
    committed state and the pending objects are dropped.  A real session
    then refuses further calls until it is rolled back; no provider
    below makes a call on its session after a failed commit. *)
Definition commit : M unit :=
  fun s =>
    match flush (new s) (db s) with
    | Some d' => (Return tt, {| db := d'; new := []; calls := CCommit :: calls s |})
    | None => (Raise IntegrityError,
               {| db := db s; new := []; calls := CCommit :: calls s |})
    end.

(** [db_session.refresh(link)]: reload the row from the database. *)
Definition refresh (link : Link.t) : M Link.t :=
  fun s =>
    match find (fun r => Link.id r =? Link.id link) (links (db s)) with
    | Some row => (Return row, called CRefresh s)
    | None => (Raise InvalidRequestError, called CRefresh s)
    end.

(** [user.roles]: the many-to-many relationship through [RoleUserLink],
    read from the database in table order. *)
Definition user_roles (d : Database) (user : User.t) : list Role.t :=
  filter
    (fun r =>
       existsb
         (fun l => (RoleUserLink.user_id l =? User.id user)
                   && (RoleUserLink.role_id l =? Role.id r))
         (role_user_links d))
    (roles d).

(** ** The permission predicates ([permissions.py]) *)

Definition is_not_None {A} (o : option A) : bool :=
  match o with
  | Some _ => true
  | None => false
  end.

(** The [where] clause of [has_permission]. *)
Definition scoped_where (role : Role.t)
  (resource_name resource_id action_name : string) (p : Permission.t) : bool :=
  sql_eq (Permission.role_id p) (Role.id role)
  && (Permission.resource_name p =? resource_name)
  && sql_eq (Permission.resource_id p) resource_id
  && (Permission.action p =? action_name).

Definition has_permission (role : Role.t)
  (resource_name resource_id action_name : string) : M bool :=
  permission <-
    exec_first permissions
      (scoped_where role resource_name resource_id action_name) ;;
  ret (is_not_None permission).

(** The [where] clause of [has_global_permission]: no condition on
    [Permission.resource_id]. *)
Definition global_where (role : Role.t)
  (resource_name action_name : string) (p : Permission.t) : bool :=
  sql_eq (Permission.role_id p) (Role.id role)
  && (Permission.resource_name p =? resource_name)
  && (Permission.action p =? action_name).

Definition has_global_permission (role : Role.t)
  (resource_name action_name : string) : M bool :=
  permission <-
    exec_first permissions (global_where role resource_name action_name) ;;
  ret (is_not_None permission).

(** ** Check requests *)

(** The values a [resource_id: Any] takes in the modelled callers, and
    Python's [str] on them. *)
Inductive Any : Type :=
| PyNone
| PyStr (s : string)
| PyInt (z : Z).

Definition str (v : Any) : string :=
  match v with
  | PyNone => "None"
  | PyStr s => s
  | PyInt z => NilZero.string_of_int (Z.to_int z)
  end.

(** [PermissionCheckModel | GlobalPermissionCheckModel] as a tagged union. *)
Inductive PCheck : Type :=
| PermissionCheckModel (resource_name : string) (resource_id : Any)
    (action_names : list string)
| GlobalPermissionCheckModel (resource_name : string)
    (action_names : list string).

Definition action_names (pcheck : PCheck) : list string :=
  match pcheck with
  | PermissionCheckModel _ _ names => names
  | GlobalPermissionCheckModel _ names => names
  end.

(** ** [PermissionChecker]

    The [db_session] field is the session the monad threads. *)
Module PermissionChecker.
Record t : Type := mk
  { roles : list Role.t;
    bypass_role : option string;
    bypass_roles : list string;
    pcheck_models : list PCheck }.
End PermissionChecker.

Definition _is_allowed (self : PermissionChecker.t) (role : Role.t)
  (pcheck : PCheck) (action_name : string) : M bool :=
  match pcheck with
  | PermissionCheckModel resource_name resource_id _ =>
      has_permission role resource_name (str resource_id) action_name
  | GlobalPermissionCheckModel resource_name _ =>
      has_global_permission role resource_name action_name
  end.

(** [[role.name for role in self.roles if role.name is not None]] *)
Definition roles_to_check (self : PermissionChecker.t) : list string :=
  flat_map
    (fun role => match Role.name role with
                 | Some n => [n]
                 | None => []
                 end)
    (PermissionChecker.roles self).

(** [x in names] for a list of strings. *)
Definition str_in (x : string) (names : list string) : bool :=
  existsb (fun n => n =? x) names.

(** [self.bypass_role in roles_to_check]: [None] is in no list of names. *)
Definition opt_in (x : option string) (names : list string) : bool :=
  match x with
  | Some n => str_in n names
  | None => false
  end.

(** Truth value of a Python string: the empty string is falsy. *)
Definition truthy (x : string) : bool := negb (x =? EmptyString).

(** Python's [any] over a list of strings tests the strings themselves. *)
Definition any (xs : list string) : bool := existsb truthy xs.

(** The test that guards the early [return True] of [check]. *)
Definition bypassed (self : PermissionChecker.t) : bool :=
  opt_in (PermissionChecker.bypass_role self) (roles_to_check self)
  || any (filter (fun bypass_role => str_in bypass_role (roles_to_check self))
            (PermissionChecker.bypass_roles self)).

(** *** The loops of the any-of branch

    Each loop returns [true] when its body reached [return True]. *)
Fixpoint either_actions (self : PermissionChecker.t) (role : Role.t)
  (pcheck : PCheck) (names : list string) : M bool :=
  match names with
  | [] => ret false
  | action_name :: rest =>
      allowed <- _is_allowed self role pcheck action_name ;;
      if allowed then ret true
      else either_actions self role pcheck rest
  end.

Fixpoint either_pchecks (self : PermissionChecker.t) (role : Role.t)
  (pchecks : list PCheck) : M bool :=
  match pchecks with
  | [] => ret false
  | pcheck :: rest =>
      found <- either_actions self role pcheck (action_names pcheck) ;;
      if found then ret true
      else either_pchecks self role rest
  end.

Fixpoint either_roles (self : PermissionChecker.t) (rs : list Role.t)
  : M bool :=
  match rs with
  | [] => ret false
  | role :: rest =>
      found <- either_pchecks self role (PermissionChecker.pcheck_models self) ;;
      if found then ret true
      else either_roles self rest
  end.

(** *** The loops of the all-of branch

    The two inner loops return the flag [all_permissions_satisfied]; a
    [break] is the loop returning [false] without visiting the rest. *)
Fixpoint all_actions (self : PermissionChecker.t) (role : Role.t)
  (pcheck : PCheck) (names : list string) : M bool :=
  match names with
  | [] => ret true
  | action_name :: rest =>
      allowed <- _is_allowed self role pcheck action_name ;;
      if negb allowed then ret false
      else all_actions self role pcheck rest
  end.

Fixpoint all_pchecks (self : PermissionChecker.t) (role : Role.t)
  (pchecks : list PCheck) : M bool :=
  match pchecks with
  | [] => ret true
  | pcheck :: rest =>
      all_permissions_satisfied <-
        all_actions self role pcheck (action_names pcheck) ;;
      if negb all_permissions_satisfied then ret false
      else all_pchecks self role rest
  end.

Fixpoint all_roles (self : PermissionChecker.t) (rs : list Role.t)
  : M bool :=
  match rs with
  | [] => ret false
  | role :: rest =>
      all_permissions_satisfied <-
        all_pchecks self role (PermissionChecker.pcheck_models self) ;;
      if all_permissions_satisfied then ret true
      else all_roles self rest
  end.

Definition check (self : PermissionChecker.t) (either : bool) : M bool :=
  if bypassed self then ret true
  else if either then
    found <- either_roles self (PermissionChecker.roles self) ;;
    if found then ret true
    else raise (HTTPException 401
                  (Some "Not authorized to access this resource"))
  else
    found <- all_roles self (PermissionChecker.roles self) ;;
    if found then ret true
    else raise (HTTPException 401 (Some "Not authorized to access resource")).

(** [check] called [n] times in a row on the same checker, each call in
    the session the previous one left; the outcomes are collected. *)
Fixpoint check_repeatedly (self : PermissionChecker.t) (either : bool)
  (n : nat) (s : Session) : list (Result bool) * Session :=
  match n with
  | O => ([], s)
  | S k =>
      let (r, s') := check self either s in
      let (rs, s'') := check_repeatedly self either k s' in
      (r :: rs, s'')
  end.

(** A call [self.check(either)] with the object it leaves: the outcome,
    the checker after the call and the session after the call.  The
    bodies of [check] and [_is_allowed] read the attributes [roles],
    [bypass_role], [bypass_roles] and [pcheck_models] of [self] and hold
    no assignment to an attribute of [self]; the attribute [db_session]
    is the session, which the queries go through. *)
Definition call_check (either : bool) (self : PermissionChecker.t)
  (s : Session) : Result bool * PermissionChecker.t * Session :=
  let (r, s') := check self either s in
  (r, self, s').

(** [n] calls in a row on one checker object: every call is made on the
    object and in the session the previous call left. *)
Fixpoint call_check_repeatedly (either : bool) (n : nat)
  (self : PermissionChecker.t) (s : Session)
  : list (Result bool) * PermissionChecker.t * Session :=
  match n with
  | O => ([], self, s)
  | S k =>
      let '(r, self', s') := call_check either self s in
      let '(rs, self'', s'') := call_check_repeatedly either k self' s' in
      (r :: rs, self'', s'')
  end.

(** ** Guard checkers ([app/core/security/checkers.py]) *)

(** Modelled from the spec: [check_existence] lives in
    [app/core/security/checkers.py], which is not among the sources.  It
    fails with the given status (a not-found-class error by default) when
    the value is absent and otherwise passes the value through.  The
    arguments a caller leaves to their defaults are written out at the
    call.  What the missing file puts in place of a [detail] the caller
    leaves out is not known from the sources: [None] stands for it, and
    no more than the status is to be read from such an exception. *)
Definition check_existence {A} (value : option A) (status_code : nat)
  (detail : option string) : M A :=
  match value with
  | Some v => ret v
  | None => raise (HTTPException status_code detail)
  end.

(** Modelled from the spec: [check_non_existence], from the same missing
    file, fails with a conflict-class error when the value is present. *)
Definition check_non_existence {A} (value : option A) (status_code : nat)
  (detail : option string) : M unit :=
  match value with
  | Some _ => raise (HTTPException status_code detail)
  | None => ret tt
  end.

(** ** Builders ([app/core/db/builders]) *)

(** [RoleBuilder] ([app/core/db/builders/role.py]) and
    [PermissionBuilder] ([app/core/db/builders/permission.py]) are not
    among the sources; both are modelled from the spec's description of
    the fluent construction.  A chain [B().f(x).g(y).make()] reads
    [make (g y (f x new))]. *)

Module RoleBuilder.
(** Modelled from the spec: the state of a [RoleBuilder], the users
    accumulated so far and the optional display name. *)
Record t : Type := mk
  { users : list User.t;
    name : option string }.

(** Modelled from the spec: [RoleBuilder()], no user and no name. *)
Definition new : t := {| users := []; name := None |}.

(** Modelled from the spec: [addUser] associates the role with one more
    user; several calls accumulate. *)
Definition addUser (user : User.t) (b : t) : t :=
  {| users := users b ++ [user]; name := name b |}.

(** Modelled from the spec: [withName] sets the optional display name. *)
Definition withName (n : option string) (b : t) : t :=
  {| users := users b; name := n |}.

(** Modelled from the spec: [make] produces the role, not yet persisted;
    without a name it is an anonymous, personal role.  The [id] is what
    the model's default factory draws. *)
Definition make (id : string) (b : t) : RoleInstance :=
  {| role_row := {| Role.id := id; Role.name := name b |};
     role_users := users b |}.
End RoleBuilder.

Module PermissionBuilder.
(** Modelled from the spec: the state of a [PermissionBuilder]. *)
Record t : Type := mk
  { action_name : option string;
    resource_name : option string;
    resource_id : option string;
    role : option RoleInstance }.

(** Modelled from the spec: [PermissionBuilder()], nothing set. *)
Definition new : t :=
  {| action_name := None; resource_name := None; resource_id := None;
     role := None |}.

(** Modelled from the spec: [forRole] binds the owning role. *)
Definition forRole (r : RoleInstance) (b : t) : t :=
  {| action_name := action_name b; resource_name := resource_name b;
     resource_id := resource_id b; role := Some r |}.

(** Modelled from the spec: [withActionName]. *)
Definition withActionName (a : string) (b : t) : t :=
  {| action_name := Some a; resource_name := resource_name b;
     resource_id := resource_id b; role := role b |}.

(** Modelled from the spec: [withResourceName]. *)
Definition withResourceName (n : string) (b : t) : t :=
  {| action_name := action_name b; resource_name := Some n;
     resource_id := resource_id b; role := role b |}.

(** Modelled from the spec: [withResourceId] is optional; leaving it out,
    or passing [None], means a global grant. *)
Definition withResourceId (i : option string) (b : t) : t :=
  {| action_name := action_name b; resource_name := resource_name b;
     resource_id := i; role := role b |}.

(** Modelled from the spec: [make] produces the permission owned by the
    bound role; called before [forRole] it is an error.  The spec is
    silent on a missing action or resource name: they are errors here as
    well, and no caller in the sources omits them.  The
    [permission_id] is what the model's default factory draws. *)
Definition make (permission_id : string) (b : t) : M Permission.t :=
  match role b, action_name b, resource_name b with
  | Some r, Some a, Some n =>
      ret {| Permission.permission_id := permission_id;
             Permission.resource_name := n;
             Permission.resource_id := resource_id b;
             Permission.action := a;
             Permission.role_id := Some (Role.id (role_row r)) |}
  | _, _, _ => raise ValueError
  end.
End PermissionBuilder.

(** ** Providers *)

(** What the default factories of the models draw while [create_link]
    runs: [gen_id] for the three primary keys, [datetime.now] for
    [created_at].  [app/utils/crypto.py] is not among the sources, so the
    drawn values are inputs of the provider. *)
Record Defaults : Type :=
  { link_id : string;
    role_id : string;
    permission_id : string;
    utc_now : Z }.

(** [create_link] of [providers/link.py]. *)
Definition create_link (drawn : Defaults) (current_user : User.t)
  (data : LinkCreationDTO.t) : M LinkDTO.t :=
  existing <-
    exec_first links
      (fun l => Link.label l =? LinkCreationDTO.label data) ;;
  check_non_existence existing HTTP_409_CONFLICT None ;;;
  let link :=
    {| Link.id := link_id drawn;
       Link.user_id := User.id current_user;
       Link.label := LinkCreationDTO.label data;
       Link.url := LinkCreationDTO.url data;
       Link.created_at := utc_now drawn;
       Link.description := LinkCreationDTO.description data |} in
  let rw_role :=
    RoleBuilder.make (role_id drawn)
      (RoleBuilder.addUser current_user RoleBuilder.new) in
  rw_perm <-
    PermissionBuilder.make (permission_id drawn)
      (PermissionBuilder.withResourceId (Some (Link.id link))
         (PermissionBuilder.withResourceName LINK_RESOURCE
            (PermissionBuilder.withActionName ACTION_READWRITE
               (PermissionBuilder.forRole rw_role PermissionBuilder.new)))) ;;
  add (NewLink link) ;;;
  add (NewRole rw_role) ;;;
  add (NewPermission rw_perm) ;;;
  commit ;;;
  link' <- refresh link ;;
  ret (to_dto link').

(** [current_user.roles]: the relationship is loaded from the database
    the session is connected to. *)
Definition load_roles (user : User.t) : M (list Role.t) :=
  fun s => (Return (user_roles (db s) user), s).

(** The checker every role-administration provider builds. *)
Definition user_rw_checker (current_user_roles : list Role.t)
  : PermissionChecker.t :=
  {| PermissionChecker.roles := current_user_roles;
     PermissionChecker.bypass_role := Some ADMIN_ROLE_NAME;
     PermissionChecker.bypass_roles := [];
     PermissionChecker.pcheck_models :=
       [GlobalPermissionCheckModel USER_RESOURCE [ACTION_READWRITE]] |}.

(** [assign_role_to_user] of [providers/user.py]. *)
Definition assign_role_to_user (current_user : User.t)
  (user_id role_id : string) : M MessageResponse :=
  current_user_roles <- load_roles current_user ;;
  check (user_rw_checker current_user_roles) false ;;;
  found_user <- get users User.id user_id ;;
  check_existence found_user HTTP_404_NOT_FOUND (Some "User not found.") ;;;
  found_role <- get roles Role.id role_id ;;
  check_existence found_role HTTP_404_NOT_FOUND (Some "Role not found.") ;;;
  existing_link <-
    exec_first role_user_links
      (fun l => (RoleUserLink.user_id l =? user_id)
                && (RoleUserLink.role_id l =? role_id)) ;;
  if is_not_None existing_link then
    ret {| message := "User already has this role." |}
  else
    add (NewRoleUserLink {| RoleUserLink.user_id := user_id;
                            RoleUserLink.role_id := role_id |}) ;;;
    commit ;;;
    ret {| message := "Role assigned to user successfully." |}.

(** A session as [create_db_session] opens it on the engine. *)
Definition Session_ (engine : Database) : Session :=
  {| db := engine; new := []; calls := [] |}.

(** ** Vocabulary of the properties *)

(** Two sessions hold the same store: the same committed database and the
    same pending objects. *)
Definition same_store (s s' : Session) : Prop :=
  db s' = db s /\ new s' = new s.

(** From [s] to [s'] nothing was done on the session but queries: the
    store is the same and every call recorded since [s] is an [exec]. *)
Definition only_queried (s s' : Session) : Prop :=
  same_store s s' /\ exists k, calls s' = (repeat CExec k ++ calls s)%list.

(** Some role of the caller carries a name that is the configured bypass
    role or one of the configured bypass roles. *)
Definition bypass_named (self : PermissionChecker.t) : Prop :=
  exists role n,
    In role (PermissionChecker.roles self)
    /\ Role.name role = Some n
    /\ (PermissionChecker.bypass_role self = Some n
        \/ In n (PermissionChecker.bypass_roles self)).

(** The predicate [_is_allowed] selects holds at [(role, pcheck, action)]
    in session [s]. *)
Definition satisfied (self : PermissionChecker.t) (s : Session)
  (role : Role.t) (pcheck : PCheck) (action_name : string) : Prop :=
  outcome (_is_allowed self role pcheck action_name) s = Return true.

(** The rows that match a role, a resource name and an action, whatever
    their [resource_id]. *)
Definition grants (role : Role.t) (resource_name action_name : string)
  (p : Permission.t) : Prop :=
  Permission.role_id p = Some (Role.id role)
  /\ Permission.resource_name p = resource_name
  /\ Permission.action p = action_name.

(** The same session over a database whose permission rows had their
    [resource_id] rewritten by [f]. *)
Definition with_resource_id (v : option string) (p : Permission.t)
  : Permission.t :=
  {| Permission.permission_id := Permission.permission_id p;
     Permission.resource_name := Permission.resource_name p;
     Permission.resource_id := v;
     Permission.action := Permission.action p;
     Permission.role_id := Permission.role_id p |}.

Definition rescoped (f : Permission.t -> option string) (s : Session)
  : Session :=
  {| db := {| users := users (db s); links := links (db s);
              roles := roles (db s);
              permissions :=
                map (fun p => with_resource_id (f p) p) (permissions (db s));
              role_user_links := role_user_links (db s) |};
     new := new s;
     calls := calls s |}.

(** The value [_is_allowed] computes, read off the database. *)
Definition granted (d : Database) (role : Role.t) (pcheck : PCheck)
  (action_name : string) : bool :=
  match pcheck with
  | PermissionCheckModel resource_name resource_id _ =>
      existsb (scoped_where role resource_name (str resource_id) action_name)
        (permissions d)
  | GlobalPermissionCheckModel resource_name _ =>
      existsb (global_where role resource_name action_name) (permissions d)
  end.

(** The outcome of [check], read off the database. *)
Definition verdict (d : Database) (self : PermissionChecker.t)
  (either : bool) : Result bool :=
  if bypassed self then Return true
  else if either then
    if existsb
         (fun role =>
            existsb
              (fun pcheck =>
                 existsb (granted d role pcheck) (action_names pcheck))
              (PermissionChecker.pcheck_models self))
         (PermissionChecker.roles self)
    then Return true
    else Raise (HTTPException 401
                  (Some "Not authorized to access this resource"))
  else
    if existsb
         (fun role =>
            forallb
              (fun pcheck =>
                 forallb (granted d role pcheck) (action_names pcheck))
              (PermissionChecker.pcheck_models self))
         (PermissionChecker.roles self)
    then Return true
    else Raise (HTTPException 401 (Some "Not authorized to access resource")).

(** *** Vocabulary for the providers *)

(** Some committed link already carries the label. *)
Definition label_taken (label : string) (d : Database) : bool :=
  existsb (fun l => Link.label l =? label) (links d).

(** The drawn keys are unused: no link, role or permission row carries
    them, and no role-user link refers to the drawn role id. *)
Definition fresh_keys (drawn : Defaults) (d : Database) : bool :=
  negb (existsb (fun l => Link.id l =? link_id drawn) (links d))
  && negb (existsb (fun r => Role.id r =? role_id drawn) (roles d))
  && negb (existsb (fun p => Permission.permission_id p =? permission_id drawn)
             (permissions d))
  && negb (existsb (fun l => RoleUserLink.role_id l =? role_id drawn)
             (role_user_links d)).

(** The rows the claim on [create_link] speaks of. *)
Definition the_link (drawn : Defaults) (current_user : User.t)
  (data : LinkCreationDTO.t) : Link.t :=
  {| Link.id := link_id drawn;
     Link.user_id := User.id current_user;
     Link.label := LinkCreationDTO.label data;
     Link.url := LinkCreationDTO.url data;
     Link.created_at := utc_now drawn;
     Link.description := LinkCreationDTO.description data |}.

Definition the_personal_role (drawn : Defaults) : Role.t :=
  {| Role.id := role_id drawn; Role.name := None |}.

Definition the_membership (drawn : Defaults) (current_user : User.t)
  : RoleUserLink.t :=
  {| RoleUserLink.user_id := User.id current_user;
     RoleUserLink.role_id := role_id drawn |}.

Definition the_rw_permission (drawn : Defaults) : Permission.t :=
  {| Permission.permission_id := permission_id drawn;
     Permission.resource_name := "link";
     Permission.resource_id := Some (link_id drawn);
     Permission.action := "rw";
     Permission.role_id := Some (role_id drawn) |}.

(** The database with exactly these rows added, one per table, and the
    users as they were. *)
Definition with_link (drawn : Defaults) (current_user : User.t)
  (data : LinkCreationDTO.t) (d : Database) : Database :=
  {| users := users d;
     links := links d ++ [the_link drawn current_user data];
     roles := roles d ++ [the_personal_role drawn];
     permissions := permissions d ++ [the_rw_permission drawn];
     role_user_links :=
       role_user_links d ++ [the_membership drawn current_user] |}.

(** The database with one more role-user link and nothing else. *)
Definition with_membership (user_id role_id : string) (d : Database)
  : Database :=
  {| users := users d;
     links := links d;
     roles := roles d;
     permissions := permissions d;
     role_user_links :=
       role_user_links d
       ++ [{| RoleUserLink.user_id := user_id;
              RoleUserLink.role_id := role_id |}] |}.

(** A role-user link for the pair is committed. *)
Definition has_membership (user_id role_id : string) (d : Database) : bool :=
  existsb
    (fun l => (RoleUserLink.user_id l =? user_id)
              && (RoleUserLink.role_id l =? role_id))
    (role_user_links d).

(** A committed user, a committed role, with the given primary key. *)
Definition user_exists (user_id : string) (d : Database) : bool :=
  existsb (fun u => User.id u =? user_id) (users d).

Definition role_exists (role_id : string) (d : Database) : bool :=
  existsb (fun r => Role.id r =? role_id) (roles d).

(** The caller passes the gate of the role-administration providers. *)
Definition may_administer_users (current_user : User.t) (s : Session)
  : Prop :=
  outcome (check (user_rw_checker (user_roles (db s) current_user)) false) s
  = Return true.

(** ** A small deployment, used by the examples *)

Definition alice : User.t :=
  User.mk "u-alice" "alice@example.org" "alice" "hash-a" "Alice".
Definition bob : User.t :=
  User.mk "u-bob" "bob@example.org" "bob" "hash-b" "Bob".
Definition carol : User.t :=
  User.mk "u-carol" "carol@example.org" "carol" "hash-c" "Carol".

Definition admin : Role.t := Role.mk "r-admin" (Some "admin").
Definition alice_personal : Role.t := Role.mk "r-alice" None.
Definition blank : Role.t := Role.mk "r-blank" (Some EmptyString).

Definition docs_link : Link.t :=
  Link.mk "lnk-docs" "u-alice" "docs" "https://example.org/docs"
    1700000000 None.

(** Carol holds the admin role, with a global read-write grant on users;
    Alice holds a personal role scoped to her link; Bob holds a role
    whose name is the empty string and that grants nothing. *)
Definition deployment : Database :=
  {| users := [alice; bob; carol];
     links := [docs_link];
     roles := [admin; alice_personal; blank];
     permissions :=
       [ Permission.mk "p-admin-user" "user" None "rw" (Some "r-admin");
         Permission.mk "p-alice-docs" "link" (Some "lnk-docs") "rw"
           (Some "r-alice") ];
     role_user_links :=
       [ RoleUserLink.mk "u-carol" "r-admin";
         RoleUserLink.mk "u-alice" "r-alice";
         RoleUserLink.mk "u-bob" "r-blank" ] |}.

(** The checker [update_link] builds for Alice on her link. *)
Definition alice_on_docs : PermissionChecker.t :=
  {| PermissionChecker.roles := [alice_personal];
     PermissionChecker.bypass_role := None;
     PermissionChecker.bypass_roles := [];
     PermissionChecker.pcheck_models :=
       [PermissionCheckModel LINK_RESOURCE (PyStr "lnk-docs")
          [ACTION_READWRITE]] |}.

(** A checker without check requests. *)
Definition alice_no_requests : PermissionChecker.t :=
  {| PermissionChecker.roles := [alice_personal];
     PermissionChecker.bypass_role := Some ADMIN_ROLE_NAME;
     PermissionChecker.bypass_roles := [];
     PermissionChecker.pcheck_models := [] |}.

(** A checker whose list of bypass roles names Bob's role, the role
    whose name is the empty string. *)
Definition bob_listed_bypass : PermissionChecker.t :=
  {| PermissionChecker.roles := [blank];
     PermissionChecker.bypass_role := None;
     PermissionChecker.bypass_roles := [EmptyString];
     PermissionChecker.pcheck_models :=
       [PermissionCheckModel LINK_RESOURCE (PyStr "lnk-docs")
          [ACTION_READWRITE]] |}.


(** What the default factories draw in the examples: unused keys, and a
    draw whose permission key is already taken. *)
Definition drawn_new : Defaults :=
  {| link_id := "lnk-blog"; role_id := "r-blog"; permission_id := "p-blog";
     utc_now := 1700000100 |}.

Definition drawn_clash : Defaults :=
  {| link_id := "lnk-blog"; role_id := "r-blog";
     permission_id := "p-admin-user"; utc_now := 1700000100 |}.

Definition blog : LinkCreationDTO.t :=
  LinkCreationDTO.mk "blog" "https://example.org/blog" None.

(** * The rest of the permission engine and of the providers

    The functions of [permissions.py], [providers/link.py] and
    [providers/user.py] that only read, or only insert. *)

(** ** More session primitives *)

(** [column == None], which SQLAlchemy renders as [IS NULL]. *)
Definition sql_is_null (column : option string) : bool :=
  match column with
  | Some _ => false
  | None => true
  end.

(** [db_session.exec(select(T).where(...).offset(skip).limit(limit)).all()]
    on table [rows], in table order.  The controllers only pass
    [skip >= 0] and [limit >= 1].  As for [exec_first], the rows read are
    the committed ones and the flush before the query is not modelled. *)
Definition exec_all {A} (rows : Database -> list A) (where_ : A -> bool)
  (skip limit : nat) : M (list A) :=
  fun s =>
    (Return (firstn limit (skipn skip (filter where_ (rows (db s))))),
     called CExec s).

(** [db_session.refresh(permission)]. *)
Definition refresh_permission (permission : Permission.t) : M Permission.t :=
  fun s =>
    match find (fun r => Permission.permission_id r
                         =? Permission.permission_id permission)
            (permissions (db s)) with
    | Some row => (Return row, called CRefresh s)
    | None => (Raise InvalidRequestError, called CRefresh s)
    end.

(** [db_session.add_all(instances)]. *)
Fixpoint add_all (instances : list Instance) : M unit :=
  match instances with
  | [] => ret tt
  | i :: rest => add i ;;; add_all rest
  end.

(** ** [create_global_permission] and [create_permission]
    ([permissions.py]) *)

(** The [where] clause of [create_global_permission]. *)
Definition unscoped_where (role_id resource_name action_name : string)
  (p : Permission.t) : bool :=
  sql_eq (Permission.role_id p) role_id
  && (Permission.resource_name p =? resource_name)
  && (Permission.action p =? action_name)
  && sql_is_null (Permission.resource_id p).

(** [create_global_permission]; [drawn_id] is the [permission_id] the
    default factory draws.  With [commit=True] the function falls off its
    end and returns [None]. *)
Definition create_global_permission (drawn_id : string) (role_id : string)
  (resource_name action_name : string) (do_commit : bool)
  : M (option Permission.t) :=
  role <- get roles Role.id role_id ;;
  (if is_not_None role then ret tt
   else raise (HTTPException HTTP_404_NOT_FOUND (Some "Role not found."))) ;;;
  permission_in_db <-
    exec_first permissions
      (unscoped_where role_id resource_name action_name) ;;
  (if is_not_None permission_in_db then
     raise (HTTPException HTTP_409_CONFLICT
              (Some "The user already has this permission."))
   else ret tt) ;;;
  let permission :=
    {| Permission.permission_id := drawn_id;
       Permission.resource_name := resource_name;
       Permission.resource_id := None;
       Permission.action := action_name;
       Permission.role_id := Some role_id |} in
  if do_commit then
    add (NewPermission permission) ;;;
    commit ;;;
    refresh_permission permission ;;;
    ret None
  else
    add (NewPermission permission) ;;;
    ret (Some permission).

(** [create_permission] of [permissions.py]. *)
Definition create_permission (drawn_id : string) (_role : option Role.t)
  (resource_name : string) (resource_id : Any) (action_name : string)
  (do_commit : bool) : M Permission.t :=
  role <- check_existence _role HTTP_401_UNAUTHORIZED
            (Some "Not authorized to access this resource.") ;;
  permission_in_db <-
    exec_first permissions
      (scoped_where role resource_name (str resource_id) action_name) ;;
  (if is_not_None permission_in_db then
     raise (HTTPException HTTP_409_CONFLICT
              (Some "The user already has this permission."))
   else ret tt) ;;;
  let permission :=
    {| Permission.permission_id := drawn_id;
       Permission.resource_name := resource_name;
       Permission.resource_id := Some (str resource_id);
       Permission.action := action_name;
       Permission.role_id := Some (Role.id role) |} in
  if do_commit then
    add (NewPermission permission) ;;;
    commit ;;;
    permission' <- refresh_permission permission ;;
    ret permission'
  else
    ret permission.

(** ** The readers of [providers/link.py] *)

Definition get_link_by_label (label : string) : M LinkDTO.t :=
  found <- exec_first links (fun l => Link.label l =? label) ;;
  link <- check_existence found HTTP_404_NOT_FOUND None ;;
  ret (to_dto link).

Definition get_link (link_id : string) : M LinkDTO.t :=
  found <- get links Link.id link_id ;;
  link <- check_existence found HTTP_404_NOT_FOUND (Some "Link not found.") ;;
  ret (to_dto link).

Definition get_my_links (current_user : User.t) (skip limit : nat)
  : M (list LinkDTO.t) :=
  found <-
    exec_all links (fun l => Link.user_id l =? User.id current_user)
      skip limit ;;
  ret (map to_dto found).

(** The checker of [get_user_link]. *)
Definition link_reader_checker (current_user_roles : list Role.t)
  : PermissionChecker.t :=
  {| PermissionChecker.roles := current_user_roles;
     PermissionChecker.bypass_role := Some ADMIN_ROLE_NAME;
     PermissionChecker.bypass_roles := [];
     PermissionChecker.pcheck_models :=
       [GlobalPermissionCheckModel LINK_RESOURCE [ACTION_READ];
        GlobalPermissionCheckModel LINK_RESOURCE [ACTION_READWRITE]] |}.

Definition get_user_link (current_user : User.t) (target_user_id : string)
  (skip limit : nat) : M (list LinkDTO.t) :=
  current_user_roles <- load_roles current_user ;;
  check (link_reader_checker current_user_roles) true ;;;
  found_user <- get users User.id target_user_id ;;
  check_existence found_user HTTP_404_NOT_FOUND (Some "User not found.") ;;;
  found <-
    exec_all links (fun l => Link.user_id l =? target_user_id) skip limit ;;
  ret (map to_dto found).

(** The checker of [update_link] ([bypass_role = None]) and of
    [delete_link] ([bypass_role = ADMIN_ROLE_NAME]) for the link
    [link_id]. *)
Definition link_owner_checker (current_user_roles : list Role.t)
  (bypass_role : option string) (link_id : string) : PermissionChecker.t :=
  {| PermissionChecker.roles := current_user_roles;
     PermissionChecker.bypass_role := bypass_role;
     PermissionChecker.bypass_roles := [];
     PermissionChecker.pcheck_models :=
       [PermissionCheckModel LINK_RESOURCE (PyStr link_id)
          [ACTION_READWRITE]] |}.

(** ** More of [providers/user.py] *)

(** The checker of [is_admin]. *)
Definition admin_checker (current_user_roles : list Role.t)
  : PermissionChecker.t :=
  {| PermissionChecker.roles := current_user_roles;
     PermissionChecker.bypass_role := Some ADMIN_ROLE_NAME;
     PermissionChecker.bypass_roles := [];
     PermissionChecker.pcheck_models :=
       [GlobalPermissionCheckModel ADMIN_RESOURCE [ACTION_READWRITE]] |}.

Definition is_admin (current_user : User.t) : M bool :=
  current_user_roles <- load_roles current_user ;;
  check (admin_checker current_user_roles) false.

(** The checker of [create_role], [delete_role] and of the providers
    [create_permission] and [delete_permission]. *)
Definition role_rw_checker (current_user_roles : list Role.t)
  : PermissionChecker.t :=
  {| PermissionChecker.roles := current_user_roles;
     PermissionChecker.bypass_role := Some ADMIN_ROLE_NAME;
     PermissionChecker.bypass_roles := [];
     PermissionChecker.pcheck_models :=
       [GlobalPermissionCheckModel ROLE_RESOURCE [ACTION_READWRITE]] |}.

(** [create_role]; [drawn_id] is the role id the default factory draws. *)
Definition create_role (drawn_id : string) (current_user : User.t)
  (role_name : string) : M MessageResponse :=
  current_user_roles <- load_roles current_user ;;
  check (role_rw_checker current_user_roles) false ;;;
  let role :=
    RoleBuilder.make drawn_id
      (RoleBuilder.withName (Some role_name) RoleBuilder.new) in
  add (NewRole role) ;;;
  commit ;;;
  ret {| message := "Role '" ++ role_name ++ "' created successfully." |}.

(** The checker of [add_permission_to_user]: no bypass role. *)
Definition admin_rw_checker (current_user_roles : list Role.t)
  : PermissionChecker.t :=
  {| PermissionChecker.roles := current_user_roles;
     PermissionChecker.bypass_role := None;
     PermissionChecker.bypass_roles := [];
     PermissionChecker.pcheck_models :=
       [GlobalPermissionCheckModel ADMIN_RESOURCE [ACTION_READWRITE]] |}.

(** [add_permission_to_user]; the two drawn ids are those of the new role
    and of the new permission. *)
Definition add_permission_to_user (drawn_role_id drawn_permission_id : string)
  (current_user : User.t) (target_user_id : string)
  (action_name resource_id resource_name : string)
  (role_name : option string) : M MessageResponse :=
  current_user_roles <- load_roles current_user ;;
  check (admin_rw_checker current_user_roles) false ;;;
  found_user <- get users User.id target_user_id ;;
  target_user <-
    check_existence found_user HTTP_404_NOT_FOUND (Some "User not found.") ;;
  let role :=
    RoleBuilder.make drawn_role_id
      (RoleBuilder.withName role_name
         (RoleBuilder.addUser target_user RoleBuilder.new)) in
  permission <-
    PermissionBuilder.make drawn_permission_id
      (PermissionBuilder.withActionName action_name
         (PermissionBuilder.withResourceId (Some resource_id)
            (PermissionBuilder.withResourceName resource_name
               (PermissionBuilder.forRole role PermissionBuilder.new)))) ;;
  add_all [NewRole role; NewPermission permission] ;;;
  commit ;;;
  ret {| message := "Permission added successfully." |}.

(** ** Vocabulary for the further properties *)

(** The database with one more permission row and nothing else. *)
Definition with_permission (p : Permission.t) (d : Database) : Database :=
  {| users := users d;
     links := links d;
     roles := roles d;
     permissions := permissions d ++ [p];
     role_user_links := role_user_links d |}.

(** No committed permission carries the key. *)
Definition permission_key_free (permission_id : string) (d : Database)
  : bool :=
  negb (existsb (fun p => Permission.permission_id p =? permission_id)
          (permissions d)).

(** The row [create_global_permission] builds. *)
Definition global_row (drawn_id role_id resource_name action_name : string)
  : Permission.t :=
  {| Permission.permission_id := drawn_id;
     Permission.resource_name := resource_name;
     Permission.resource_id := None;
     Permission.action := action_name;
     Permission.role_id := Some role_id |}.

(** The row [create_permission] builds. *)
Definition scoped_row (drawn_id : string) (role : Role.t)
  (resource_name : string) (resource_id : Any) (action_name : string)
  : Permission.t :=
  {| Permission.permission_id := drawn_id;
     Permission.resource_name := resource_name;
     Permission.resource_id := Some (str resource_id);
     Permission.action := action_name;
     Permission.role_id := Some (Role.id role) |}.

(** The 409 of the two permission constructors. *)
Definition already_has_permission : Exception :=
  HTTPException 409 (Some "The user already has this permission.").

(** A permission key no row of the deployment carries. *)
Definition draw_p1 : string := "p-new-1".

(** A page of a table: [offset(skip).limit(limit)] over the selected
    rows. *)
Definition page {A} (skip limit : nat) (rows : list A) : list A :=
  firstn limit (skipn skip rows).

(** The links of a user, in table order. *)
Definition links_of (user_id : string) (d : Database) : list Link.t :=
  filter (fun l => Link.user_id l =? user_id) (links d).

(** The caller passes the gate of [get_user_link]. *)
Definition may_list_links (current_user : User.t) (s : Session) : Prop :=
  outcome (check (link_reader_checker (user_roles (db s) current_user)) true) s
  = Return true.

(** A checker for the given roles, with any bypass configuration and any
    list of check requests. *)
Definition checker_for (current_user_roles : list Role.t)
  (like : PermissionChecker.t) : PermissionChecker.t :=
  {| PermissionChecker.roles := current_user_roles;
     PermissionChecker.bypass_role := PermissionChecker.bypass_role like;
     PermissionChecker.bypass_roles := PermissionChecker.bypass_roles like;
     PermissionChecker.pcheck_models := PermissionChecker.pcheck_models like |}.

(** The 401 of the any-of branch of [check]. *)
Definition not_authorized_this : Exception :=
  HTTPException 401 (Some "Not authorized to access this resource").

(** The 401 of the all-of branch of [check]. *)
Definition not_authorized : Exception :=
  HTTPException 401 (Some "Not authorized to access resource").

(** The caller passes the gate of [add_permission_to_user]. *)
Definition may_grant (current_user : User.t) (s : Session) : Prop :=
  outcome (check (admin_rw_checker (user_roles (db s) current_user)) false) s
  = Return true.

(** The caller passes the gate of [create_role]. *)
Definition may_administer_roles (current_user : User.t) (s : Session)
  : Prop :=
  outcome (check (role_rw_checker (user_roles (db s) current_user)) false) s
  = Return true.

(** The role key is unused: no role row carries it and no role-user link
    refers to it. *)
Definition role_key_free (role_id : string) (d : Database) : bool :=
  negb (existsb (fun r => Role.id r =? role_id) (roles d))
  && negb (existsb (fun l => RoleUserLink.role_id l =? role_id)
             (role_user_links d)).

(** The database with one more role row and nothing else. *)
Definition with_role (r : Role.t) (d : Database) : Database :=
  {| users := users d;
     links := links d;
     roles := roles d ++ [r];
     permissions := permissions d;
     role_user_links := role_user_links d |}.

(** The rows [add_permission_to_user] writes: a role for the target
    user, the membership, and the grant. *)
Definition with_grant (drawn_role_id drawn_permission_id : string)
  (target_user_id action_name resource_id resource_name : string)
  (role_name : option string) (d : Database) : Database :=
  {| users := users d;
     links := links d;
     roles := roles d ++ [{| Role.id := drawn_role_id;
                             Role.name := role_name |}];
     permissions :=
       permissions d
       ++ [{| Permission.permission_id := drawn_permission_id;
              Permission.resource_name := resource_name;
              Permission.resource_id := Some resource_id;
              Permission.action := action_name;
              Permission.role_id := Some drawn_role_id |}];
     role_user_links :=
       role_user_links d
       ++ [{| RoleUserLink.user_id := target_user_id;
              RoleUserLink.role_id := drawn_role_id |}] |}.

(** The checker a provider would build for one scoped request, without
    bypass role. *)
Definition scoped_checker (current_user_roles : list Role.t)
  (resource_name resource_id action_name : string) : PermissionChecker.t :=
  {| PermissionChecker.roles := current_user_roles;
     PermissionChecker.bypass_role := None;
     PermissionChecker.bypass_roles := [];
     PermissionChecker.pcheck_models :=
       [PermissionCheckModel resource_name (PyStr resource_id)
          [action_name]] |}.

(** * Providers that delete and update

    [db_session.delete] and the assignment to attributes of a loaded
    object leave marks in the session that the next flush turns into
    DELETE and UPDATE statements.  The unit of work below adds these
    marks to a [Session]; the computations of the session run inside it
    unchanged ([lift]). *)

(** A loaded row of one of the tables whose rows the providers delete.
    Deleting one of them cascades to no other table: [Link.author] and
    [Permission.role] are many-to-one relationships and [RoleUserLink]
    has none. *)
Inductive Persistent : Type :=
| ALink (l : Link.t)
| APermission (p : Permission.t)
| ARoleUserLink (l : RoleUserLink.t).

Record UnitOfWork : Type :=
  { session : Session;
    dirty : list Link.t;          (* loaded links with assigned attributes *)
    deleted : list Persistent }.  (* objects passed to [delete] *)

Definition W (A : Type) : Type := UnitOfWork -> Result A * UnitOfWork.

Definition ret_w {A} (a : A) : W A := fun w => (Return a, w).

Definition bind_w {A B} (m : W A) (k : A -> W B) : W B :=
  fun w =>
    match m w with
    | (Return a, w') => k a w'
    | (Raise e, w') => (Raise e, w')
    end.

Notation "x <~ m ;; k" := (bind_w m (fun x => k))
  (at level 100, m at next level, right associativity) : session_scope.
Notation "m ;;~ k" := (bind_w m (fun _ => k))
  (at level 100, right associativity) : session_scope.

(** A computation of the session, run in the unit of work. *)
Definition lift {A} (m : M A) : W A :=
  fun w =>
    let (r, s') := m (session w) in
    (r, {| session := s'; dirty := dirty w; deleted := deleted w |}).

Definition outcome_w {A} (m : W A) (w : UnitOfWork) : Result A := fst (m w).
Definition after_w {A} (m : W A) (w : UnitOfWork) : UnitOfWork := snd (m w).

(** A unit of work on a session, with no mark yet. *)
Definition Work_ (s : Session) : UnitOfWork :=
  {| session := s; dirty := []; deleted := [] |}.

(** [db_session.delete(instance)]. *)
Definition delete (o : Persistent) : W unit :=
  fun w =>
    (Return tt,
     {| session := session w; dirty := dirty w; deleted := deleted w ++ [o] |}).

(** [db_session.add(link)] on a loaded link whose attributes were
    assigned: the session holds the new state of the row until the
    flush. *)
Definition add_modified (link : Link.t) : W unit :=
  fun w =>
    (Return tt,
     {| session := called CAdd (session w);
        dirty := dirty w ++ [link];
        deleted := deleted w |}).

(** [UPDATE link SET ... WHERE id = ...]. *)
Definition update_link_row (l : Link.t) (d : Database) : Database :=
  {| users := users d;
     links := map (fun r => if Link.id r =? Link.id l then l else r) (links d);
     roles := roles d;
     permissions := permissions d;
     role_user_links := role_user_links d |}.

(** [DELETE FROM ... WHERE] the primary key is that of the object. *)
Definition delete_row (o : Persistent) (d : Database) : Database :=
  match o with
  | ALink l =>
      {| users := users d;
         links := filter (fun r => negb (Link.id r =? Link.id l)) (links d);
         roles := roles d;
         permissions := permissions d;
         role_user_links := role_user_links d |}
  | APermission p =>
      {| users := users d;
         links := links d;
         roles := roles d;
         permissions :=
           filter (fun r => negb (Permission.permission_id r
                                  =? Permission.permission_id p))
             (permissions d);
         role_user_links := role_user_links d |}
  | ARoleUserLink l =>
      {| users := users d;
         links := links d;
         roles := roles d;
         permissions := permissions d;
         role_user_links :=
           filter (fun r => negb (RoleUserLink.same_key l r))
             (role_user_links d) |}
  end.

(** [db_session.commit()] in the unit of work: the flush writes the
    updates and the inserts, then the deletes; a violated key constraint
    rolls everything back.  Without marks it is the [commit] of the
    session. *)
Definition commit_w : W unit :=
  fun w =>
    let s := session w in
    let updated := fold_left (fun d l => update_link_row l d) (dirty w) (db s) in
    match flush (new s) updated with
    | Some inserted =>
        (Return tt,
         {| session :=
              {| db := fold_left (fun d o => delete_row o d) (deleted w)
                         inserted;
                 new := [];
                 calls := CCommit :: calls s |};
            dirty := [];
            deleted := [] |})
    | None =>
        (Raise IntegrityError,
         {| session := {| db := db s; new := []; calls := CCommit :: calls s |};
            dirty := [];
            deleted := [] |})
    end.

(** [LinkUpdateDTO] of [dto/link.py]; [url] holds [str(data.url)]. *)
Module LinkUpdateDTO.
Record t : Type := mk
  { id : string;
    label : string;
    url : string;
    description : option string }.
End LinkUpdateDTO.

(** [update_link] of [providers/link.py]. *)
Definition update_link (current_user : User.t) (data : LinkUpdateDTO.t)
  : W LinkDTO.t :=
  link <~ lift (found <- get links Link.id (LinkUpdateDTO.id data) ;;
                check_existence found HTTP_404_NOT_FOUND None) ;;
  lift (current_user_roles <- load_roles current_user ;;
        check (link_owner_checker current_user_roles None (Link.id link))
          false) ;;~
  let link' :=
    {| Link.id := Link.id link;
       Link.user_id := Link.user_id link;
       Link.label := LinkUpdateDTO.label data;
       Link.url := LinkUpdateDTO.url data;
       Link.created_at := Link.created_at link;
       Link.description := LinkUpdateDTO.description data |} in
  add_modified link' ;;~
  commit_w ;;~
  link'' <~ lift (refresh link') ;;
  ret_w (to_dto link'').

(** [delete_link] of [providers/link.py].  The lookup leaves the detail
    of its 404 to [check_existence]. *)
Definition delete_link (current_user : User.t) (link_id : string)
  : W MessageResponse :=
  link <~ lift (found <- get links Link.id link_id ;;
                check_existence found HTTP_404_NOT_FOUND None) ;;
  lift (current_user_roles <- load_roles current_user ;;
        check (link_owner_checker current_user_roles (Some ADMIN_ROLE_NAME)
                 (Link.id link)) false) ;;~
  delete (ALink link) ;;~
  commit_w ;;~
  ret_w {| message := "Link deleted successfully." |}.

(** [remove_role_from_user] of [providers/user.py].  The source builds a
    [PermissionChecker] and does not call its [check]: building it reads
    [current_user.roles] and has no other effect. *)
Definition remove_role_from_user (current_user : User.t)
  (role_id target_user_id : string) : W MessageResponse :=
  lift (load_roles current_user) ;;~
  user <~ lift (found <- get users User.id target_user_id ;;
                check_existence found HTTP_404_NOT_FOUND
                  (Some "User not found")) ;;
  role_user_link <~
    lift (found <-
            exec_first role_user_links
              (fun l => (RoleUserLink.user_id l =? target_user_id)
                        && (RoleUserLink.role_id l =? role_id)) ;;
          check_existence found HTTP_404_NOT_FOUND
            (Some ("Role not found for user: " ++ User.name user))) ;;
  delete (ARoleUserLink role_user_link) ;;~
  commit_w ;;~
  ret_w {| message := "Role remove from user successfully." |}.

(** [delete_permission] of [providers/user.py]. *)
Definition delete_permission (current_user : User.t) (permission_id : string)
  : W MessageResponse :=
  lift (current_user_roles <- load_roles current_user ;;
        check (role_rw_checker current_user_roles) false) ;;~
  permission <~
    lift (found <- get permissions Permission.permission_id permission_id ;;
          check_existence found HTTP_404_NOT_FOUND
            (Some "Permission not found.")) ;;
  delete (APermission permission) ;;~
  commit_w ;;~
  ret_w {| message := "Permission deleted successfully." |}.

(** The provider [create_permission] of [providers/user.py], which
    shares its name with the function of [permissions.py]. *)
Module UserProvider.
Definition create_permission (drawn_id : string) (current_user : User.t)
  (role_id action_name resource_name : string) (resource_id : option string)
  : M MessageResponse :=
  current_user_roles <- load_roles current_user ;;
  check (role_rw_checker current_user_roles) false ;;;
  found_role <- get roles Role.id role_id ;;
  role <- check_existence found_role HTTP_404_NOT_FOUND
            (Some "Role not found.") ;;
  permission <-
    PermissionBuilder.make drawn_id
      (PermissionBuilder.withResourceId resource_id
         (PermissionBuilder.withResourceName resource_name
            (PermissionBuilder.withActionName action_name
               (PermissionBuilder.forRole
                  {| role_row := role; role_users := [] |}
                  PermissionBuilder.new)))) ;;
  add (NewPermission permission) ;;;
  commit ;;;
  ret {| message := "Permission created successfully." |}.
End UserProvider.

(** The database without the link with the given id. *)
Definition without_link (link_id : string) (d : Database) : Database :=
  {| users := users d;
     links := filter (fun r => negb (Link.id r =? link_id)) (links d);
     roles := roles d;
     permissions := permissions d;
     role_user_links := role_user_links d |}.

(** The database without the role-user link of the pair. *)
Definition without_membership (user_id role_id : string) (d : Database)
  : Database :=
  {| users := users d;
     links := links d;
     roles := roles d;
     permissions := permissions d;
     role_user_links :=
       filter
         (fun r => negb ((RoleUserLink.user_id r =? user_id)
                         && (RoleUserLink.role_id r =? role_id)))
         (role_user_links d) |}.

(** A committed link with the given id. *)
Definition link_exists (link_id : string) (d : Database) : bool :=
  existsb (fun l => Link.id l =? link_id) (links d).

(** The caller passes the check of [update_link] ([bypass_role = None])
    or of [delete_link] ([bypass_role = Some ADMIN_ROLE_NAME]) for the
    link. *)
Definition may_change_link (current_user : User.t)
  (bypass_role : option string) (link_id : string) (s : Session) : Prop :=
  outcome (check (link_owner_checker (user_roles (db s) current_user)
                    bypass_role link_id) false) s
  = Return true.

(** The state of a loaded link after the three assignments of
    [update_link]. *)
Definition updated_link (link : Link.t) (data : LinkUpdateDTO.t) : Link.t :=
  {| Link.id := Link.id link;
     Link.user_id := Link.user_id link;
     Link.label := LinkUpdateDTO.label data;
     Link.url := LinkUpdateDTO.url data;
     Link.created_at := Link.created_at link;
     Link.description := LinkUpdateDTO.description data |}.

(** In the examples: Alice owns a second link, and renames it to the
    label of her first. *)
Definition notes_link : Link.t :=
  Link.mk "lnk-notes" "u-alice" "notes" "https://example.org/notes"
    1700000050 None.

Definition two_links : Database :=
  {| users := users deployment;
     links := [docs_link; notes_link];
     roles := roles deployment;
     permissions :=
       permissions deployment
       ++ [Permission.mk "p-alice-notes" "link" (Some "lnk-notes") "rw"
             (Some "r-alice")];
     role_user_links := role_user_links deployment |}.

Definition rename_notes_to_docs : LinkUpdateDTO.t :=
  LinkUpdateDTO.mk "lnk-notes" "docs" "https://example.org/notes" None.

(** The row the provider [create_permission] builds. *)
Definition provided_row (drawn_id role_id action_name resource_name : string)
  (resource_id : option string) : Permission.t :=
  {| Permission.permission_id := drawn_id;
     Permission.resource_name := resource_name;
     Permission.resource_id := resource_id;
     Permission.action := action_name;
     Permission.role_id := Some role_id |}.

(** A committed permission with the given key. *)
Definition permission_exists (permission_id : string) (d : Database) : bool :=
  existsb (fun p => Permission.permission_id p =? permission_id)
    (permissions d).

(** The same checker with another list of roles. *)
Definition with_roles (rs : list Role.t) (self : PermissionChecker.t)
  : PermissionChecker.t :=
  checker_for rs self.

(** * Properties *)

(** ** Comparisons and lookups *)

Lemma sql_eq_true (column : option string) (value : string) :
  sql_eq column value = true <-> column = Some value.
Proof.
  destruct column as [c|]; simpl.
  - rewrite String.eqb_eq. split; congruence.
  - split; discriminate.
Qed.

Lemma is_not_None_find {A} (f : A -> bool) (l : list A) :
  is_not_None (find f l) = existsb f l.
Proof.
  induction l as [|x l IH]; simpl; [reflexivity|].
  destruct (f x); simpl; [reflexivity | exact IH].
Qed.

Lemma scoped_where_true role rn rid an p :
  scoped_where role rn rid an p = true
  <-> grants role rn an p /\ Permission.resource_id p = Some rid.
Proof.
  unfold scoped_where, grants.
  rewrite !andb_true_iff, !sql_eq_true, !String.eqb_eq. tauto.
Qed.

Lemma global_where_true role rn an p :
  global_where role rn an p = true <-> grants role rn an p.
Proof.
  unfold global_where, grants.
  rewrite !andb_true_iff, sql_eq_true, !String.eqb_eq. tauto.
Qed.

Lemma scoped_implies_global role rn rid an p :
  scoped_where role rn rid an p = true -> global_where role rn an p = true.
Proof.
  rewrite scoped_where_true, global_where_true. tauto.
Qed.

(** ** What the predicates return and leave behind *)

Lemma has_permission_run role rn rid an s :
  has_permission role rn rid an s
  = (Return (existsb (scoped_where role rn rid an) (permissions (db s))),
     called CExec s).
Proof.
  unfold has_permission, bind, exec_first, ret.
  now rewrite is_not_None_find.
Qed.

Lemma has_global_permission_run role rn an s :
  has_global_permission role rn an s
  = (Return (existsb (global_where role rn an) (permissions (db s))),
     called CExec s).
Proof.
  unfold has_global_permission, bind, exec_first, ret.
  now rewrite is_not_None_find.
Qed.

Lemma _is_allowed_run self role pcheck an s :
  _is_allowed self role pcheck an s
  = (Return (granted (db s) role pcheck an), called CExec s).
Proof.
  destruct pcheck; simpl.
  - apply has_permission_run.
  - apply has_global_permission_run.
Qed.

Lemma satisfied_granted self s role pcheck an :
  satisfied self s role pcheck an <-> granted (db s) role pcheck an = true.
Proof.
  unfold satisfied, outcome. rewrite _is_allowed_run. simpl.
  split; congruence.
Qed.

(** Which predicate a check request selects. *)
Lemma satisfied_selects self s role resource_name action_name :
  (forall resource_id names,
      satisfied self s role
        (PermissionCheckModel resource_name resource_id names) action_name
      <-> outcome (has_permission role resource_name (str resource_id)
                     action_name) s = Return true)
  /\ (forall names,
         satisfied self s role
           (GlobalPermissionCheckModel resource_name names) action_name
         <-> outcome (has_global_permission role resource_name action_name) s
             = Return true).
Proof. split; intros; reflexivity. Qed.

(** ** The two predicates *)

(** C4. In a session without pending objects, [has_global_permission]
    always returns, and returns [True] exactly when some Permission row
    has the role's id, the resource name and the action; the row's
    [resource_id] plays no part: rewriting the [resource_id] of every row
    in any way (to null or to any string) leaves the answer the same, and
    any single matching row, scoped or not, is enough. *)
Theorem has_global_permission_ignores_resource_id :
  forall (s : Session) (role : Role.t) (resource_name action_name : string),
    new s = [] ->
    (exists b,
        outcome (has_global_permission role resource_name action_name) s
        = Return b
        /\ (b = true <->
            exists p, In p (permissions (db s))
                      /\ grants role resource_name action_name p))
    /\ (forall f,
           outcome (has_global_permission role resource_name action_name)
             (rescoped f s)
           = outcome (has_global_permission role resource_name action_name) s)
    /\ (forall p v,
           In (with_resource_id v p) (permissions (db s)) ->
           grants role resource_name action_name p ->
           outcome (has_global_permission role resource_name action_name) s
           = Return true).
Proof.
  intros s role rn an _. unfold outcome.
  repeat split.
  - rewrite has_global_permission_run. simpl. eexists. split; [reflexivity|].
    rewrite existsb_exists.
    split; intros [p [Hin Hp]]; exists p; split; auto;
      now apply global_where_true.
  - intro f. rewrite !has_global_permission_run. simpl. f_equal.
    induction (permissions (db s)) as [|p l IH]; simpl; [reflexivity|].
    now rewrite IH.
  - intros p v Hin Hp. rewrite has_global_permission_run. simpl. f_equal.
    apply existsb_exists. exists (with_resource_id v p). split; [exact Hin|].
    apply global_where_true. exact Hp.
Qed.

(** C5. In a session without pending objects, [has_permission] always
    returns, and returns [True] exactly when some Permission row has the
    role's id, the resource name, the action and a [resource_id] that is
    the queried string; when every row for that role, resource name and
    action has another [resource_id] or none, it returns [False]. A
    scoped check request is evaluated the same way on
    [str(pcheck.resource_id)]. *)
Theorem has_permission_exact_resource_id :
  forall (s : Session) (role : Role.t)
         (resource_name resource_id action_name : string),
    new s = [] ->
    (exists b,
        outcome (has_permission role resource_name resource_id action_name) s
        = Return b
        /\ (b = true <->
            exists p, In p (permissions (db s))
                      /\ grants role resource_name action_name p
                      /\ Permission.resource_id p = Some resource_id))
    /\ ((forall p, In p (permissions (db s)) ->
                   grants role resource_name action_name p ->
                   Permission.resource_id p <> Some resource_id) ->
        outcome (has_permission role resource_name resource_id action_name) s
        = Return false)
    /\ (forall self v names,
           satisfied self s role
             (PermissionCheckModel resource_name v names) action_name
           <-> exists p, In p (permissions (db s))
                         /\ grants role resource_name action_name p
                         /\ Permission.resource_id p = Some (str v)).
Proof.
  intros s role rn rid an _. unfold outcome.
  assert (Hex : forall rid',
             existsb (scoped_where role rn rid' an) (permissions (db s)) = true
             <-> exists p, In p (permissions (db s))
                           /\ grants role rn an p
                           /\ Permission.resource_id p = Some rid').
  { intro rid'. rewrite existsb_exists.
    split; intros [p [Hin Hp]]; exists p; split; auto;
      now apply scoped_where_true. }
  repeat split.
  - rewrite has_permission_run. simpl. eexists. split; [reflexivity|].
    apply Hex.
  - intro Hnone. rewrite has_permission_run. simpl. f_equal.
    apply not_true_is_false. intro Htrue. apply Hex in Htrue.
    destruct Htrue as [p [Hin [Hg Hid]]]. exact (Hnone p Hin Hg Hid).
  - rewrite satisfied_granted. simpl. apply Hex.
  - rewrite satisfied_granted. simpl. apply Hex.
Qed.

(** C10. Whenever [has_permission] answers [True] for a role, a resource
    name, a resource id and an action, [has_global_permission] answers
    [True] for the same role, resource name and action in the same
    session. *)
Theorem has_permission_implies_has_global_permission :
  forall (s : Session) (role : Role.t)
         (resource_name resource_id action_name : string),
    outcome (has_permission role resource_name resource_id action_name) s
    = Return true ->
    outcome (has_global_permission role resource_name action_name) s
    = Return true.
Proof.
  intros s role rn rid an. unfold outcome.
  rewrite has_permission_run, has_global_permission_run. simpl.
  intro H. f_equal. injection H as H.
  apply existsb_exists in H. destruct H as [p [Hin Hp]].
  apply existsb_exists. exists p. split; [exact Hin|].
  now apply scoped_implies_global with rid.
Qed.

(** ** The bypass test *)

Lemma str_in_true (x : string) (names : list string) :
  str_in x names = true <-> In x names.
Proof.
  unfold str_in. rewrite existsb_exists. split.
  - intros [n [Hin Heq]]. apply String.eqb_eq in Heq. now subst.
  - intro Hin. exists x. split; [exact Hin | apply String.eqb_refl].
Qed.

Lemma in_roles_to_check (self : PermissionChecker.t) (n : string) :
  In n (roles_to_check self)
  <-> exists role, In role (PermissionChecker.roles self)
                   /\ Role.name role = Some n.
Proof.
  unfold roles_to_check. rewrite in_flat_map. split.
  - intros [role [Hin Hn]]. exists role. split; [exact Hin|].
    destruct (Role.name role) as [m|]; simpl in Hn; [|contradiction].
    destruct Hn as [Hn|[]]. now subst.
  - intros [role [Hin Hn]]. exists role. split; [exact Hin|].
    rewrite Hn. now left.
Qed.

(** When the code takes the early return: a role name is the single
    bypass role, or it is a listed bypass role and not the empty string. *)
Lemma bypassed_true (self : PermissionChecker.t) :
  bypassed self = true
  <-> exists role n,
      In role (PermissionChecker.roles self)
      /\ Role.name role = Some n
      /\ (PermissionChecker.bypass_role self = Some n
          \/ (In n (PermissionChecker.bypass_roles self) /\ n <> EmptyString)).
Proof.
  unfold bypassed, opt_in, any. rewrite orb_true_iff, existsb_exists. split.
  - intros [H|[b [Hin Ht]]].
    + destruct (PermissionChecker.bypass_role self) as [n|]; [|discriminate].
      apply str_in_true, in_roles_to_check in H.
      destruct H as [role [Hr Hn]]. exists role, n. auto.
    + apply filter_In in Hin. destruct Hin as [Hb Hrtc].
      apply str_in_true, in_roles_to_check in Hrtc.
      destruct Hrtc as [role [Hr Hn]]. exists role, b.
      repeat split; auto. right. split; [exact Hb|].
      unfold truthy in Ht. apply negb_true_iff, String.eqb_neq in Ht. exact Ht.
  - intros [role [n [Hr [Hn [Hb|[Hb Hne]]]]]].
    + left. rewrite Hb. apply str_in_true, in_roles_to_check. eauto.
    + right. exists n. split.
      * apply filter_In. split; [exact Hb|].
        apply str_in_true, in_roles_to_check. eauto.
      * unfold truthy. now apply negb_true_iff, String.eqb_neq.
Qed.

Lemma not_named_not_bypassed (self : PermissionChecker.t) :
  ~ bypass_named self -> bypassed self = false.
Proof.
  intro Hno. apply not_true_is_false. intro Hb.
  apply bypassed_true in Hb. destruct Hb as [role [n [Hr [Hn Hcase]]]].
  apply Hno. exists role, n. repeat split; auto.
  destruct Hcase as [H|[H _]]; auto.
Qed.

(** ** The loops of [check] *)

Lemma only_queried_refl (s : Session) : only_queried s s.
Proof. split; [split; reflexivity | now exists 0]. Qed.

Lemma only_queried_exec (s : Session) : only_queried s (called CExec s).
Proof. split; [split; reflexivity | now exists 1]. Qed.

Lemma only_queried_trans (s1 s2 s3 : Session) :
  only_queried s1 s2 -> only_queried s2 s3 -> only_queried s1 s3.
Proof.
  intros [[Hdb Hnew] [k Hk]] [[Hdb' Hnew'] [k' Hk']].
  split; [split; congruence|].
  exists (k' + k). now rewrite Hk', Hk, repeat_app, app_assoc.
Qed.

Lemma only_queried_db (s s' : Session) : only_queried s s' -> db s' = db s.
Proof. now intros [[Hdb _] _]. Qed.

Create HintDb store.
#[local] Hint Resolve only_queried_refl only_queried_exec : store.

(** After a call of [_is_allowed] at the head of a loop body: the body
    either leaves the loop at once or goes on with the rest of the list,
    for which [IH] speaks. *)
Ltac after_is_allowed IH s :=
  simpl; unfold bind; rewrite _is_allowed_run;
  destruct (granted (db s) _ _ _); simpl;
  first
    [ exists (called CExec s); split; [reflexivity | auto with store]
    | destruct (IH (called CExec s)) as [s' [Hrun Hq]];
      exists s'; split;
      [ exact Hrun
      | apply only_queried_trans with (called CExec s); auto with store ] ].

(** After an inner loop that ran from [s] to [s1]: the outer loop either
    leaves at once or goes on from [s1], for which [IH] speaks. *)
Ltac after_inner_loop IH s s1 Hrun Hq :=
  rewrite Hrun;
  lazymatch type of Hrun with _ = (Return ?b, _) => destruct b end; simpl;
  first
    [ exists s1; split; [reflexivity | exact Hq]
    | let s2 := fresh "s" in
      let Hrun2 := fresh "Hrun" in
      let Hq2 := fresh "Hq" in
      destruct (IH s1) as [s2 [Hrun2 Hq2]];
      exists s2; rewrite Hrun2, (only_queried_db _ _ Hq); split;
      [ reflexivity | exact (only_queried_trans _ _ _ Hq Hq2) ] ].

Lemma either_actions_run self role pcheck names s :
  exists s',
    either_actions self role pcheck names s
    = (Return (existsb (granted (db s) role pcheck) names), s')
    /\ only_queried s s'.
Proof.
  revert s. induction names as [|an names IH]; intro s.
  - simpl. eexists. split; [reflexivity | auto with store].
  - after_is_allowed IH s.
Qed.

Lemma all_actions_run self role pcheck names s :
  exists s',
    all_actions self role pcheck names s
    = (Return (forallb (granted (db s) role pcheck) names), s')
    /\ only_queried s s'.
Proof.
  revert s. induction names as [|an names IH]; intro s.
  - simpl. eexists. split; [reflexivity | auto with store].
  - after_is_allowed IH s.
Qed.

Lemma either_pchecks_run self role pchecks s :
  exists s',
    either_pchecks self role pchecks s
    = (Return
         (existsb
            (fun pcheck =>
               existsb (granted (db s) role pcheck) (action_names pcheck))
            pchecks), s')
    /\ only_queried s s'.
Proof.
  revert s. induction pchecks as [|pc pchecks IH]; intro s.
  - simpl. eexists. split; [reflexivity | auto with store].
  - simpl. unfold bind.
    destruct (either_actions_run self role pc (action_names pc) s)
      as [s1 [Hrun Hq]].
    after_inner_loop IH s s1 Hrun Hq.
Qed.

Lemma all_pchecks_run self role pchecks s :
  exists s',
    all_pchecks self role pchecks s
    = (Return
         (forallb
            (fun pcheck =>
               forallb (granted (db s) role pcheck) (action_names pcheck))
            pchecks), s')
    /\ only_queried s s'.
Proof.
  revert s. induction pchecks as [|pc pchecks IH]; intro s.
  - simpl. eexists. split; [reflexivity | auto with store].
  - simpl. unfold bind.
    destruct (all_actions_run self role pc (action_names pc) s)
      as [s1 [Hrun Hq]].
    after_inner_loop IH s s1 Hrun Hq.
Qed.

Lemma either_roles_run self rs s :
  exists s',
    either_roles self rs s
    = (Return
         (existsb
            (fun role =>
               existsb
                 (fun pcheck =>
                    existsb (granted (db s) role pcheck) (action_names pcheck))
                 (PermissionChecker.pcheck_models self))
            rs), s')
    /\ only_queried s s'.
Proof.
  revert s. induction rs as [|role rs IH]; intro s.
  - simpl. eexists. split; [reflexivity | auto with store].
  - simpl. unfold bind.
    destruct (either_pchecks_run self role
                (PermissionChecker.pcheck_models self) s)
      as [s1 [Hrun Hq]].
    after_inner_loop IH s s1 Hrun Hq.
Qed.

Lemma all_roles_run self rs s :
  exists s',
    all_roles self rs s
    = (Return
         (existsb
            (fun role =>
               forallb
                 (fun pcheck =>
                    forallb (granted (db s) role pcheck) (action_names pcheck))
                 (PermissionChecker.pcheck_models self))
            rs), s')
    /\ only_queried s s'.
Proof.
  revert s. induction rs as [|role rs IH]; intro s.
  - simpl. eexists. split; [reflexivity | auto with store].
  - simpl. unfold bind.
    destruct (all_pchecks_run self role
                (PermissionChecker.pcheck_models self) s)
      as [s1 [Hrun Hq]].
    after_inner_loop IH s s1 Hrun Hq.
Qed.

(** [check] returns or raises what [verdict] says, and all it does on the
    session is to query it. *)
Lemma check_run self either s :
  exists s',
    check self either s = (verdict (db s) self either, s')
    /\ only_queried s s'.
Proof.
  unfold check, verdict.
  destruct (bypassed self).
  - exists s. split; [reflexivity | auto with store].
  - destruct either; unfold bind.
    + destruct (either_roles_run self (PermissionChecker.roles self) s)
        as [s1 [Hrun Hq]].
      rewrite Hrun.
      match goal with |- context [if ?b then _ else _] => destruct b end;
        exists s1; split; auto.
    + destruct (all_roles_run self (PermissionChecker.roles self) s)
        as [s1 [Hrun Hq]].
      rewrite Hrun.
      match goal with |- context [if ?b then _ else _] => destruct b end;
        exists s1; split; auto.
Qed.

Lemma check_outcome self either s :
  outcome (check self either) s = verdict (db s) self either.
Proof.
  unfold outcome. destruct (check_run self either s) as [s' [Hrun _]].
  now rewrite Hrun.
Qed.

Lemma check_only_queried self either s :
  only_queried s (after (check self either) s).
Proof.
  unfold after. destruct (check_run self either s) as [s' [Hrun Hq]].
  now rewrite Hrun.
Qed.

(** The early return asks the database nothing. *)
Lemma bypassed_check self either s :
  bypassed self = true -> check self either s = (Return true, s).
Proof. intro Hb. unfold check. now rewrite Hb. Qed.

(** ** [check] *)





(** C9. With at least one role, no role named as a bypass role and no
    check request at all, [check(either=False)] returns [True]. *)
Theorem check_all_of_no_requests :
  forall (self : PermissionChecker.t) (s : Session),
    PermissionChecker.roles self <> [] ->
    ~ bypass_named self ->
    PermissionChecker.pcheck_models self = [] ->
    outcome (check self false) s = Return true.
Proof.
  intros self s Hroles Hno Hnil.
  rewrite check_outcome. unfold verdict.
  rewrite (not_named_not_bypassed self Hno), Hnil.
  destruct (PermissionChecker.roles self) as [|role rs]; [congruence|].
  reflexivity.
Qed.

(** A role of Alice's personal checkers is unnamed, so none is named as a
    bypass role. *)
Ltac unnamed_roles :=
  let Hr := fresh "Hr" in
  let Hn := fresh "Hn" in
  intros [? [? [Hr [Hn _]]]]; simpl in Hr;
  destruct Hr as [Hr|Hr]; [subst; discriminate Hn | contradiction].



Lemma check_all_of_no_requests_witness :
  PermissionChecker.roles alice_no_requests <> []
  /\ ~ bypass_named alice_no_requests
  /\ PermissionChecker.pcheck_models alice_no_requests = []
  /\ outcome (check alice_no_requests false) (Session_ deployment)
     = Return true.
Proof.
  assert (Hroles : PermissionChecker.roles alice_no_requests <> [])
    by (simpl; discriminate).
  assert (Hno : ~ bypass_named alice_no_requests) by unnamed_roles.
  split; [exact Hroles|]. split; [exact Hno|]. split; [reflexivity|].
  exact (check_all_of_no_requests alice_no_requests (Session_ deployment)
           Hroles Hno eq_refl).
Defined.

Lemma has_permission_implies_has_global_permission_witness :
  outcome (has_permission alice_personal "link" "lnk-docs" "rw")
    (Session_ deployment) = Return true
  /\ outcome (has_global_permission alice_personal "link" "rw")
       (Session_ deployment) = Return true.
Proof.
  split; [reflexivity|].
  apply (has_permission_implies_has_global_permission
           (Session_ deployment) alice_personal "link" "lnk-docs" "rw").
  reflexivity.
Defined.

Lemma has_global_permission_ignores_resource_id_witness :
  new (Session_ deployment) = []
  /\ In (with_resource_id (Some "lnk-docs")
           (Permission.mk "p-alice-docs" "link" None "rw" (Some "r-alice")))
       (permissions deployment)
  /\ grants alice_personal "link" "rw"
       (Permission.mk "p-alice-docs" "link" None "rw" (Some "r-alice"))
  /\ outcome (has_global_permission alice_personal "link" "rw")
       (Session_ deployment) = Return true.
Proof.
  assert (Hin : In (with_resource_id (Some "lnk-docs")
                      (Permission.mk "p-alice-docs" "link" None "rw"
                         (Some "r-alice")))
                  (permissions (db (Session_ deployment)))).
  { right. now left. }
  assert (Hg : grants alice_personal "link" "rw"
                 (Permission.mk "p-alice-docs" "link" None "rw"
                    (Some "r-alice"))).
  { repeat split. }
  split; [reflexivity|]. split; [exact Hin|]. split; [exact Hg|].
  exact (proj2 (proj2 (has_global_permission_ignores_resource_id
                         (Session_ deployment) alice_personal "link" "rw"
                         eq_refl))
           _ _ Hin Hg).
Defined.

Lemma has_permission_exact_resource_id_witness :
  new (Session_ deployment) = []
  /\ (forall p,
         In p (permissions deployment) ->
         grants alice_personal "link" "rw" p ->
         Permission.resource_id p <> Some "lnk-other")
  /\ outcome (has_permission alice_personal "link" "lnk-other" "rw")
       (Session_ deployment) = Return false.
Proof.
  assert (Hnone : forall p,
             In p (permissions (db (Session_ deployment))) ->
             grants alice_personal "link" "rw" p ->
             Permission.resource_id p <> Some "lnk-other").
  { intros p Hin [Hrole _]. simpl in Hin.
    destruct Hin as [<-|[<-|[]]]; simpl in *; discriminate. }
  split; [reflexivity|]. split; [exact Hnone|].
  exact (proj1 (proj2 (has_permission_exact_resource_id
                         (Session_ deployment) alice_personal "link"
                         "lnk-other" "rw" eq_refl))
           Hnone).
Defined.

(** The converse fails: the admin's global grant on users answers no
    scoped question. *)
Example global_grant_is_not_scoped :
  outcome (has_global_permission admin "user" "rw") (Session_ deployment)
  = Return true
  /\ outcome (has_permission admin "user" "u-alice" "rw") (Session_ deployment)
     = Return false.
Proof. split; reflexivity. Qed.

(** The example of the spec: the admin role passes the global check on
    users in both modes and fails the scoped check on a link in all-of
    mode. *)
Example admin_global_user_rw :
  let global_user :=
    {| PermissionChecker.roles := [admin];
       PermissionChecker.bypass_role := None;
       PermissionChecker.bypass_roles := [];
       PermissionChecker.pcheck_models :=
         [GlobalPermissionCheckModel "user" ["rw"]] |} in
  let scoped_link :=
    {| PermissionChecker.roles := [admin];
       PermissionChecker.bypass_role := None;
       PermissionChecker.bypass_roles := [];
       PermissionChecker.pcheck_models :=
         [PermissionCheckModel "link" (PyStr "abc") ["rw"]] |} in
  outcome (check global_user true) (Session_ deployment) = Return true
  /\ outcome (check global_user false) (Session_ deployment) = Return true
  /\ outcome (check scoped_link false) (Session_ deployment)
     = Raise (HTTPException 401 (Some "Not authorized to access resource")).
Proof. repeat split; reflexivity. Qed.

(** ** The bypass *)

(** Where the early return is taken, [check] answers [True] in both
    modes, for any list of check requests, and makes no call on the
    session: a role is named by the single bypass role, or by a listed
    bypass role that is not the empty string. *)
Lemma check_bypass self either s role n :
  In role (PermissionChecker.roles self) ->
  Role.name role = Some n ->
  PermissionChecker.bypass_role self = Some n
  \/ (In n (PermissionChecker.bypass_roles self) /\ n <> EmptyString) ->
  check self either s = (Return true, s).
Proof.
  intros Hr Hn Hb. apply bypassed_check. apply bypassed_true.
  exists role, n. auto.
Qed.

(** C3. The bypass is missed for a role whose name is the empty string
    when that name is given in the list of bypass roles: Bob's role is
    named by the empty string and the checker lists the empty string
    among its bypass roles, so a role of the caller is named as a bypass
    role; yet [check] does not take the early return: in both modes it
    queries the permission table and raises the 401 exception.  The
    single [bypass_role] does not have this gap ([check_bypass]). *)
Theorem check_listed_empty_name_not_bypassed :
  bypass_named bob_listed_bypass
  /\ check bob_listed_bypass false (Session_ deployment)
     = (Raise (HTTPException 401 (Some "Not authorized to access resource")),
        {| db := deployment; new := []; calls := [CExec] |})
  /\ check bob_listed_bypass true (Session_ deployment)
     = (Raise (HTTPException 401
                 (Some "Not authorized to access this resource")),
        {| db := deployment; new := []; calls := [CExec] |}).
Proof.
  split; [|split; reflexivity].
  exists blank, EmptyString. simpl. auto.
Qed.

(** ** [check] only reads *)

Lemma check_outcome_same_db self either s s' :
  db s' = db s ->
  outcome (check self either) s' = outcome (check self either) s.
Proof. intro Hdb. now rewrite !check_outcome, Hdb. Qed.

Lemma check_repeatedly_S self either n s :
  check_repeatedly self either (S n) s
  = (outcome (check self either) s
       :: fst (check_repeatedly self either n (after (check self either) s)),
     snd (check_repeatedly self either n (after (check self either) s))).
Proof.
  simpl. unfold outcome, after.
  destruct (check self either s) as [r s1]. simpl.
  now destruct (check_repeatedly self either n s1).
Qed.

Lemma call_check_repeatedly_check self either n s :
  call_check_repeatedly either n self s
  = (fst (check_repeatedly self either n s), self,
     snd (check_repeatedly self either n s)).
Proof.
  revert s. induction n as [|n IH]; intro s; [reflexivity|].
  simpl. unfold call_check.
  destruct (check self either s) as [r s1].
  rewrite IH.
  now destruct (check_repeatedly self either n s1).
Qed.

(** C8. In a session without pending objects, a call of [check] leaves
    the committed database and the pending objects as they were, and the
    only calls it makes on the session are queries; the checker object
    after the call is the checker before it, field for field.  Called any
    number of times in a row on the same checker object, it gives each
    time the outcome of the first call, and afterwards the store is
    still the one before the first call and the checker the one before
    the first call. *)
Theorem check_reads_only :
  forall (self : PermissionChecker.t) (either : bool) (n : nat) (s : Session),
    new s = [] ->
    only_queried s (after (check self either) s)
    /\ fst (check_repeatedly self either n s)
       = repeat (outcome (check self either) s) n
    /\ only_queried s (snd (check_repeatedly self either n s))
    /\ snd (fst (call_check either self s)) = self
    /\ (exists s',
           call_check_repeatedly either n self s
           = (repeat (outcome (check self either) s) n, self, s')
           /\ only_queried s s').
Proof.
  intros self either n.
  assert (Hmain : forall s,
             new s = [] ->
             only_queried s (after (check self either) s)
             /\ fst (check_repeatedly self either n s)
                = repeat (outcome (check self either) s) n
             /\ only_queried s (snd (check_repeatedly self either n s))).
  { induction n as [|n IH]; intros s Hnew.
    - simpl. split; [apply check_only_queried|].
      split; [reflexivity | apply only_queried_refl].
    - pose proof (check_only_queried self either s) as Hq1.
      assert (Hnew1 : new (after (check self either) s) = []).
      { destruct Hq1 as [[_ Hn] _]. congruence. }
      destruct (IH (after (check self either) s) Hnew1) as [_ [Hrs Hq]].
      rewrite (check_outcome_same_db self either _ _ (only_queried_db _ _ Hq1))
        in Hrs.
      rewrite check_repeatedly_S. simpl.
      split; [exact Hq1|]. split.
      + now rewrite Hrs.
      + exact (only_queried_trans _ _ _ Hq1 Hq). }
  intros s Hnew. destruct (Hmain s Hnew) as [H1 [H2 H3]].
  split; [exact H1|]. split; [exact H2|]. split; [exact H3|]. split.
  - unfold call_check. now destruct (check self either s).
  - exists (snd (check_repeatedly self either n s)).
    split; [|exact H3].
    now rewrite call_check_repeatedly_check, H2.
Qed.

Lemma check_reads_only_witness :
  new (Session_ deployment) = []
  /\ call_check_repeatedly false 3 alice_on_docs (Session_ deployment)
     = ([Return true; Return true; Return true], alice_on_docs,
        {| db := deployment; new := []; calls := [CExec; CExec; CExec] |})
  /\ only_queried (Session_ deployment)
       (snd (check_repeatedly alice_on_docs false 3 (Session_ deployment))).
Proof.
  split; [reflexivity|]. split; [reflexivity|].
  exact (proj1 (proj2 (proj2 (check_reads_only alice_on_docs false 3
                                (Session_ deployment) eq_refl)))).
Defined.

(** ** [create_link] *)

Lemma find_app_last {A} (f : A -> bool) (l : list A) (x : A) :
  existsb f l = false -> f x = true -> find f (l ++ [x]) = Some x.
Proof.
  induction l as [|y l IH]; simpl; intros Hl Hx.
  - now rewrite Hx.
  - apply orb_false_iff in Hl. destruct Hl as [Hy Hl].
    rewrite Hy. now apply IH.
Qed.

Lemma find_None_existsb {A} (f : A -> bool) (l : list A) :
  find f l = None <-> existsb f l = false.
Proof.
  rewrite <- is_not_None_find. destruct (find f l); simpl;
    split; congruence.
Qed.

(** The flush of the three objects [create_link] adds: it succeeds when
    the four primary keys are free, and then writes the four rows. *)
Lemma flush_create_link drawn current_user data d :
  let l := the_link drawn current_user data in
  let r := {| role_row := the_personal_role drawn;
              role_users := [current_user] |} in
  let p := the_rw_permission drawn in
  flush [NewLink l; NewRole r; NewPermission p] d
  = if existsb (fun x => Link.id x =? link_id drawn) (links d)
       || existsb (fun x => Role.id x =? role_id drawn) (roles d)
       || existsb (RoleUserLink.same_key (the_membership drawn current_user))
            (role_user_links d)
       || existsb (fun x => Permission.permission_id x =? permission_id drawn)
            (permissions d)
    then None
    else Some (with_link drawn current_user data d).
Proof.
  simpl. unfold insert_link, insert_role, insert_role_user_link,
    insert_permission, the_membership. simpl.
  destruct (existsb (fun x => Link.id x =? link_id drawn) (links d));
    simpl; [reflexivity|].
  destruct (existsb (fun x => Role.id x =? role_id drawn) (roles d));
    simpl; [reflexivity|].
  destruct (existsb _ (role_user_links d)); simpl; [reflexivity|].
  destruct (existsb _ (permissions d)); reflexivity.
Qed.

(** What [create_link] does, case by case, from a session without pending
    objects. *)
Lemma create_link_run drawn current_user data s :
  new s = [] ->
  create_link drawn current_user data s
  = if label_taken (LinkCreationDTO.label data) (db s) then
      (Raise (HTTPException 409 None), called CExec s)
    else
      match flush [NewLink (the_link drawn current_user data);
                   NewRole {| role_row := the_personal_role drawn;
                              role_users := [current_user] |};
                   NewPermission (the_rw_permission drawn)] (db s) with
      | Some d' =>
          (Return (to_dto (the_link drawn current_user data)),
           {| db := d'; new := [];
              calls := CRefresh :: CCommit :: CAdd :: CAdd :: CAdd :: CExec
                         :: calls s |})
      | None =>
          (Raise IntegrityError,
           {| db := db s; new := [];
              calls := CCommit :: CAdd :: CAdd :: CAdd :: CExec :: calls s |})
      end.
Proof.
  intro Hnew. unfold label_taken.
  rewrite flush_create_link.
  unfold create_link, bind, exec_first.
  rewrite <- is_not_None_find.
  destruct (find _ (links (db s))) as [taken|]; simpl; [reflexivity|].
  unfold commit. simpl. rewrite Hnew. simpl.
  fold (the_link drawn current_user data).
  change {| Role.id := role_id drawn; Role.name := None |}
    with (the_personal_role drawn).
  change {| Permission.permission_id := permission_id drawn;
            Permission.resource_name := LINK_RESOURCE;
            Permission.resource_id := Some (link_id drawn);
            Permission.action := ACTION_READWRITE;
            Permission.role_id := Some (role_id drawn) |}
    with (the_rw_permission drawn).
  pose proof (flush_create_link drawn current_user data (db s)) as Hflush.
  simpl in Hflush. rewrite Hflush. clear Hflush.
  destruct (existsb (fun x => Link.id x =? link_id drawn) (links (db s)))
    eqn:Hl; simpl; [reflexivity|].
  destruct (existsb (fun x => Role.id x =? role_id drawn) (roles (db s)));
    simpl; [reflexivity|].
  destruct (existsb _ (role_user_links (db s))); simpl; [reflexivity|].
  destruct (existsb _ (permissions (db s))); simpl; [reflexivity|].
  unfold refresh. simpl.
  rewrite (find_app_last _ _ (the_link drawn current_user data) Hl
             (String.eqb_refl _)).
  reflexivity.
Qed.

Lemma no_membership_of_fresh_role (uid rid : string)
  (rows : list RoleUserLink.t) :
  existsb (fun l => RoleUserLink.role_id l =? rid) rows = false ->
  existsb (RoleUserLink.same_key
             {| RoleUserLink.user_id := uid; RoleUserLink.role_id := rid |})
    rows = false.
Proof.
  induction rows as [|x rows IH]; simpl; [reflexivity|].
  intro H. apply orb_false_iff in H. destruct H as [Hx Hrows].
  rewrite (IH Hrows). unfold RoleUserLink.same_key. simpl.
  rewrite (String.eqb_sym rid), Hx. now rewrite andb_false_r.
Qed.

Lemma fresh_keys_free drawn current_user d :
  fresh_keys drawn d = true ->
  existsb (fun x => Link.id x =? link_id drawn) (links d)
  || existsb (fun x => Role.id x =? role_id drawn) (roles d)
  || existsb (RoleUserLink.same_key (the_membership drawn current_user))
       (role_user_links d)
  || existsb (fun x => Permission.permission_id x =? permission_id drawn)
       (permissions d)
  = false.
Proof.
  unfold fresh_keys. rewrite !andb_true_iff, !negb_true_iff.
  intros [[[Hl Hr] Hp] Hm].
  rewrite Hl, Hr, Hp. unfold the_membership.
  now rewrite (no_membership_of_fresh_role (User.id current_user) _ _ Hm).
Qed.

(** C6. From a session without pending objects: when no committed link
    carries the label and the drawn keys are unused, [create_link]
    returns the new link and the database gains exactly one Link, one
    unnamed Role, the membership of the user in that role and one
    Permission with action "rw" on resource "link", scoped to the new
    link's id and owned by that role; the three [add] are followed by one
    [commit].  Whenever [create_link] raises, be it on the taken label
    before anything is added or inside the commit, the database is the
    one it started from and nothing stays pending: the database after
    the call either is unchanged or holds all the rows. *)
Theorem create_link_atomic :
  forall (drawn : Defaults) (current_user : User.t)
         (data : LinkCreationDTO.t) (s : Session),
    new s = [] ->
    (label_taken (LinkCreationDTO.label data) (db s) = false ->
     fresh_keys drawn (db s) = true ->
     create_link drawn current_user data s
     = (Return (to_dto (the_link drawn current_user data)),
        {| db := with_link drawn current_user data (db s);
           new := [];
           calls := CRefresh :: CCommit :: CAdd :: CAdd :: CAdd :: CExec
                      :: calls s |}))
    /\ (forall e,
           outcome (create_link drawn current_user data) s = Raise e ->
           db (after (create_link drawn current_user data) s) = db s
           /\ new (after (create_link drawn current_user data) s) = [])
    /\ (db (after (create_link drawn current_user data) s) = db s
        \/ db (after (create_link drawn current_user data) s)
           = with_link drawn current_user data (db s)).
Proof.
  intros drawn current_user data s Hnew.
  unfold outcome, after.
  rewrite (create_link_run drawn current_user data s Hnew).
  rewrite flush_create_link.
  split; [|split].
  - intros Hlabel Hfresh.
    now rewrite Hlabel, (fresh_keys_free drawn current_user _ Hfresh).
  - intro e. destruct (label_taken _ (db s)); simpl.
    + intros _. split; [reflexivity | exact Hnew].
    + match goal with |- context [if ?b then _ else _] => destruct b end;
        simpl; [|discriminate].
      intros _. split; reflexivity.
  - destruct (label_taken _ (db s)); simpl; [now left|].
    match goal with |- context [if ?b then _ else _] => destruct b end;
      simpl; [now left | now right].
Qed.

Lemma create_link_atomic_witness :
  new (Session_ deployment) = []
  /\ label_taken (LinkCreationDTO.label blog) deployment = false
  /\ fresh_keys drawn_new deployment = true
  /\ create_link drawn_new alice blog (Session_ deployment)
     = (Return (to_dto (the_link drawn_new alice blog)),
        {| db := with_link drawn_new alice blog deployment;
           new := [];
           calls := [CRefresh; CCommit; CAdd; CAdd; CAdd; CExec] |})
  /\ outcome (create_link drawn_clash alice blog) (Session_ deployment)
     = Raise IntegrityError
  /\ db (after (create_link drawn_clash alice blog) (Session_ deployment))
     = deployment.
Proof.
  split; [reflexivity|]. split; [reflexivity|]. split; [reflexivity|].
  split.
  - exact (proj1 (create_link_atomic drawn_new alice blog
                    (Session_ deployment) eq_refl) eq_refl eq_refl).
  - split; [reflexivity|].
    exact (proj1 (proj1 (proj2 (create_link_atomic drawn_clash alice blog
                                  (Session_ deployment) eq_refl))
                    IntegrityError eq_refl)).
Defined.

(** A failure forced in the middle of the transaction: the permission key
    is taken, so the flush has written the link and the role when the
    third INSERT fails; none of them is in the database afterwards. *)
Example create_link_forced_failure :
  create_link drawn_clash alice blog (Session_ deployment)
  = (Raise IntegrityError,
     {| db := deployment; new := [];
        calls := [CCommit; CAdd; CAdd; CAdd; CExec] |})
  /\ insert (NewLink (the_link drawn_clash alice blog)) deployment <> None.
Proof. split; [reflexivity | discriminate]. Qed.

(** A taken label stops [create_link] before anything is added. *)
Example create_link_taken_label :
  create_link drawn_new alice
    (LinkCreationDTO.mk "docs" "https://example.org/other" None)
    (Session_ deployment)
  = (Raise (HTTPException 409 None),
     {| db := deployment; new := []; calls := [CExec] |}).
Proof. reflexivity. Qed.

(** ** [assign_role_to_user] *)

Lemma same_key_membership (user_id role_id : string)
  (rows : list RoleUserLink.t) :
  existsb
    (RoleUserLink.same_key
       {| RoleUserLink.user_id := user_id; RoleUserLink.role_id := role_id |})
    rows
  = existsb
      (fun l => (RoleUserLink.user_id l =? user_id)
                && (RoleUserLink.role_id l =? role_id))
      rows.
Proof.
  induction rows as [|x rows IH]; simpl; [reflexivity|].
  rewrite IH. unfold RoleUserLink.same_key. simpl.
  now rewrite (String.eqb_sym user_id), (String.eqb_sym role_id).
Qed.

Lemma find_existing {A} (f : A -> bool) (l : list A) :
  existsb f l = true -> exists x, find f l = Some x.
Proof.
  rewrite <- is_not_None_find. destruct (find f l) as [x|]; simpl.
  - intros _. now exists x.
  - discriminate.
Qed.

(** What [assign_role_to_user] does once the caller is let in and the
    user and the role are found. *)
Lemma assign_role_to_user_run current_user user_id role_id s :
  may_administer_users current_user s ->
  user_exists user_id (db s) = true ->
  role_exists role_id (db s) = true ->
  exists s1,
    only_queried s s1
    /\ assign_role_to_user current_user user_id role_id s
       = if has_membership user_id role_id (db s) then
           (Return {| message := "User already has this role." |},
            called CExec (called CGet (called CGet s1)))
         else
           match flush (new s ++ [NewRoleUserLink
                                    {| RoleUserLink.user_id := user_id;
                                       RoleUserLink.role_id := role_id |}])
                   (db s) with
           | Some d' =>
               (Return {| message := "Role assigned to user successfully." |},
                {| db := d'; new := [];
                   calls := CCommit :: CAdd :: CExec :: CGet :: CGet
                              :: calls s1 |})
           | None =>
               (Raise IntegrityError,
                {| db := db s; new := [];
                   calls := CCommit :: CAdd :: CExec :: CGet :: CGet
                              :: calls s1 |})
           end.
Proof.
  unfold may_administer_users. rewrite check_outcome.
  intros Hgate Huser Hrole.
  destruct (check_run (user_rw_checker (user_roles (db s) current_user))
              false s) as [s1 [Hrun Hq]].
  exists s1. split; [exact Hq|].
  destruct Hq as [[Hdb Hnew] _].
  unfold assign_role_to_user, bind, load_roles.
  rewrite Hrun, Hgate. clear Hrun.
  destruct s1 as [d1 n1 c1]. simpl in Hdb, Hnew. subst d1 n1.
  unfold get. simpl.
  destruct (find_existing _ _ Huser) as [u Hu]. rewrite Hu. simpl.
  destruct (find_existing _ _ Hrole) as [r Hr]. rewrite Hr. simpl.
  unfold exec_first. simpl. rewrite is_not_None_find.
  fold (has_membership user_id role_id (db s)).
  destruct (has_membership user_id role_id (db s)); [reflexivity|].
  unfold commit, add. simpl.
  destruct (flush _ (db s)); reflexivity.
Qed.

(** C7, for callers who are let in.  In a session without pending
    objects, for a caller who passes the provider's permission check,
    and a user and a role that both exist: when a role-user link for the
    pair is already committed, [assign_role_to_user] returns the message
    "User already has this role." and leaves the committed database and
    the pending objects as they were; when there is none, it returns the
    success message and the database gains exactly one role-user link,
    for that pair. *)
Theorem assign_role_to_user_once :
  forall (current_user : User.t) (user_id role_id : string) (s : Session),
    may_administer_users current_user s ->
    user_exists user_id (db s) = true ->
    role_exists role_id (db s) = true ->
    (has_membership user_id role_id (db s) = true ->
     new s = [] ->
     outcome (assign_role_to_user current_user user_id role_id) s
     = Return {| message := "User already has this role." |}
     /\ same_store s (after (assign_role_to_user current_user user_id role_id) s))
    /\ (has_membership user_id role_id (db s) = false ->
        new s = [] ->
        outcome (assign_role_to_user current_user user_id role_id) s
        = Return {| message := "Role assigned to user successfully." |}
        /\ db (after (assign_role_to_user current_user user_id role_id) s)
           = with_membership user_id role_id (db s)
        /\ new (after (assign_role_to_user current_user user_id role_id) s)
           = []).
Proof.
  intros current_user user_id role_id s Hgate Huser Hrole.
  destruct (assign_role_to_user_run current_user user_id role_id s
              Hgate Huser Hrole) as [s1 [[[Hdb Hnew] _] Hrun]].
  unfold outcome, after. rewrite Hrun. split.
  - intros Hlink _. rewrite Hlink. simpl.
    split; [reflexivity | split; assumption].
  - intros Hlink Hnone. rewrite Hlink, Hnone. simpl.
    unfold insert_role_user_link.
    rewrite same_key_membership.
    unfold has_membership in Hlink. rewrite Hlink. simpl.
    repeat split.
Qed.

Lemma assign_role_to_user_once_witness :
  new (Session_ deployment) = []
  /\ may_administer_users carol (Session_ deployment)
  /\ user_exists "u-alice" deployment = true
  /\ role_exists "r-alice" deployment = true
  /\ has_membership "u-alice" "r-alice" deployment = true
  /\ outcome (assign_role_to_user carol "u-alice" "r-alice")
       (Session_ deployment)
     = Return {| message := "User already has this role." |}
  /\ user_exists "u-bob" deployment = true
  /\ has_membership "u-bob" "r-alice" deployment = false
  /\ db (after (assign_role_to_user carol "u-bob" "r-alice")
           (Session_ deployment))
     = with_membership "u-bob" "r-alice" deployment.
Proof.
  assert (Hgate : may_administer_users carol (Session_ deployment))
    by reflexivity.
  split; [reflexivity|].
  split; [exact Hgate|]. split; [reflexivity|]. split; [reflexivity|].
  split; [reflexivity|]. split.
  - exact (proj1 (proj1 (assign_role_to_user_once carol "u-alice" "r-alice"
                           (Session_ deployment) Hgate eq_refl eq_refl)
                    eq_refl eq_refl)).
  - split; [reflexivity|]. split; [reflexivity|].
    exact (proj1 (proj2 (proj2 (assign_role_to_user_once carol "u-bob"
                                  "r-alice" (Session_ deployment)
                                  Hgate eq_refl eq_refl)
                           eq_refl eq_refl))).
Defined.

(** C7 does not extend to a caller the permission check turns away.  Bob
    holds neither the admin role nor a grant on users.  Alice and her
    personal role exist and are linked, yet the call raises the 401
    exception instead of returning the message; Bob and that role exist
    and are not linked, yet the call adds no link. *)
Lemma assign_role_to_user_unauthorized :
  user_exists "u-alice" deployment = true
  /\ role_exists "r-alice" deployment = true
  /\ has_membership "u-alice" "r-alice" deployment = true
  /\ outcome (assign_role_to_user bob "u-alice" "r-alice")
       (Session_ deployment)
     <> Return {| message := "User already has this role." |}
  /\ user_exists "u-bob" deployment = true
  /\ has_membership "u-bob" "r-alice" deployment = false
  /\ assign_role_to_user bob "u-bob" "r-alice" (Session_ deployment)
     = (Raise (HTTPException 401 (Some "Not authorized to access resource")),
        {| db := deployment; new := []; calls := [CExec] |}).
Proof.
  repeat (split; [reflexivity|]).
  split; [discriminate|].
  repeat (split; [reflexivity|]). reflexivity.
Qed.

(** ** [str] on the modelled values *)

Example str_values :
  str PyNone = "None" /\ str (PyStr "lnk-docs") = "lnk-docs"
  /\ str (PyInt 42) = "42" /\ str (PyInt 0) = "0" /\ str (PyInt (-7)) = "-7".
Proof. repeat split. Qed.

(** * Further properties *)

(** ** [create_global_permission] *)

Lemma flush_one_permission (p : Permission.t) (d : Database) :
  permission_key_free (Permission.permission_id p) d = true ->
  flush [NewPermission p] d = Some (with_permission p d).
Proof.
  unfold permission_key_free. rewrite negb_true_iff. intro Hfree.
  simpl. unfold insert_permission. now rewrite Hfree.
Qed.

Lemma find_new_permission (p : Permission.t) (d : Database) :
  permission_key_free (Permission.permission_id p) d = true ->
  find (fun r => Permission.permission_id r =? Permission.permission_id p)
    (permissions (with_permission p d)) = Some p.
Proof.
  unfold permission_key_free. rewrite negb_true_iff. intro Hfree.
  simpl. apply find_app_last; [exact Hfree | apply String.eqb_refl].
Qed.

(** What [create_global_permission] does, case by case. *)
Lemma create_global_permission_run drawn_id role_id rn an do_commit s :
  create_global_permission drawn_id role_id rn an do_commit s
  = if negb (role_exists role_id (db s)) then
      (Raise (HTTPException 404 (Some "Role not found.")), called CGet s)
    else if existsb (unscoped_where role_id rn an) (permissions (db s)) then
      (Raise already_has_permission, called CExec (called CGet s))
    else if do_commit then
      (commit ;;; refresh_permission (global_row drawn_id role_id rn an) ;;;
       ret None)
        {| db := db s;
           new := new s ++ [NewPermission (global_row drawn_id role_id rn an)];
           calls := CAdd :: CExec :: CGet :: calls s |}
    else
      (Return (Some (global_row drawn_id role_id rn an)),
       {| db := db s;
          new := new s ++ [NewPermission (global_row drawn_id role_id rn an)];
          calls := CAdd :: CExec :: CGet :: calls s |}).
Proof.
  unfold create_global_permission, bind, get, role_exists.
  rewrite <- is_not_None_find.
  destruct (find _ (roles (db s))) as [role|]; simpl; [|reflexivity].
  unfold exec_first. simpl. rewrite is_not_None_find.
  destruct (existsb _ (permissions (db s))); simpl; [reflexivity|].
  destruct do_commit; reflexivity.
Qed.

(** X1. Round trip of a global grant.  From a session without pending
    objects, for an existing role that has no row with a null
    [resource_id] for the resource name and action, and an unused drawn
    key: [create_global_permission(commit=True)] returns [None] and the
    database gains exactly one permission row, with a null
    [resource_id]; afterwards [has_global_permission] answers [True] for
    any role object with that id, and a second
    [create_global_permission] for the same role, resource name and
    action raises the 409 exception and leaves the store as it is,
    whatever key it draws. *)
Theorem create_global_permission_then_has_global_permission :
  forall (drawn_id role_id resource_name action_name : string) (s : Session),
    new s = [] ->
    role_exists role_id (db s) = true ->
    existsb (unscoped_where role_id resource_name action_name)
      (permissions (db s)) = false ->
    permission_key_free drawn_id (db s) = true ->
    let s' :=
      after (create_global_permission drawn_id role_id resource_name
               action_name true) s in
    outcome (create_global_permission drawn_id role_id resource_name
               action_name true) s = Return None
    /\ db s' = with_permission
                 (global_row drawn_id role_id resource_name action_name) (db s)
    /\ new s' = []
    /\ (forall role,
           Role.id role = role_id ->
           outcome (has_global_permission role resource_name action_name) s'
           = Return true)
    /\ (forall drawn_id' do_commit,
           outcome (create_global_permission drawn_id' role_id resource_name
                      action_name do_commit) s'
           = Raise already_has_permission
           /\ same_store s'
                (after (create_global_permission drawn_id' role_id
                          resource_name action_name do_commit) s')).
Proof.
  intros drawn_id role_id rn an s Hnew Hrole Hnone Hfree s'.
  assert (Hrun :
            create_global_permission drawn_id role_id rn an true s
            = (Return None,
               {| db := with_permission (global_row drawn_id role_id rn an)
                          (db s);
                  new := [];
                  calls := CRefresh :: CCommit :: CAdd :: CExec :: CGet
                             :: calls s |})).
  { rewrite create_global_permission_run, Hrole, Hnone. simpl.
    unfold bind, commit. simpl. rewrite Hnew. simpl app.
    rewrite (flush_one_permission (global_row drawn_id role_id rn an) (db s)
               Hfree).
    unfold refresh_permission. simpl db.
    now rewrite (find_new_permission (global_row drawn_id role_id rn an)
                   (db s) Hfree). }
  unfold s', outcome, after. rewrite Hrun. cbn [fst snd].
  split; [reflexivity|]. split; [reflexivity|]. split; [reflexivity|].
  split.
  - intros role Hid. rewrite has_global_permission_run. simpl. f_equal.
    rewrite existsb_app. simpl. apply orb_true_iff. right.
    unfold global_where. simpl. rewrite Hid, !String.eqb_refl. reflexivity.
  - intros drawn_id' do_commit. rewrite create_global_permission_run.
    cbn [db new]. 
    assert (Hnow : existsb (unscoped_where role_id rn an)
                     (permissions
                        (with_permission (global_row drawn_id role_id rn an)
                           (db s))) = true).
    { simpl. rewrite existsb_app. apply orb_true_iff. right. simpl.
      unfold unscoped_where. simpl. now rewrite !String.eqb_refl. }
    rewrite Hnow. unfold role_exists in *. simpl roles. rewrite Hrole.
    simpl. repeat split.
Qed.

(** X2. [create_global_permission] refuses without writing.  In a
    session without pending objects, a missing role gives the 404
    exception before the permission table is read;
    for an existing role, a row with a null [resource_id] for the same
    role, resource name and action gives the 409 exception.  Either way
    the committed database and the pending objects are as before. *)
Theorem create_global_permission_refusals :
  forall (drawn_id role_id resource_name action_name : string)
         (do_commit : bool) (s : Session),
    new s = [] ->
    (role_exists role_id (db s) = false ->
     create_global_permission drawn_id role_id resource_name action_name
       do_commit s
     = (Raise (HTTPException 404 (Some "Role not found.")), called CGet s))
    /\ (role_exists role_id (db s) = true ->
        existsb (unscoped_where role_id resource_name action_name)
          (permissions (db s)) = true ->
        outcome (create_global_permission drawn_id role_id resource_name
                   action_name do_commit) s
        = Raise already_has_permission
        /\ same_store s
             (after (create_global_permission drawn_id role_id resource_name
                       action_name do_commit) s)).
Proof.
  intros drawn_id role_id rn an do_commit s _.
  unfold outcome, after. rewrite create_global_permission_run. split.
  - intro Hrole. now rewrite Hrole.
  - intros Hrole Hrow. rewrite Hrole, Hrow. simpl. repeat split.
Qed.

Lemma create_global_permission_refusals_witness :
  new (Session_ deployment) = []
  /\ role_exists "r-nobody" deployment = false
  /\ create_global_permission draw_p1 "r-nobody" "user" "rw" true
       (Session_ deployment)
     = (Raise (HTTPException 404 (Some "Role not found.")),
        called CGet (Session_ deployment))
  /\ role_exists "r-admin" deployment = true
  /\ existsb (unscoped_where "r-admin" "user" "rw") (permissions deployment)
     = true
  /\ outcome (create_global_permission draw_p1 "r-admin" "user" "rw" true)
       (Session_ deployment)
     = Raise already_has_permission.
Proof.
  split; [reflexivity|]. split; [reflexivity|]. split.
  - exact (proj1 (create_global_permission_refusals draw_p1 "r-nobody"
                    "user" "rw" true (Session_ deployment) eq_refl) eq_refl).
  - split; [reflexivity|]. split; [reflexivity|].
    exact (proj1 (proj2 (create_global_permission_refusals draw_p1 "r-admin"
                           "user" "rw" true (Session_ deployment) eq_refl)
                    eq_refl eq_refl)).
Defined.

Lemma create_global_permission_then_has_global_permission_witness :
  new (Session_ deployment) = []
  /\ role_exists "r-alice" deployment = true
  /\ existsb (unscoped_where "r-alice" "link" "rw") (permissions deployment)
     = false
  /\ permission_key_free draw_p1 deployment = true
  /\ outcome (create_global_permission draw_p1 "r-alice" "link" "rw" true)
       (Session_ deployment) = Return None.
Proof.
  split; [reflexivity|]. split; [reflexivity|]. split; [reflexivity|].
  split; [reflexivity|].
  exact (proj1 (create_global_permission_then_has_global_permission
                  draw_p1 "r-alice" "link" "rw" (Session_ deployment)
                  eq_refl eq_refl eq_refl eq_refl)).
Defined.

(** ** [create_permission] of [permissions.py] *)

(** What [create_permission] does for a given role, case by case. *)
Lemma create_permission_run drawn_id role rn rid an do_commit s :
  create_permission drawn_id (Some role) rn rid an do_commit s
  = if existsb (scoped_where role rn (str rid) an) (permissions (db s)) then
      (Raise already_has_permission, called CExec s)
    else if do_commit then
      (commit ;;;
       permission' <- refresh_permission (scoped_row drawn_id role rn rid an) ;;
       ret permission')
        {| db := db s;
           new := new s ++ [NewPermission (scoped_row drawn_id role rn rid an)];
           calls := CAdd :: CExec :: calls s |}
    else
      (Return (scoped_row drawn_id role rn rid an), called CExec s).
Proof.
  unfold create_permission, bind, check_existence, ret, exec_first.
  rewrite is_not_None_find.
  destruct (existsb _ (permissions (db s))); simpl; [reflexivity|].
  destruct do_commit; reflexivity.
Qed.

(** X3. Round trip of a scoped grant.  From a session without pending
    objects, for a role that has no row for the resource name, the
    string of the resource id and the action, and an unused drawn key:
    [create_permission(commit=True)] returns the new row and the
    database gains exactly that row; afterwards the scoped check request
    for the same resource id is satisfied for that role and action, so
    is the global predicate, and a second [create_permission] for the
    same arguments raises the 409 exception and leaves the store as it
    is.  The role is not looked up: it need not be a committed role. *)
Theorem create_permission_then_has_permission :
  forall (drawn_id : string) (role : Role.t) (resource_name : string)
         (resource_id : Any) (action_name : string) (s : Session),
    new s = [] ->
    existsb (scoped_where role resource_name (str resource_id) action_name)
      (permissions (db s)) = false ->
    permission_key_free drawn_id (db s) = true ->
    let row := scoped_row drawn_id role resource_name resource_id action_name in
    let s' :=
      after (create_permission drawn_id (Some role) resource_name resource_id
               action_name true) s in
    outcome (create_permission drawn_id (Some role) resource_name resource_id
               action_name true) s = Return row
    /\ db s' = with_permission row (db s)
    /\ new s' = []
    /\ (forall self names,
           satisfied self s' role
             (PermissionCheckModel resource_name resource_id names)
             action_name)
    /\ outcome (has_global_permission role resource_name action_name) s'
       = Return true
    /\ (forall drawn_id' do_commit,
           outcome (create_permission drawn_id' (Some role) resource_name
                      resource_id action_name do_commit) s'
           = Raise already_has_permission
           /\ same_store s'
                (after (create_permission drawn_id' (Some role) resource_name
                          resource_id action_name do_commit) s')).
Proof.
  intros drawn_id role rn rid an s Hnew Hnone Hfree row s'.
  assert (Hrun :
            create_permission drawn_id (Some role) rn rid an true s
            = (Return row,
               {| db := with_permission row (db s);
                  new := [];
                  calls := CRefresh :: CCommit :: CAdd :: CExec :: calls s |})).
  { rewrite create_permission_run, Hnone.
    change (scoped_row drawn_id role rn rid an) with row.
    unfold bind, commit. cbn [db new calls]. rewrite Hnew. simpl app.
    rewrite (flush_one_permission row (db s) Hfree).
    unfold refresh_permission. cbn [db].
    now rewrite (find_new_permission row (db s) Hfree). }
  assert (Hnow : existsb (scoped_where role rn (str rid) an)
                   (permissions (with_permission row (db s))) = true).
  { simpl. rewrite existsb_app. apply orb_true_iff. right. simpl.
    unfold scoped_where. simpl. now rewrite !String.eqb_refl. }
  unfold s', outcome, after. rewrite Hrun. cbn [fst snd].
  split; [reflexivity|]. split; [reflexivity|]. split; [reflexivity|].
  split; [|split].
  - intros self names. apply satisfied_granted. exact Hnow.
  - rewrite has_global_permission_run. cbn [fst db]. f_equal.
    apply existsb_exists in Hnow. destruct Hnow as [p [Hin Hp]].
    apply existsb_exists. exists p. split; [exact Hin|].
    exact (scoped_implies_global role rn (str rid) an p Hp).
  - intros drawn_id' do_commit. rewrite create_permission_run.
    cbn [db]. rewrite Hnow. simpl. repeat split.
Qed.

Lemma create_permission_then_has_permission_witness :
  new (Session_ deployment) = []
  /\ existsb (scoped_where alice_personal "link" (str (PyInt 7)) "r")
       (permissions deployment) = false
  /\ permission_key_free draw_p1 deployment = true
  /\ outcome (create_permission draw_p1 (Some alice_personal) "link"
                (PyInt 7) "r" true) (Session_ deployment)
     = Return (scoped_row draw_p1 alice_personal "link" (PyInt 7) "r").
Proof.
  split; [reflexivity|]. split; [reflexivity|]. split; [reflexivity|].
  exact (proj1 (create_permission_then_has_permission draw_p1 alice_personal
                  "link" (PyInt 7) "r" (Session_ deployment)
                  eq_refl eq_refl eq_refl)).
Defined.

(** X4. What [commit=False] means differs between the two constructors.
    Under the conditions in which both succeed,
    [create_global_permission(commit=False)] returns the row and leaves
    it pending in the session, so that the next [commit] writes it;
    [create_permission(commit=False)] returns the row without adding it
    to the session, so that the next [commit] writes nothing. *)
Theorem commit_false_pending_or_dropped :
  forall (drawn_id : string) (role : Role.t) (resource_name : string)
         (resource_id : Any) (action_name : string) (s : Session),
    new s = [] ->
    role_exists (Role.id role) (db s) = true ->
    existsb (unscoped_where (Role.id role) resource_name action_name)
      (permissions (db s)) = false ->
    existsb (scoped_where role resource_name (str resource_id) action_name)
      (permissions (db s)) = false ->
    permission_key_free drawn_id (db s) = true ->
    let g := create_global_permission drawn_id (Role.id role) resource_name
               action_name false in
    let p := create_permission drawn_id (Some role) resource_name resource_id
               action_name false in
    (outcome g s
     = Return (Some (global_row drawn_id (Role.id role) resource_name
                       action_name))
     /\ db (after g s) = db s
     /\ new (after g s)
        = [NewPermission (global_row drawn_id (Role.id role) resource_name
                            action_name)]
     /\ db (after commit (after g s))
        = with_permission
            (global_row drawn_id (Role.id role) resource_name action_name)
            (db s))
    /\ (outcome p s
        = Return (scoped_row drawn_id role resource_name resource_id
                    action_name)
        /\ same_store s (after p s)
        /\ db (after commit (after p s)) = db s).
Proof.
  intros drawn_id role rn rid an s Hnew Hrole Hnog Hnos Hfree g p.
  unfold g, p, outcome, after.
  rewrite create_global_permission_run, create_permission_run.
  rewrite Hrole, Hnog, Hnos. cbn [negb fst snd db new]. rewrite Hnew.
  split.
  - split; [reflexivity|]. split; [reflexivity|]. split; [reflexivity|].
    unfold commit. cbn [db new app].
    now rewrite (flush_one_permission
                   (global_row drawn_id (Role.id role) rn an) (db s) Hfree).
  - split; [reflexivity|]. split; [split; reflexivity|].
    unfold commit. cbn [db new called]. now rewrite Hnew.
Qed.

Lemma commit_false_pending_or_dropped_witness :
  new (Session_ deployment) = []
  /\ role_exists (Role.id alice_personal) deployment = true
  /\ existsb (unscoped_where (Role.id alice_personal) "link" "r")
       (permissions deployment) = false
  /\ existsb (scoped_where alice_personal "link" (str (PyStr "lnk-docs")) "r")
       (permissions deployment) = false
  /\ permission_key_free draw_p1 deployment = true
  /\ db (after commit
           (after (create_permission draw_p1 (Some alice_personal) "link"
                     (PyStr "lnk-docs") "r" false) (Session_ deployment)))
     = deployment.
Proof.
  split; [reflexivity|]. split; [reflexivity|]. split; [reflexivity|].
  split; [reflexivity|]. split; [reflexivity|].
  exact (proj2 (proj2 (proj2 (commit_false_pending_or_dropped draw_p1
                                alice_personal "link" (PyStr "lnk-docs") "r"
                                (Session_ deployment)
                                eq_refl eq_refl eq_refl eq_refl eq_refl)))).
Defined.

(** X5. [create_permission] refuses without writing.  Called without a
    role it raises the 401 exception without touching the session; in a
    session without pending objects, for a role that already has a row
    for the resource name, the string of the resource id and the action
    it raises the 409 exception, and the committed database and the
    pending objects are as before. *)
Theorem create_permission_refusals :
  forall (drawn_id resource_name : string) (resource_id : Any)
         (action_name : string) (do_commit : bool) (s : Session),
    create_permission drawn_id None resource_name resource_id action_name
      do_commit s
    = (Raise (HTTPException 401
                (Some "Not authorized to access this resource.")), s)
    /\ (forall role,
           new s = [] ->
           existsb (scoped_where role resource_name (str resource_id)
                      action_name) (permissions (db s)) = true ->
           outcome (create_permission drawn_id (Some role) resource_name
                      resource_id action_name do_commit) s
           = Raise already_has_permission
           /\ same_store s
                (after (create_permission drawn_id (Some role) resource_name
                          resource_id action_name do_commit) s)).
Proof.
  intros drawn_id rn rid an do_commit s. split; [reflexivity|].
  intros role _ Hrow. unfold outcome, after.
  rewrite create_permission_run, Hrow. simpl. repeat split.
Qed.

Lemma create_permission_refusals_witness :
  new (Session_ deployment) = []
  /\ existsb (scoped_where alice_personal "link" (str (PyStr "lnk-docs")) "rw")
       (permissions deployment) = true
  /\ outcome (create_permission draw_p1 (Some alice_personal) "link"
                (PyStr "lnk-docs") "rw" true) (Session_ deployment)
     = Raise already_has_permission.
Proof.
  split; [reflexivity|]. split; [reflexivity|].
  exact (proj1 (proj2 (create_permission_refusals draw_p1 "link"
                         (PyStr "lnk-docs") "rw" true (Session_ deployment))
                  alice_personal eq_refl eq_refl)).
Defined.

(** ** [create_link], its readers and its checkers *)

Lemma in_firstn {A} (n : nat) (l : list A) (x : A) :
  In x (firstn n l) -> In x l.
Proof.
  intro H. rewrite <- (firstn_skipn n l). apply in_or_app. now left.
Qed.

Lemma in_skipn {A} (n : nat) (l : list A) (x : A) :
  In x (skipn n l) -> In x l.
Proof.
  intro H. rewrite <- (firstn_skipn n l). apply in_or_app. now right.
Qed.

Lemma in_page {A} (skip limit : nat) (rows : list A) (x : A) :
  In x (page skip limit rows) -> In x rows.
Proof. intro H. exact (in_skipn skip rows x (in_firstn limit _ x H)). Qed.

Lemma firstn_plus {A} (a b : nat) (l : list A) :
  firstn (a + b) l = (firstn a l ++ firstn b (skipn a l))%list.
Proof.
  revert l. induction a as [|a IH]; intro l; simpl; [reflexivity|].
  destruct l as [|x l]; simpl.
  - now rewrite firstn_nil.
  - now rewrite IH.
Qed.

(** Consecutive pages concatenate. *)
Lemma page_plus {A} (skip a b : nat) (rows : list A) :
  page skip (a + b) rows
  = (page skip a rows ++ page (skip + a) b rows)%list.
Proof.
  unfold page. rewrite firstn_plus, skipn_skipn.
  now rewrite (Nat.add_comm a skip).
Qed.

Lemma fresh_keys_parts drawn d :
  fresh_keys drawn d = true ->
  existsb (fun l => Link.id l =? link_id drawn) (links d) = false
  /\ existsb (fun r => Role.id r =? role_id drawn) (roles d) = false
  /\ existsb (fun p => Permission.permission_id p =? permission_id drawn)
       (permissions d) = false
  /\ existsb (fun l => RoleUserLink.role_id l =? role_id drawn)
       (role_user_links d) = false.
Proof.
  unfold fresh_keys. rewrite !andb_true_iff, !negb_true_iff. tauto.
Qed.

(** The successful run of [create_link]. *)
Lemma create_link_success drawn current_user data s :
  new s = [] ->
  label_taken (LinkCreationDTO.label data) (db s) = false ->
  fresh_keys drawn (db s) = true ->
  create_link drawn current_user data s
  = (Return (to_dto (the_link drawn current_user data)),
     {| db := with_link drawn current_user data (db s);
        new := [];
        calls := CRefresh :: CCommit :: CAdd :: CAdd :: CAdd :: CExec
                   :: calls s |}).
Proof.
  intros Hnew Hlabel Hfresh.
  rewrite (create_link_run drawn current_user data s Hnew), Hlabel.
  rewrite flush_create_link.
  now rewrite (fresh_keys_free drawn current_user _ Hfresh).
Qed.

Lemma label_not_taken (label : string) (d : Database) :
  label_taken label d = false -> ~ In label (map Link.label (links d)).
Proof.
  unfold label_taken. intros Hfree Hin.
  apply in_map_iff in Hin. destruct Hin as [l [Hl Hin]].
  assert (H : existsb (fun l => Link.label l =? label) (links d) = true).
  { apply existsb_exists. exists l. split; [exact Hin|].
    now apply String.eqb_eq. }
  congruence.
Qed.

(** X6. [create_link] keeps labels unique.  From a session without
    pending objects, if no two committed links share a label, then none do
    after [create_link], whatever the arguments and whatever the
    outcome. *)
Theorem create_link_keeps_labels_unique :
  forall (drawn : Defaults) (current_user : User.t)
         (data : LinkCreationDTO.t) (s : Session),
    new s = [] ->
    NoDup (map Link.label (links (db s))) ->
    NoDup (map Link.label
             (links (db (after (create_link drawn current_user data) s)))).
Proof.
  intros drawn current_user data s Hnew Huniq.
  unfold after. rewrite (create_link_run drawn current_user data s Hnew).
  destruct (label_taken (LinkCreationDTO.label data) (db s)) eqn:Hlabel;
    [exact Huniq|].
  rewrite flush_create_link.
  match goal with |- context [if ?b then _ else _] => destruct b end;
    [exact Huniq|].
  cbn [snd db with_link links]. rewrite map_app.
  apply NoDup_app; [exact Huniq | |].
  - simpl. constructor; [intros [] | constructor].
  - intros a Ha [Hb|[]]. simpl in Hb. subst a.
    exact (label_not_taken _ _ Hlabel Ha).
Qed.

Lemma create_link_keeps_labels_unique_witness :
  new (Session_ deployment) = []
  /\ NoDup (map Link.label (links deployment))
  /\ NoDup (map Link.label
              (links (db (after (create_link drawn_new alice blog)
                            (Session_ deployment))))).
Proof.
  assert (Huniq : NoDup (map Link.label (links deployment))).
  { simpl. constructor; [intros [] | constructor]. }
  split; [reflexivity|]. split; [exact Huniq|].
  exact (create_link_keeps_labels_unique drawn_new alice blog
           (Session_ deployment) eq_refl Huniq).
Defined.

(** X7. Round trip of a link.  After a successful [create_link], both
    [get_link] on the drawn id and [get_link_by_label] on the label
    return the very DTO [create_link] returned. *)
Theorem create_link_then_get_link :
  forall (drawn : Defaults) (current_user : User.t)
         (data : LinkCreationDTO.t) (s : Session),
    new s = [] ->
    label_taken (LinkCreationDTO.label data) (db s) = false ->
    fresh_keys drawn (db s) = true ->
    let s' := after (create_link drawn current_user data) s in
    outcome (get_link (link_id drawn)) s'
    = outcome (create_link drawn current_user data) s
    /\ outcome (get_link_by_label (LinkCreationDTO.label data)) s'
       = outcome (create_link drawn current_user data) s
    /\ outcome (create_link drawn current_user data) s
       = Return (to_dto (the_link drawn current_user data)).
Proof.
  intros drawn current_user data s Hnew Hlabel Hfresh s'.
  unfold s', outcome, after.
  rewrite (create_link_success drawn current_user data s Hnew Hlabel Hfresh).
  cbn [fst snd].
  destruct (fresh_keys_parts drawn (db s) Hfresh) as [Hl _].
  unfold get_link, get_link_by_label, bind, get, exec_first.
  cbn [db with_link links].
  rewrite (find_app_last (fun r => Link.id r =? link_id drawn) (links (db s))
             (the_link drawn current_user data) Hl (String.eqb_refl _)).
  rewrite (find_app_last
             (fun l => Link.label l =? LinkCreationDTO.label data)
             (links (db s)) (the_link drawn current_user data) Hlabel
             (String.eqb_refl _)).
  repeat split.
Qed.

Lemma create_link_then_get_link_witness :
  new (Session_ deployment) = []
  /\ label_taken (LinkCreationDTO.label blog) deployment = false
  /\ fresh_keys drawn_new deployment = true
  /\ outcome (get_link "lnk-blog")
       (after (create_link drawn_new alice blog) (Session_ deployment))
     = outcome (create_link drawn_new alice blog) (Session_ deployment).
Proof.
  split; [reflexivity|]. split; [reflexivity|]. split; [reflexivity|].
  exact (proj1 (create_link_then_get_link drawn_new alice blog
                  (Session_ deployment) eq_refl eq_refl eq_refl)).
Defined.

Lemma existsb_ext_in {A} (f g : A -> bool) (l : list A) :
  (forall x, In x l -> f x = g x) -> existsb f l = existsb g l.
Proof.
  induction l as [|x l IH]; simpl; intro H; [reflexivity|].
  rewrite (H x (or_introl eq_refl)), IH; [reflexivity|].
  intros y Hy. apply H. now right.
Qed.

Lemma forallb_ext_in {A} (f g : A -> bool) (l : list A) :
  (forall x, In x l -> f x = g x) -> forallb f l = forallb g l.
Proof.
  induction l as [|x l IH]; simpl; intro H; [reflexivity|].
  rewrite (H x (or_introl eq_refl)), IH; [reflexivity|].
  intros y Hy. apply H. now right.
Qed.

(** The verdict depends on the database only through what is granted to
    the checker's own roles. *)
Lemma verdict_ext (d1 d2 : Database) (self : PermissionChecker.t)
  (either : bool) :
  (forall role pcheck action_name,
      In role (PermissionChecker.roles self) ->
      granted d1 role pcheck action_name = granted d2 role pcheck action_name) ->
  verdict d1 self either = verdict d2 self either.
Proof.
  intro Hsame. unfold verdict.
  destruct (bypassed self); [reflexivity|].
  destruct either.
  - rewrite (existsb_ext_in _
               (fun role =>
                  existsb
                    (fun pcheck =>
                       existsb (granted d2 role pcheck) (action_names pcheck))
                    (PermissionChecker.pcheck_models self))
               (PermissionChecker.roles self)); [reflexivity|].
    intros role Hr. apply existsb_ext_in. intros pcheck _.
    apply existsb_ext_in. intros an _. now apply Hsame.
  - rewrite (existsb_ext_in _
               (fun role =>
                  forallb
                    (fun pcheck =>
                       forallb (granted d2 role pcheck) (action_names pcheck))
                    (PermissionChecker.pcheck_models self))
               (PermissionChecker.roles self)); [reflexivity|].
    intros role Hr. apply forallb_ext_in. intros pcheck _.
    apply forallb_ext_in. intros an _. now apply Hsame.
Qed.

Lemma in_user_roles (d : Database) (user : User.t) (role : Role.t) :
  In role (user_roles d user)
  <-> In role (roles d)
      /\ has_membership (User.id user) (Role.id role) d = true.
Proof. unfold user_roles, has_membership. apply filter_In. Qed.

(** The creator holds the new personal role. *)
Lemma creator_holds_personal_role drawn current_user data d :
  In (the_personal_role drawn)
    (user_roles (with_link drawn current_user data d) current_user).
Proof.
  apply in_user_roles. split.
  - simpl. apply in_or_app. right. now left.
  - unfold has_membership. simpl. rewrite existsb_app. apply orb_true_iff.
    right. simpl. now rewrite !String.eqb_refl.
Qed.

(** The new permission answers the scoped and the global question for
    the new role. *)
Lemma personal_role_granted drawn current_user data d pcheck :
  pcheck = PermissionCheckModel LINK_RESOURCE (PyStr (link_id drawn))
             [ACTION_READWRITE]
  \/ pcheck = GlobalPermissionCheckModel LINK_RESOURCE [ACTION_READWRITE] ->
  granted (with_link drawn current_user data d) (the_personal_role drawn)
    pcheck ACTION_READWRITE = true.
Proof.
  intros [->| ->]; simpl; rewrite existsb_app; apply orb_true_iff; right;
    simpl.
  - unfold scoped_where. simpl. now rewrite !String.eqb_refl.
  - unfold global_where. simpl. now rewrite !String.eqb_refl.
Qed.

(** X8. The creator of a link owns it.  After a successful
    [create_link], the check [update_link] makes for the new link (no
    bypass role) and the one [delete_link] makes (bypass role admin), run
    on the creator's roles as the database now has them, return
    [True]. *)
Theorem create_link_then_owner_check :
  forall (drawn : Defaults) (current_user : User.t)
         (data : LinkCreationDTO.t) (s : Session) (bypass_role : option string),
    new s = [] ->
    label_taken (LinkCreationDTO.label data) (db s) = false ->
    fresh_keys drawn (db s) = true ->
    let s' := after (create_link drawn current_user data) s in
    outcome (check (link_owner_checker (user_roles (db s') current_user)
                      bypass_role (link_id drawn)) false) s'
    = Return true.
Proof.
  intros drawn current_user data s bypass_role Hnew Hlabel Hfresh s'.
  rewrite check_outcome. unfold s', after.
  rewrite (create_link_success drawn current_user data s Hnew Hlabel Hfresh).
  cbn [snd db]. unfold verdict.
  destruct (bypassed _); [reflexivity|].
  match goal with |- (if ?b then _ else _) = _ =>
    assert (Hb : b = true); [|now rewrite Hb] end.
  apply existsb_exists. exists (the_personal_role drawn). split.
  - apply creator_holds_personal_role.
  - cbn [link_owner_checker PermissionChecker.pcheck_models forallb
           action_names].
    rewrite (personal_role_granted drawn current_user data (db s) _
               (or_introl eq_refl)).
    reflexivity.
Qed.

Lemma create_link_then_owner_check_witness :
  new (Session_ deployment) = []
  /\ label_taken (LinkCreationDTO.label blog) deployment = false
  /\ fresh_keys drawn_new deployment = true
  /\ outcome
       (check (link_owner_checker
                 (user_roles
                    (db (after (create_link drawn_new bob blog)
                           (Session_ deployment))) bob)
                 None "lnk-blog") false)
       (after (create_link drawn_new bob blog) (Session_ deployment))
     = Return true.
Proof.
  split; [reflexivity|]. split; [reflexivity|]. split; [reflexivity|].
  exact (create_link_then_owner_check drawn_new bob blog
           (Session_ deployment) None eq_refl eq_refl eq_refl).
Defined.

Lemma existsb_false_in {A} (f : A -> bool) (l : list A) (x : A) :
  existsb f l = false -> In x l -> f x = false.
Proof.
  intros Hnone Hin. apply not_true_is_false. intro Hx.
  assert (H : existsb f l = true) by (apply existsb_exists; eauto).
  congruence.
Qed.

(** Another user's roles are the same after [create_link]. *)
Lemma user_roles_with_link_other drawn current_user data d other :
  fresh_keys drawn d = true ->
  User.id other <> User.id current_user ->
  user_roles (with_link drawn current_user data d) other = user_roles d other.
Proof.
  intros Hfresh Hother.
  destruct (fresh_keys_parts drawn d Hfresh) as [_ [_ [_ Hm]]].
  assert (Hnew_member :
            (RoleUserLink.user_id (the_membership drawn current_user)
             =? User.id other) = false).
  { simpl. apply String.eqb_neq. congruence. }
  unfold user_roles. cbn [with_link roles role_user_links].
  rewrite filter_app. simpl filter at 2.
  rewrite existsb_app. cbn [existsb]. rewrite Hnew_member. simpl.
  rewrite orb_false_r.
  assert (Hnone :
            existsb
              (fun l => (RoleUserLink.user_id l =? User.id other)
                        && (RoleUserLink.role_id l =? role_id drawn))
              (role_user_links d) = false).
  { apply not_true_is_false. intro H. apply existsb_exists in H.
    destruct H as [l [Hin Hl]]. apply andb_true_iff in Hl.
    rewrite (existsb_false_in _ _ l Hm Hin) in Hl. destruct Hl. discriminate. }
  rewrite Hnone, app_nil_r.
  apply filter_ext_in. intros r _.
  rewrite existsb_app. cbn [existsb]. rewrite Hnew_member. simpl.
  now rewrite orb_false_r.
Qed.

(** What is granted to a role that is not the new one is the same after
    [create_link]. *)
Lemma granted_with_link_old_role drawn current_user data d role pcheck an :
  Role.id role <> role_id drawn ->
  granted (with_link drawn current_user data d) role pcheck an
  = granted d role pcheck an.
Proof.
  intro Hold.
  assert (Hrole : sql_eq (Permission.role_id (the_rw_permission drawn))
                    (Role.id role) = false).
  { simpl. apply String.eqb_neq. congruence. }
  destruct pcheck as [rn rid names|rn names]; simpl;
    rewrite existsb_app; simpl.
  - unfold scoped_where at 2. rewrite Hrole. simpl. now rewrite orb_false_r.
  - unfold global_where at 2. rewrite Hrole. simpl. now rewrite orb_false_r.
Qed.

(** X9. [create_link] changes nobody else's rights.  After a successful
    [create_link] by one user, any check (any bypass configuration, any
    list of check requests, either mode) run on the roles of a user with
    another id has the outcome it had before. *)
Theorem create_link_changes_no_other_rights :
  forall (drawn : Defaults) (current_user other : User.t)
         (data : LinkCreationDTO.t) (s : Session)
         (like : PermissionChecker.t) (either : bool),
    new s = [] ->
    label_taken (LinkCreationDTO.label data) (db s) = false ->
    fresh_keys drawn (db s) = true ->
    User.id other <> User.id current_user ->
    let s' := after (create_link drawn current_user data) s in
    outcome (check (checker_for (user_roles (db s') other) like) either) s'
    = outcome (check (checker_for (user_roles (db s) other) like) either) s.
Proof.
  intros drawn current_user other data s like either Hnew Hlabel Hfresh
    Hother s'.
  rewrite !check_outcome. unfold s', after.
  rewrite (create_link_success drawn current_user data s Hnew Hlabel Hfresh).
  cbn [snd db].
  rewrite (user_roles_with_link_other drawn current_user data (db s) other
             Hfresh Hother).
  apply verdict_ext. intros role pcheck an Hrole.
  apply granted_with_link_old_role.
  cbn [checker_for PermissionChecker.roles] in Hrole.
  apply in_user_roles in Hrole. destruct Hrole as [Hin _].
  destruct (fresh_keys_parts drawn (db s) Hfresh) as [_ [Hr _]].
  pose proof (existsb_false_in _ _ role Hr Hin) as Hneq.
  now apply String.eqb_neq.
Qed.

Lemma create_link_changes_no_other_rights_witness :
  new (Session_ deployment) = []
  /\ label_taken (LinkCreationDTO.label blog) deployment = false
  /\ fresh_keys drawn_new deployment = true
  /\ User.id bob <> User.id alice
  /\ outcome
       (check (checker_for
                 (user_roles
                    (db (after (create_link drawn_new alice blog)
                           (Session_ deployment))) bob)
                 alice_on_docs) false)
       (after (create_link drawn_new alice blog) (Session_ deployment))
     = outcome
         (check (checker_for (user_roles deployment bob) alice_on_docs) false)
         (Session_ deployment).
Proof.
  assert (Hother : User.id bob <> User.id alice) by (simpl; discriminate).
  split; [reflexivity|]. split; [reflexivity|]. split; [reflexivity|].
  split; [exact Hother|].
  exact (create_link_changes_no_other_rights drawn_new alice bob blog
           (Session_ deployment) alice_on_docs false
           eq_refl eq_refl eq_refl Hother).
Defined.

(** ** The readers of [providers/link.py] *)

(** [check] either returns [True] or raises its 401 exception. *)
Lemma verdict_cases d self either :
  verdict d self either = Return true
  \/ verdict d self either
     = Raise (if either then not_authorized_this else not_authorized).
Proof.
  unfold verdict. destruct (bypassed self); [now left|].
  destruct either;
    match goal with |- context [if ?b then _ else _] => destruct b end;
    auto.
Qed.

(** What [get_user_link] does, case by case. *)
Lemma get_user_link_run current_user target_user_id skip limit s :
  exists s1,
    only_queried s s1
    /\ get_user_link current_user target_user_id skip limit s
       = match verdict (db s)
                 (link_reader_checker (user_roles (db s) current_user)) true
         with
         | Raise e => (Raise e, s1)
         | Return _ =>
             if user_exists target_user_id (db s) then
               (Return (map to_dto
                          (page skip limit (links_of target_user_id (db s)))),
                called CExec (called CGet s1))
             else
               (Raise (HTTPException 404 (Some "User not found.")),
                called CGet s1)
         end.
Proof.
  destruct (check_run (link_reader_checker (user_roles (db s) current_user))
              true s) as [s1 [Hrun Hq]].
  exists s1. split; [exact Hq|].
  destruct Hq as [[Hdb Hnew] _].
  unfold get_user_link, bind, load_roles. rewrite Hrun. clear Hrun.
  destruct (verdict _ _ true) as [b|e]; [|reflexivity].
  destruct s1 as [d1 n1 c1]. simpl in Hdb, Hnew. subst d1 n1.
  unfold get, user_exists. cbn [db called].
  rewrite <- is_not_None_find.
  destruct (find _ (users (db s))) as [u|]; reflexivity.
Qed.

(** X10. [get_user_link] checks the caller first and the target second,
    and only reads.  In a session without pending objects, a caller who
    fails the any-of check gets the 401
    exception whether or not the target user exists; a caller who passes
    gets the 404 exception for a missing target and otherwise the
    requested page of that user's links: at most [limit] DTOs, each of a
    committed link whose author is the target.  In every case the
    committed database and the pending objects are untouched. *)
Theorem get_user_link_gate :
  forall (current_user : User.t) (target_user_id : string)
         (skip limit : nat) (s : Session),
    new s = [] ->
    same_store s (after (get_user_link current_user target_user_id skip limit) s)
    /\ (~ may_list_links current_user s ->
        outcome (get_user_link current_user target_user_id skip limit) s
        = Raise not_authorized_this)
    /\ (may_list_links current_user s ->
        user_exists target_user_id (db s) = false ->
        outcome (get_user_link current_user target_user_id skip limit) s
        = Raise (HTTPException 404 (Some "User not found.")))
    /\ (may_list_links current_user s ->
        user_exists target_user_id (db s) = true ->
        exists dtos,
          outcome (get_user_link current_user target_user_id skip limit) s
          = Return dtos
          /\ dtos = map to_dto (page skip limit (links_of target_user_id (db s)))
          /\ length dtos <= limit
          /\ forall dto,
              In dto dtos ->
              LinkDTO.author_id dto = target_user_id
              /\ exists l, In l (links (db s)) /\ dto = to_dto l).
Proof.
  intros current_user target skip limit s _.
  unfold may_list_links. rewrite check_outcome.
  destruct (get_user_link_run current_user target skip limit s)
    as [s1 [[[Hdb Hnew] _] Hrun]].
  unfold outcome, after. rewrite Hrun. clear Hrun.
  destruct (verdict_cases (db s)
              (link_reader_checker (user_roles (db s) current_user)) true)
    as [Hv|Hv]; rewrite Hv.
  - split.
    + destruct (user_exists target (db s)); split; assumption.
    + split; [intro H; now elim H|].
      split; intros _ Hex; rewrite Hex; [reflexivity|].
      eexists. split; [reflexivity|]. split; [reflexivity|]. split.
      * rewrite length_map. unfold page. apply firstn_le_length.
      * intros dto Hin. apply in_map_iff in Hin.
        destruct Hin as [l [Hdto Hin]]. apply in_page in Hin.
        unfold links_of in Hin. apply filter_In in Hin.
        destruct Hin as [Hin Huser]. apply String.eqb_eq in Huser.
        subst dto. split; [exact Huser|]. now exists l.
  - split; [split; assumption|].
    split; [reflexivity|]. split; intro H; discriminate H.
Qed.

Lemma get_user_link_gate_witness :
  new (Session_ deployment) = []
  /\ may_list_links carol (Session_ deployment)
  /\ user_exists "u-alice" deployment = true
  /\ (exists dtos,
         outcome (get_user_link carol "u-alice" 0 10) (Session_ deployment)
         = Return dtos /\ dtos = [to_dto docs_link])
  /\ user_exists "u-nobody" deployment = false
  /\ outcome (get_user_link carol "u-nobody" 0 10) (Session_ deployment)
     = Raise (HTTPException 404 (Some "User not found."))
  /\ ~ may_list_links bob (Session_ deployment)
  /\ outcome (get_user_link bob "u-nobody" 0 10) (Session_ deployment)
     = Raise not_authorized_this.
Proof.
  assert (Hcarol : may_list_links carol (Session_ deployment)) by reflexivity.
  assert (Hbob : ~ may_list_links bob (Session_ deployment))
    by (intro H; discriminate H).
  pose proof (get_user_link_gate carol "u-alice" 0 10 (Session_ deployment)
                eq_refl) as [_ [_ [_ Hok]]].
  pose proof (get_user_link_gate carol "u-nobody" 0 10 (Session_ deployment)
                eq_refl) as [_ [_ [Hmissing _]]].
  pose proof (get_user_link_gate bob "u-nobody" 0 10 (Session_ deployment)
                eq_refl) as [_ [Hrefused _]].
  split; [reflexivity|].
  split; [exact Hcarol|]. split; [reflexivity|]. split.
  - destruct (Hok Hcarol eq_refl) as [dtos [Hout [Hdtos _]]].
    exists dtos. split; [exact Hout | exact Hdtos].
  - split; [reflexivity|]. split; [exact (Hmissing Hcarol eq_refl)|].
    split; [exact Hbob | exact (Hrefused Hbob)].
Defined.

(** X11. Owning one link opens every user's links.  The personal grant
    [create_link] writes is scoped to the new link, but the check of
    [get_user_link] is a global one, which a scoped row satisfies: after
    a successful [create_link] the creator passes it, and
    [get_user_link] returns to the creator the page of links of any
    existing user. *)
Theorem create_link_then_get_user_link :
  forall (drawn : Defaults) (current_user : User.t)
         (data : LinkCreationDTO.t) (s : Session),
    new s = [] ->
    label_taken (LinkCreationDTO.label data) (db s) = false ->
    fresh_keys drawn (db s) = true ->
    let s' := after (create_link drawn current_user data) s in
    may_list_links current_user s'
    /\ forall target_user_id skip limit,
        user_exists target_user_id (db s) = true ->
        outcome (get_user_link current_user target_user_id skip limit) s'
        = Return (map to_dto
                    (page skip limit (links_of target_user_id (db s')))).
Proof.
  intros drawn current_user data s Hnew Hlabel Hfresh s'.
  assert (Hmay : may_list_links current_user s').
  { unfold may_list_links. rewrite check_outcome. unfold s', after.
    rewrite (create_link_success drawn current_user data s Hnew Hlabel Hfresh).
    cbn [snd db]. unfold verdict.
    destruct (bypassed _); [reflexivity|].
    match goal with |- (if ?b then _ else _) = _ =>
      assert (Hb : b = true); [|now rewrite Hb] end.
    apply existsb_exists. exists (the_personal_role drawn). split.
    - apply creator_holds_personal_role.
    - cbn [link_reader_checker PermissionChecker.pcheck_models existsb
             action_names].
      rewrite (personal_role_granted drawn current_user data (db s)
                 (GlobalPermissionCheckModel LINK_RESOURCE [ACTION_READWRITE])
                 (or_intror eq_refl)).
      now rewrite !orb_true_r. }
  split; [exact Hmay|].
  intros target skip limit Hex.
  destruct (get_user_link_run current_user target skip limit s')
    as [s1 [_ Hrun]].
  unfold may_list_links in Hmay. rewrite check_outcome in Hmay.
  unfold outcome. rewrite Hrun, Hmay.
  assert (Hex' : user_exists target (db s') = true).
  { unfold s', after.
    rewrite (create_link_success drawn current_user data s Hnew Hlabel Hfresh).
    exact Hex. }
  now rewrite Hex'.
Qed.

Lemma create_link_then_get_user_link_witness :
  new (Session_ deployment) = []
  /\ label_taken (LinkCreationDTO.label blog) deployment = false
  /\ fresh_keys drawn_new deployment = true
  /\ ~ may_list_links bob (Session_ deployment)
  /\ may_list_links bob
       (after (create_link drawn_new bob blog) (Session_ deployment))
  /\ user_exists "u-alice" deployment = true
  /\ outcome (get_user_link bob "u-alice" 0 10)
       (after (create_link drawn_new bob blog) (Session_ deployment))
     = Return [to_dto docs_link].
Proof.
  pose proof (create_link_then_get_user_link drawn_new bob blog
                (Session_ deployment) eq_refl eq_refl eq_refl) as [Hmay Hget].
  split; [reflexivity|]. split; [reflexivity|]. split; [reflexivity|].
  split; [intro H; discriminate H|]. split; [exact Hmay|].
  split; [reflexivity|].
  exact (Hget "u-alice" 0 10 eq_refl).
Defined.

(** X12. [get_my_links] pages the caller's own links and only reads.  In
    a session without pending objects it always returns: at most [limit] DTOs, each of a committed link whose
    author is the caller; the pages are the consecutive slices of the
    caller's links, so that the page of [limit1] links after [skip]
    followed by the page of [limit2] links after [skip + limit1] is the
    page of [limit1 + limit2] links after [skip], and a [skip] that
    reaches the number of the caller's links gives the empty page. *)
Theorem get_my_links_pages :
  forall (current_user : User.t) (skip limit : nat) (s : Session),
    new s = [] ->
    only_queried s (after (get_my_links current_user skip limit) s)
    /\ (exists dtos,
           outcome (get_my_links current_user skip limit) s = Return dtos
           /\ length dtos <= limit
           /\ forall dto,
               In dto dtos ->
               LinkDTO.author_id dto = User.id current_user
               /\ exists l, In l (links (db s)) /\ dto = to_dto l)
    /\ (forall limit2 dtos1 dtos2,
           outcome (get_my_links current_user skip limit) s = Return dtos1 ->
           outcome (get_my_links current_user (skip + limit) limit2) s
           = Return dtos2 ->
           outcome (get_my_links current_user skip (limit + limit2)) s
           = Return (dtos1 ++ dtos2)%list)
    /\ (length (links_of (User.id current_user) (db s)) <= skip ->
        outcome (get_my_links current_user skip limit) s = Return []).
Proof.
  intros current_user skip limit s _.
  assert (Hrun : forall k n,
             get_my_links current_user k n s
             = (Return (map to_dto
                          (page k n (links_of (User.id current_user) (db s)))),
                called CExec s)) by reflexivity.
  unfold outcome, after. rewrite !Hrun. cbn [fst snd].
  split; [apply only_queried_exec|]. split; [|split].
  - eexists. split; [reflexivity|]. split.
    + rewrite length_map. unfold page. apply firstn_le_length.
    + intros dto Hin. apply in_map_iff in Hin.
      destruct Hin as [l [Hdto Hin]]. apply in_page in Hin.
      unfold links_of in Hin. apply filter_In in Hin.
      destruct Hin as [Hin Huser]. apply String.eqb_eq in Huser.
      subst dto. split; [exact Huser|]. now exists l.
  - intros limit2 dtos1 dtos2 H1 H2. rewrite !Hrun. cbn [fst].
    injection H1 as <-. injection H2 as <-.
    now rewrite page_plus, map_app.
  - intro Hlen. unfold page. now rewrite (skipn_all2 _ Hlen), firstn_nil.
Qed.

(** X12, on the deployment: Alice's only link is on the first page and
    there is no second page. *)
Lemma get_my_links_pages_witness :
  new (Session_ deployment) = []
  /\ length (links_of (User.id alice) deployment) <= 1
  /\ outcome (get_my_links alice 1 10) (Session_ deployment) = Return []
  /\ outcome (get_my_links alice 0 (1 + 10)) (Session_ deployment)
     = Return ([to_dto docs_link] ++ [])%list.
Proof.
  pose proof (get_my_links_pages alice 1 10 (Session_ deployment) eq_refl)
    as [_ [_ [_ Hlast]]].
  pose proof (get_my_links_pages alice 0 1 (Session_ deployment) eq_refl)
    as [_ [_ [Hcat _]]].
  assert (Hlen : length (links_of (User.id alice) deployment) <= 1)
    by (simpl; lia).
  split; [reflexivity|].
  split; [exact Hlen|]. split; [exact (Hlast Hlen)|].
  exact (Hcat 10 [to_dto docs_link] [] eq_refl eq_refl).
Defined.

(** ** [is_admin] *)

Lemma is_admin_run current_user s :
  is_admin current_user s
  = check (admin_checker (user_roles (db s) current_user)) false s.
Proof. reflexivity. Qed.

(** X13. [is_admin] never returns [False].  In a session without pending
    objects it returns [True] exactly when one of the caller's roles is
    named admin or holds a permission row for resource admin and action
    rw (with any [resource_id]), and raises the 401 exception otherwise;
    it only queries. *)
Theorem is_admin_true_or_raises :
  forall (current_user : User.t) (s : Session),
    new s = [] ->
    only_queried s (after (is_admin current_user) s)
    /\ (outcome (is_admin current_user) s = Return true
        \/ outcome (is_admin current_user) s = Raise not_authorized)
    /\ (outcome (is_admin current_user) s = Return true
        <-> exists role,
           In role (user_roles (db s) current_user)
           /\ (Role.name role = Some "admin"
               \/ exists p, In p (permissions (db s))
                            /\ grants role "admin" "rw" p)).
Proof.
  intros current_user s _. unfold outcome, after. rewrite is_admin_run.
  destruct (check_run (admin_checker (user_roles (db s) current_user))
              false s) as [s1 [Hrun Hq]].
  rewrite Hrun. cbn [fst snd]. split; [exact Hq|]. split.
  - exact (verdict_cases (db s) _ false).
  - unfold verdict.
    destruct (bypassed (admin_checker (user_roles (db s) current_user)))
      eqn:Hb.
    + apply bypassed_true in Hb.
      destruct Hb as [role [n [Hr [Hn [Hby|[[] _]]]]]].
      injection Hby as <-. split; [|reflexivity].
      intros _. exists role. split; [exact Hr | now left].
    + cbn [admin_checker PermissionChecker.roles
             PermissionChecker.pcheck_models forallb action_names].
      match goal with |- context [if ?b then _ else _] =>
        destruct b eqn:Hv end.
      * split; [|reflexivity]. intros _.
        apply existsb_exists in Hv. destruct Hv as [role [Hr Hg]].
        exists role. split; [exact Hr|]. right.
        rewrite !andb_true_r in Hg. simpl in Hg.
        apply existsb_exists in Hg. destruct Hg as [p [Hin Hp]].
        exists p. split; [exact Hin|]. now apply global_where_true.
      * split; [discriminate|].
        intros [role [Hr [Hname|[p [Hin Hp]]]]]; exfalso.
        -- assert (Hb' : bypassed
                           (admin_checker (user_roles (db s) current_user))
                         = true).
           { apply bypassed_true. exists role, "admin". auto. }
           congruence.
        -- assert (Hv' : existsb
                           (fun role =>
                              granted (db s) role
                                (GlobalPermissionCheckModel ADMIN_RESOURCE
                                   [ACTION_READWRITE]) ACTION_READWRITE
                              && true && true)
                           (user_roles (db s) current_user) = true).
           { apply existsb_exists. exists role. split; [exact Hr|].
             rewrite !andb_true_r. simpl. apply existsb_exists.
             exists p. split; [exact Hin|]. now apply global_where_true. }
           congruence.
Qed.

Lemma is_admin_true_or_raises_witness :
  new (Session_ deployment) = []
  /\ only_queried (Session_ deployment)
       (after (is_admin carol) (Session_ deployment))
  /\ outcome (is_admin carol) (Session_ deployment) = Return true
  /\ (outcome (is_admin bob) (Session_ deployment) = Return true
      \/ outcome (is_admin bob) (Session_ deployment) = Raise not_authorized).
Proof.
  pose proof (is_admin_true_or_raises carol (Session_ deployment) eq_refl)
    as [Hq _].
  pose proof (is_admin_true_or_raises bob (Session_ deployment) eq_refl)
    as [_ [Hcases _]].
  split; [reflexivity|]. split; [exact Hq|]. split; [reflexivity|].
  exact Hcases.
Defined.

(** ** [add_permission_to_user] *)

(** What [add_permission_to_user] does, case by case. *)
Lemma add_permission_to_user_run rid pid current_user target an res_id rn
  role_name s :
  exists s1,
    only_queried s s1
    /\ add_permission_to_user rid pid current_user target an res_id rn
         role_name s
       = match verdict (db s)
                 (admin_rw_checker (user_roles (db s) current_user)) false
         with
         | Raise e => (Raise e, s1)
         | Return _ =>
             match find (fun u => User.id u =? target) (users (db s)) with
             | None =>
                 (Raise (HTTPException 404 (Some "User not found.")),
                  called CGet s1)
             | Some target_user =>
                 (commit ;;;
                  ret {| message := "Permission added successfully." |})
                   {| db := db s;
                      new :=
                        new s
                        ++ [NewRole {| role_row :=
                                         {| Role.id := rid;
                                            Role.name := role_name |};
                                       role_users := [target_user] |};
                            NewPermission
                              {| Permission.permission_id := pid;
                                 Permission.resource_name := rn;
                                 Permission.resource_id := Some res_id;
                                 Permission.action := an;
                                 Permission.role_id := Some rid |}];
                      calls := CAdd :: CAdd :: CGet :: calls s1 |}
             end
         end.
Proof.
  destruct (check_run (admin_rw_checker (user_roles (db s) current_user))
              false s) as [s1 [Hrun Hq]].
  exists s1. split; [exact Hq|].
  destruct Hq as [[Hdb Hnew] _].
  unfold add_permission_to_user, bind, load_roles. rewrite Hrun. clear Hrun.
  destruct (verdict _ _ false) as [b|e]; [|reflexivity].
  destruct s1 as [d1 n1 c1]. simpl in Hdb, Hnew. subst d1 n1.
  unfold get. cbn [db called].
  destruct (find _ (users (db s))) as [u|]; [|reflexivity].
  cbn. now rewrite <- app_assoc.
Qed.

(** X14. The gate of [add_permission_to_user] has no bypass role.  In a
    session without pending objects, a caller none of whose roles holds a permission row for resource admin
    and action rw gets the 401 exception, whatever the names of the
    caller's roles (the name admin included) and whatever the other
    arguments, and nothing is written. *)
Theorem add_permission_to_user_no_bypass :
  forall (drawn_role_id drawn_permission_id : string) (current_user : User.t)
         (target_user_id action_name resource_id resource_name : string)
         (role_name : option string) (s : Session),
    new s = [] ->
    (forall role p,
        In role (user_roles (db s) current_user) ->
        In p (permissions (db s)) ->
        ~ grants role "admin" "rw" p) ->
    outcome (add_permission_to_user drawn_role_id drawn_permission_id
               current_user target_user_id action_name resource_id
               resource_name role_name) s
    = Raise not_authorized
    /\ only_queried s
         (after (add_permission_to_user drawn_role_id drawn_permission_id
                   current_user target_user_id action_name resource_id
                   resource_name role_name) s).
Proof.
  intros rid pid current_user target an res_id rn role_name s _ Hnone.
  destruct (add_permission_to_user_run rid pid current_user target an res_id
              rn role_name s) as [s1 [Hq Hrun]].
  unfold outcome, after. rewrite Hrun. clear Hrun.
  assert (Hv : verdict (db s)
                 (admin_rw_checker (user_roles (db s) current_user)) false
               = Raise not_authorized).
  { unfold verdict. cbn [bypassed admin_rw_checker
                           PermissionChecker.bypass_role
                           PermissionChecker.bypass_roles opt_in filter any
                           existsb orb PermissionChecker.roles
                           PermissionChecker.pcheck_models forallb
                           action_names].
    match goal with |- (if ?b then _ else _) = _ => destruct b eqn:Hb end;
      [|reflexivity].
    exfalso. apply existsb_exists in Hb. destruct Hb as [role [Hr Hg]].
    rewrite !andb_true_r in Hg. simpl in Hg.
    apply existsb_exists in Hg. destruct Hg as [p [Hin Hp]].
    apply global_where_true in Hp. exact (Hnone role p Hr Hin Hp). }
  rewrite Hv. split; [reflexivity | exact Hq].
Qed.

Lemma add_permission_to_user_no_bypass_witness :
  new (Session_ deployment) = []
  /\ (forall role p,
      In role (user_roles deployment carol) ->
      In p (permissions deployment) ->
      ~ grants role "admin" "rw" p)
  /\ outcome (is_admin carol) (Session_ deployment) = Return true
  /\ outcome (add_permission_to_user "r-new" "p-new" carol "u-bob" "rw"
                "lnk-docs" "link" None) (Session_ deployment)
     = Raise not_authorized.
Proof.
  assert (Hnone : forall role p,
             In role (user_roles (db (Session_ deployment)) carol) ->
             In p (permissions (db (Session_ deployment))) ->
             ~ grants role "admin" "rw" p).
  { intros role p Hr Hp [_ [Hrn _]]. simpl in Hp.
    destruct Hp as [<-|[<-|[]]]; discriminate Hrn. }
  split; [reflexivity|].
  split; [exact Hnone|]. split; [reflexivity|].
  exact (proj1 (add_permission_to_user_no_bypass "r-new" "p-new" carol "u-bob"
                  "rw" "lnk-docs" "link" None (Session_ deployment) eq_refl
                  Hnone)).
Defined.

Lemma find_by_key {A} (key_of : A -> string) (key : string) (l : list A) :
  existsb (fun x => key_of x =? key) l = true ->
  exists x, find (fun x => key_of x =? key) l = Some x /\ key_of x = key.
Proof.
  intro H. destruct (find_existing _ _ H) as [x Hx]. exists x.
  split; [exact Hx|]. apply find_some in Hx. destruct Hx as [_ Hx].
  now apply String.eqb_eq.
Qed.

Lemma role_key_free_parts role_id d :
  role_key_free role_id d = true ->
  existsb (fun r => Role.id r =? role_id) (roles d) = false
  /\ existsb (fun l => RoleUserLink.role_id l =? role_id)
       (role_user_links d) = false.
Proof.
  unfold role_key_free. rewrite andb_true_iff, !negb_true_iff. tauto.
Qed.

(** X15. Granting and then checking.  From a session without pending
    objects, for a caller who passes the gate, an existing target user
    and unused drawn keys, [add_permission_to_user] returns its message
    and the database gains exactly a role with the given optional name,
    the target's membership in it and one permission of that role for
    the resource name, resource id and action; afterwards the all-of
    check of the scoped request for that resource id and action, run on
    the target's roles, returns [True]. *)
Theorem add_permission_to_user_then_check :
  forall (drawn_role_id drawn_permission_id : string) (current_user : User.t)
         (target_user_id action_name resource_id resource_name : string)
         (role_name : option string) (s : Session),
    new s = [] ->
    may_grant current_user s ->
    user_exists target_user_id (db s) = true ->
    role_key_free drawn_role_id (db s) = true ->
    permission_key_free drawn_permission_id (db s) = true ->
    let run :=
      add_permission_to_user drawn_role_id drawn_permission_id current_user
        target_user_id action_name resource_id resource_name role_name in
    outcome run s = Return {| message := "Permission added successfully." |}
    /\ db (after run s)
       = with_grant drawn_role_id drawn_permission_id target_user_id
           action_name resource_id resource_name role_name (db s)
    /\ new (after run s) = []
    /\ forall target_user,
        User.id target_user = target_user_id ->
        outcome
          (check (scoped_checker (user_roles (db (after run s)) target_user)
                    resource_name resource_id action_name) false)
          (after run s)
        = Return true.
Proof.
  intros rid pid current_user target an res_id rn role_name s
    Hnew Hmay Huser Hrole Hperm run.
  destruct (add_permission_to_user_run rid pid current_user target an res_id
              rn role_name s) as [s1 [_ Hrun]].
  unfold may_grant in Hmay. rewrite check_outcome in Hmay.
  destruct (find_by_key User.id target (users (db s)) Huser)
    as [tu [Hfind Htu]].
  destruct (role_key_free_parts rid (db s) Hrole) as [Hr Hm].
  unfold permission_key_free in Hperm. rewrite negb_true_iff in Hperm.
  assert (Hdone :
            run s
            = (Return {| message := "Permission added successfully." |},
               {| db := with_grant rid pid target an res_id rn role_name (db s);
                  new := [];
                  calls := CCommit :: CAdd :: CAdd :: CGet :: calls s1 |})).
  { unfold run. rewrite Hrun, Hmay, Hfind, Hnew.
    unfold bind, commit. cbn [db new app flush insert role_row role_users].
    unfold insert_role. cbn [Role.id roles]. rewrite Hr.
    cbn [insert_role_users]. unfold insert_role_user_link.
    cbn [role_user_links].
    rewrite (no_membership_of_fresh_role (User.id tu) rid _ Hm).
    unfold insert_permission. cbn [permissions Permission.permission_id].
    rewrite Hperm. rewrite Htu. reflexivity. }
  assert (Hout : outcome run s
                 = Return {| message := "Permission added successfully." |})
    by (unfold outcome; now rewrite Hdone).
  assert (Hafter : after run s
                   = {| db := with_grant rid pid target an res_id rn role_name
                                (db s);
                        new := [];
                        calls := CCommit :: CAdd :: CAdd :: CGet :: calls s1 |})
    by (unfold after; now rewrite Hdone).
  rewrite Hout, Hafter. cbn [db new].
  split; [reflexivity|]. split; [reflexivity|]. split; [reflexivity|].
  intros target_user Hid. rewrite check_outcome. cbn [db]. unfold verdict.
  cbn [bypassed scoped_checker PermissionChecker.bypass_role
         PermissionChecker.bypass_roles opt_in filter any existsb orb
         PermissionChecker.roles PermissionChecker.pcheck_models forallb
         action_names].
  match goal with |- (if ?b then _ else _) = _ =>
    assert (Hb : b = true); [|now rewrite Hb] end.
  apply existsb_exists.
  exists {| Role.id := rid; Role.name := role_name |}. split.
  - apply in_user_roles. split.
    + simpl. apply in_or_app. right. now left.
    + unfold has_membership. simpl. rewrite existsb_app.
      apply orb_true_iff. right. simpl.
      now rewrite Hid, !String.eqb_refl.
  - rewrite !andb_true_r. simpl. rewrite existsb_app.
    apply orb_true_iff. right. simpl.
    unfold scoped_where. simpl. now rewrite !String.eqb_refl.
Qed.

Lemma add_permission_to_user_then_check_witness :
  new (Session_ (with_permission
                   (global_row "p-root" "r-admin" "admin" "rw") deployment))
  = []
  /\ may_grant carol
       (Session_ (with_permission
                    (global_row "p-root" "r-admin" "admin" "rw") deployment))
  /\ user_exists "u-bob" deployment = true
  /\ role_key_free "r-new" deployment = true
  /\ permission_key_free "p-new" 
       (with_permission (global_row "p-root" "r-admin" "admin" "rw")
          deployment) = true
  /\ outcome (add_permission_to_user "r-new" "p-new" carol "u-bob" "rw"
                "lnk-docs" "link" None)
       (Session_ (with_permission
                    (global_row "p-root" "r-admin" "admin" "rw") deployment))
     = Return {| message := "Permission added successfully." |}.
Proof.
  split; [reflexivity|]. split; [reflexivity|]. split; [reflexivity|].
  split; [reflexivity|]. split; [reflexivity|].
  exact (proj1 (add_permission_to_user_then_check "r-new" "p-new" carol
                  "u-bob" "rw" "lnk-docs" "link" None
                  (Session_ (with_permission
                               (global_row "p-root" "r-admin" "admin" "rw")
                               deployment))
                  eq_refl eq_refl eq_refl eq_refl eq_refl)).
Defined.

(** ** [assign_role_to_user], further *)

(** What [assign_role_to_user] does up to the lookup of the link. *)
Lemma assign_role_to_user_refusals_run current_user user_id role_id s :
  exists s1,
    only_queried s s1
    /\ match verdict (db s)
               (user_rw_checker (user_roles (db s) current_user)) false
       with
       | Raise e =>
           assign_role_to_user current_user user_id role_id s = (Raise e, s1)
       | Return _ =>
           if user_exists user_id (db s) then
             role_exists role_id (db s) = false ->
             assign_role_to_user current_user user_id role_id s
             = (Raise (HTTPException 404 (Some "Role not found.")),
                called CGet (called CGet s1))
           else
             assign_role_to_user current_user user_id role_id s
             = (Raise (HTTPException 404 (Some "User not found.")),
                called CGet s1)
       end.
Proof.
  destruct (check_run (user_rw_checker (user_roles (db s) current_user))
              false s) as [s1 [Hrun Hq]].
  exists s1. split; [exact Hq|].
  destruct Hq as [[Hdb Hnew] _].
  unfold assign_role_to_user, bind, load_roles. rewrite Hrun. clear Hrun.
  destruct (verdict _ _ false) as [b|e]; [|reflexivity].
  destruct s1 as [d1 n1 c1]. simpl in Hdb, Hnew. subst d1 n1.
  unfold get, user_exists, role_exists. cbn [db called].
  rewrite <- !is_not_None_find.
  destruct (find _ (users (db s))) as [u|]; cbn; [|reflexivity].
  destruct (find _ (roles (db s))) as [r|]; cbn; [discriminate|reflexivity].
Qed.

(** X16. [assign_role_to_user] refuses in a fixed order and writes
    nothing when it refuses.  In a session without pending objects: a
    caller who fails the permission check
    gets the 401 exception whatever the ids; a caller who passes gets
    the 404 exception "User not found." for a missing user, even if the
    role is missing too, and "Role not found." for an existing user and
    a missing role. *)
Theorem assign_role_to_user_refusals :
  forall (current_user : User.t) (user_id role_id : string) (s : Session),
    new s = [] ->
    (~ may_administer_users current_user s ->
     outcome (assign_role_to_user current_user user_id role_id) s
     = Raise not_authorized
     /\ same_store s (after (assign_role_to_user current_user user_id role_id) s))
    /\ (may_administer_users current_user s ->
        user_exists user_id (db s) = false ->
        outcome (assign_role_to_user current_user user_id role_id) s
        = Raise (HTTPException 404 (Some "User not found."))
        /\ same_store s
             (after (assign_role_to_user current_user user_id role_id) s))
    /\ (may_administer_users current_user s ->
        user_exists user_id (db s) = true ->
        role_exists role_id (db s) = false ->
        outcome (assign_role_to_user current_user user_id role_id) s
        = Raise (HTTPException 404 (Some "Role not found."))
        /\ same_store s
             (after (assign_role_to_user current_user user_id role_id) s)).
Proof.
  intros current_user user_id role_id s _.
  unfold may_administer_users. rewrite check_outcome.
  destruct (assign_role_to_user_refusals_run current_user user_id role_id s)
    as [s1 [[[Hdb Hnew] _] Hrun]].
  unfold outcome, after.
  destruct (verdict_cases (db s)
              (user_rw_checker (user_roles (db s) current_user)) false)
    as [Hv|Hv]; rewrite Hv in *.
  - split; [intro H; now elim H|]. split.
    + intros _ Huser. rewrite Huser in Hrun. rewrite Hrun.
      split; [reflexivity | split; assumption].
    + intros _ Huser Hrole. rewrite Huser in Hrun. rewrite (Hrun Hrole).
      split; [reflexivity | split; assumption].
  - rewrite Hrun. split.
    + intros _. split; [reflexivity | split; assumption].
    + split; intro H; discriminate H.
Qed.

Lemma assign_role_to_user_refusals_witness :
  new (Session_ deployment) = []
  /\ ~ may_administer_users bob (Session_ deployment)
  /\ outcome (assign_role_to_user bob "u-nobody" "r-nothing")
       (Session_ deployment) = Raise not_authorized
  /\ may_administer_users carol (Session_ deployment)
  /\ user_exists "u-nobody" deployment = false
  /\ outcome (assign_role_to_user carol "u-nobody" "r-nothing")
       (Session_ deployment)
     = Raise (HTTPException 404 (Some "User not found."))
  /\ user_exists "u-bob" deployment = true
  /\ role_exists "r-nothing" deployment = false
  /\ outcome (assign_role_to_user carol "u-bob" "r-nothing")
       (Session_ deployment)
     = Raise (HTTPException 404 (Some "Role not found.")).
Proof.
  assert (Hbob : ~ may_administer_users bob (Session_ deployment))
    by (intro H; discriminate H).
  assert (Hcarol : may_administer_users carol (Session_ deployment))
    by reflexivity.
  split; [reflexivity|].
  split; [exact Hbob|]. split.
  - exact (proj1 (proj1 (assign_role_to_user_refusals bob "u-nobody"
                           "r-nothing" (Session_ deployment) eq_refl) Hbob)).
  - split; [exact Hcarol|]. split; [reflexivity|]. split.
    + exact (proj1 (proj1 (proj2 (assign_role_to_user_refusals carol
                                    "u-nobody" "r-nothing"
                                    (Session_ deployment) eq_refl))
                      Hcarol eq_refl)).
    + split; [reflexivity|]. split; [reflexivity|].
      exact (proj1 (proj2 (proj2 (assign_role_to_user_refusals carol "u-bob"
                                    "r-nothing" (Session_ deployment)
                                    eq_refl))
                      Hcarol eq_refl eq_refl)).
Defined.

Lemma is_admin_outcome current_user s :
  outcome (is_admin current_user) s
  = verdict (db s) (admin_checker (user_roles (db s) current_user)) false.
Proof. unfold outcome. rewrite is_admin_run. apply check_outcome. Qed.

Lemma user_roles_with_membership_other user_id role_id d other :
  User.id other <> user_id ->
  user_roles (with_membership user_id role_id d) other = user_roles d other.
Proof.
  intro Hother. unfold user_roles. cbn [with_membership roles role_user_links].
  apply filter_ext_in. intros r _. rewrite existsb_app. cbn [existsb].
  cbn [RoleUserLink.user_id].
  assert (Hneq : (user_id =? User.id other) = false)
    by (apply String.eqb_neq; congruence).
  rewrite Hneq. simpl. now rewrite orb_false_r.
Qed.

(** X17. Assigning and then holding.  From a session without pending
    objects, when a caller who passes the permission check assigns a
    committed role to an existing user, that user's roles, as the
    database then has them, contain the role (whether or not the link
    was there before), and the roles of users with another id are what
    they were; if the role is named admin, [is_admin] then returns
    [True] for the user. *)
Theorem assign_role_to_user_then_holds :
  forall (current_user : User.t) (user_id role_id : string) (s : Session)
         (r : Role.t),
    new s = [] ->
    may_administer_users current_user s ->
    user_exists user_id (db s) = true ->
    In r (roles (db s)) ->
    Role.id r = role_id ->
    let s' := after (assign_role_to_user current_user user_id role_id) s in
    (forall u, User.id u = user_id -> In r (user_roles (db s') u))
    /\ (forall other,
           User.id other <> user_id ->
           user_roles (db s') other = user_roles (db s) other)
    /\ (Role.name r = Some "admin" ->
        forall u, User.id u = user_id ->
                  outcome (is_admin u) s' = Return true).
Proof.
  intros current_user user_id role_id s r Hnew Hgate Huser Hin Hid s'.
  assert (Hrole : role_exists role_id (db s) = true).
  { apply existsb_exists. exists r. split; [exact Hin|].
    now apply String.eqb_eq. }
  destruct (assign_role_to_user_run current_user user_id role_id s
              Hgate Huser Hrole) as [s1 [[[Hdb1 Hnew1] _] Hrun]].
  assert (Hdb : db s' = if has_membership user_id role_id (db s)
                        then db s
                        else with_membership user_id role_id (db s)).
  { unfold s', after. rewrite Hrun.
    destruct (has_membership user_id role_id (db s)) eqn:Hlink;
      [exact Hdb1|].
    rewrite Hnew. cbn [app flush insert]. unfold insert_role_user_link.
    rewrite same_key_membership.
    unfold has_membership in Hlink. now rewrite Hlink. }
  assert (Hheld : forall u, User.id u = user_id -> In r (user_roles (db s') u)).
  { intros u Hu. apply in_user_roles. rewrite Hdb, Hu, Hid.
    destruct (has_membership user_id role_id (db s)) eqn:Hlink.
    - split; assumption.
    - split; [exact Hin|]. unfold has_membership. simpl.
      rewrite existsb_app. apply orb_true_iff. right. simpl.
      now rewrite !String.eqb_refl. }
  split; [exact Hheld|]. split.
  - intros other Hother. rewrite Hdb.
    destruct (has_membership user_id role_id (db s)); [reflexivity|].
    now apply user_roles_with_membership_other.
  - intros Hname u Hu. rewrite is_admin_outcome. unfold verdict.
    assert (Hb : bypassed (admin_checker (user_roles (db s') u)) = true).
    { apply bypassed_true. exists r, "admin". split; [exact (Hheld u Hu)|].
      split; [exact Hname | now left]. }
    now rewrite Hb.
Qed.

Lemma assign_role_to_user_then_holds_witness :
  new (Session_ deployment) = []
  /\ may_administer_users carol (Session_ deployment)
  /\ user_exists "u-bob" deployment = true
  /\ In admin (roles deployment)
  /\ Role.name admin = Some "admin"
  /\ outcome (is_admin bob) (Session_ deployment) = Raise not_authorized
  /\ outcome (is_admin bob)
       (after (assign_role_to_user carol "u-bob" "r-admin")
          (Session_ deployment))
     = Return true.
Proof.
  assert (Hcarol : may_administer_users carol (Session_ deployment))
    by reflexivity.
  assert (Hin : In admin (roles (db (Session_ deployment)))) by (now left).
  split; [reflexivity|]. split; [exact Hcarol|]. split; [reflexivity|].
  split; [exact Hin|]. split; [reflexivity|]. split; [reflexivity|].
  exact (proj2 (proj2 (assign_role_to_user_then_holds carol "u-bob" "r-admin"
                         (Session_ deployment) admin
                         eq_refl Hcarol eq_refl Hin eq_refl))
           eq_refl bob eq_refl).
Defined.

(** ** [create_role] *)

(** What [create_role] does up to its commit. *)
Lemma create_role_run drawn_id current_user role_name s :
  exists s1,
    only_queried s s1
    /\ create_role drawn_id current_user role_name s
       = match verdict (db s)
                 (role_rw_checker (user_roles (db s) current_user)) false
         with
         | Raise e => (Raise e, s1)
         | Return _ =>
             (commit ;;;
              ret {| message :=
                       "Role '" ++ role_name ++ "' created successfully." |})
               {| db := db s;
                  new := new s
                         ++ [NewRole {| role_row :=
                                          {| Role.id := drawn_id;
                                             Role.name := Some role_name |};
                                        role_users := [] |}];
                  calls := CAdd :: calls s1 |}
         end.
Proof.
  destruct (check_run (role_rw_checker (user_roles (db s) current_user))
              false s) as [s1 [Hrun Hq]].
  exists s1. split; [exact Hq|].
  destruct Hq as [[Hdb Hnew] _].
  unfold create_role, bind, load_roles. rewrite Hrun. clear Hrun.
  destruct (verdict _ _ false) as [b|e]; [|reflexivity].
  destruct s1 as [d1 n1 c1]. simpl in Hdb, Hnew. subst d1 n1.
  reflexivity.
Qed.

Lemma user_roles_with_role r d u :
  existsb (fun l => RoleUserLink.role_id l =? Role.id r) (role_user_links d)
  = false ->
  user_roles (with_role r d) u = user_roles d u.
Proof.
  intro Hm. unfold user_roles. cbn [with_role roles role_user_links].
  rewrite filter_app. cbn [filter].
  assert (Hnone :
            existsb
              (fun l => (RoleUserLink.user_id l =? User.id u)
                        && (RoleUserLink.role_id l =? Role.id r))
              (role_user_links d) = false).
  { apply not_true_is_false. intro H. apply existsb_exists in H.
    destruct H as [l [Hin Hl]]. apply andb_true_iff in Hl.
    rewrite (existsb_false_in _ _ l Hm Hin) in Hl. destruct Hl. discriminate. }
  now rewrite Hnone, app_nil_r.
Qed.

(** X18. [create_role] adds a role that nobody holds.  From a session
    without pending objects, for a caller who passes the gate and an
    unused drawn key, [create_role] returns its message and the
    database gains exactly one role row with the given name, whether or
    not a committed role already carries that name; no membership and no
    permission is written, so every check (any bypass configuration,
    any check requests, either mode) run on any user's roles has the
    outcome it had before, also when the new role is named as a bypass
    role. *)
Theorem create_role_changes_no_rights :
  forall (drawn_id : string) (current_user : User.t) (role_name : string)
         (s : Session),
    new s = [] ->
    may_administer_roles current_user s ->
    role_key_free drawn_id (db s) = true ->
    let s' := after (create_role drawn_id current_user role_name) s in
    outcome (create_role drawn_id current_user role_name) s
    = Return {| message := "Role '" ++ role_name ++ "' created successfully." |}
    /\ db s' = with_role {| Role.id := drawn_id; Role.name := Some role_name |}
                 (db s)
    /\ new s' = []
    /\ forall (u : User.t) (like : PermissionChecker.t) (either : bool),
        outcome (check (checker_for (user_roles (db s') u) like) either) s'
        = outcome (check (checker_for (user_roles (db s) u) like) either) s.
Proof.
  intros drawn_id current_user role_name s Hnew Hgate Hfree s'.
  destruct (create_role_run drawn_id current_user role_name s)
    as [s1 [_ Hrun]].
  unfold may_administer_roles in Hgate. rewrite check_outcome in Hgate.
  destruct (role_key_free_parts drawn_id (db s) Hfree) as [Hr Hm].
  assert (Hdone :
            create_role drawn_id current_user role_name s
            = (Return {| message :=
                           "Role '" ++ role_name ++ "' created successfully." |},
               {| db := with_role {| Role.id := drawn_id;
                                     Role.name := Some role_name |} (db s);
                  new := [];
                  calls := CCommit :: CAdd :: calls s1 |})).
  { rewrite Hrun, Hgate, Hnew. unfold bind, commit.
    cbn [db new app flush insert role_row role_users insert_role_users].
    unfold insert_role. cbn [Role.id]. now rewrite Hr. }
  assert (Hafter : s' = {| db := with_role {| Role.id := drawn_id;
                                              Role.name := Some role_name |}
                                   (db s);
                           new := [];
                           calls := CCommit :: CAdd :: calls s1 |})
    by (unfold s', after; now rewrite Hdone).
  unfold outcome at 1. rewrite Hdone, Hafter. cbn [fst db new].
  split; [reflexivity|]. split; [reflexivity|]. split; [reflexivity|].
  intros u like either. rewrite !check_outcome. cbn [db].
  rewrite (user_roles_with_role
             {| Role.id := drawn_id; Role.name := Some role_name |} (db s) u Hm).
  apply verdict_ext. intros role pcheck an _. now destruct pcheck.
Qed.

Lemma create_role_changes_no_rights_witness :
  new (Session_ deployment) = []
  /\ may_administer_roles carol (Session_ deployment)
  /\ role_key_free "r-second-admin" deployment = true
  /\ outcome (create_role "r-second-admin" carol "admin") (Session_ deployment)
     = Return {| message := "Role 'admin' created successfully." |}.
Proof.
  split; [reflexivity|]. split; [reflexivity|]. split; [reflexivity|].
  exact (proj1 (create_role_changes_no_rights "r-second-admin" carol "admin"
                  (Session_ deployment) eq_refl eq_refl eq_refl)).
Defined.

(** ** [remove_role_from_user] *)

Lemma filter_none {A} (f : A -> bool) (l : list A) :
  existsb f l = false -> filter (fun x => negb (f x)) l = l.
Proof.
  induction l as [|x l IH]; simpl; intro H; [reflexivity|].
  apply orb_false_iff in H. destruct H as [Hx Hl].
  now rewrite Hx, (IH Hl).
Qed.

Lemma delete_membership_row l user_id role_id d :
  RoleUserLink.user_id l = user_id ->
  RoleUserLink.role_id l = role_id ->
  delete_row (ARoleUserLink l) d = without_membership user_id role_id d.
Proof.
  intros <- <-. unfold delete_row, without_membership. f_equal.
  apply filter_ext. intro r. unfold RoleUserLink.same_key.
  now rewrite (String.eqb_sym (RoleUserLink.user_id l)),
    (String.eqb_sym (RoleUserLink.role_id l)).
Qed.

(** What [remove_role_from_user] does, case by case, in a unit of work
    without marks. *)
Lemma remove_role_from_user_run current_user role_id target s :
  new s = [] ->
  remove_role_from_user current_user role_id target (Work_ s)
  = match find (fun u => User.id u =? target) (users (db s)) with
    | None =>
        (Raise (HTTPException 404 (Some "User not found")),
         Work_ (called CGet s))
    | Some user =>
        if has_membership target role_id (db s) then
          (Return {| message := "Role remove from user successfully." |},
           Work_ {| db := without_membership target role_id (db s);
                    new := [];
                    calls := CCommit :: CExec :: CGet :: calls s |})
        else
          (Raise (HTTPException 404
                    (Some ("Role not found for user: " ++ User.name user))),
           Work_ (called CExec (called CGet s)))
    end.
Proof.
  intro Hnew.
  unfold remove_role_from_user, bind_w, lift, load_roles, bind, get,
    exec_first, has_membership, Work_.
  cbn [session dirty deleted db called].
  destruct (find _ (users (db s))) as [user|]; cbn; [|reflexivity].
  rewrite <- is_not_None_find.
  destruct (find _ (role_user_links (db s))) as [l|] eqn:Hfind; cbn;
    [|reflexivity].
  unfold commit_w. cbn. rewrite Hnew. cbn.
  apply find_some in Hfind. destruct Hfind as [_ Hkey].
  apply andb_true_iff in Hkey. destruct Hkey as [Hu Hr].
  apply String.eqb_eq in Hu, Hr.
  now rewrite <- (delete_membership_row l target role_id (db s) Hu Hr).
Qed.

(** X19. [remove_role_from_user] does not check the caller.  In a
    session without pending objects, whoever the caller is and whatever
    roles the caller holds, for an existing user who holds the role the
    call returns its message and the database loses the role-user link of
    the pair and nothing else.  A missing user gives the 404 exception
    "User not found"; an existing user without that link gives the 404
    exception that names the user, and the database is unchanged. *)
Theorem remove_role_from_user_unchecked :
  forall (current_user : User.t) (role_id target_user_id : string)
         (s : Session),
    new s = [] ->
    let run := remove_role_from_user current_user role_id target_user_id in
    (user_exists target_user_id (db s) = true ->
     has_membership target_user_id role_id (db s) = true ->
     outcome_w run (Work_ s)
     = Return {| message := "Role remove from user successfully." |}
     /\ db (session (after_w run (Work_ s)))
        = without_membership target_user_id role_id (db s))
    /\ (user_exists target_user_id (db s) = false ->
        outcome_w run (Work_ s)
        = Raise (HTTPException 404 (Some "User not found"))
        /\ db (session (after_w run (Work_ s))) = db s)
    /\ (forall user,
           find (fun u => User.id u =? target_user_id) (users (db s))
           = Some user ->
           has_membership target_user_id role_id (db s) = false ->
           outcome_w run (Work_ s)
           = Raise (HTTPException 404
                      (Some ("Role not found for user: " ++ User.name user)))
           /\ db (session (after_w run (Work_ s))) = db s).
Proof.
  intros current_user role_id target s Hnew run.
  unfold run, outcome_w, after_w.
  rewrite (remove_role_from_user_run current_user role_id target s Hnew).
  split; [|split].
  - intros Huser Hlink. destruct (find_existing _ _ Huser) as [u Hu].
    rewrite Hu, Hlink. split; reflexivity.
  - intro Huser. unfold user_exists in Huser.
    apply find_None_existsb in Huser. rewrite Huser. split; reflexivity.
  - intros user Hfind Hlink. rewrite Hfind, Hlink. split; reflexivity.
Qed.

Lemma remove_role_from_user_unchecked_witness :
  new (Session_ deployment) = []
  /\ user_roles deployment bob = [blank]
  /\ outcome (is_admin bob) (Session_ deployment) = Raise not_authorized
  /\ user_exists "u-carol" deployment = true
  /\ has_membership "u-carol" "r-admin" deployment = true
  /\ outcome_w (remove_role_from_user bob "r-admin" "u-carol")
       (Work_ (Session_ deployment))
     = Return {| message := "Role remove from user successfully." |}.
Proof.
  split; [reflexivity|]. split; [reflexivity|]. split; [reflexivity|].
  split; [reflexivity|]. split; [reflexivity|].
  exact (proj1 (proj1 (remove_role_from_user_unchecked bob "r-admin" "u-carol"
                         (Session_ deployment) eq_refl)
                  eq_refl eq_refl)).
Defined.

(** The database [assign_role_to_user] leaves when it goes through. *)
Lemma assign_role_to_user_db current_user user_id role_id s :
  new s = [] ->
  may_administer_users current_user s ->
  user_exists user_id (db s) = true ->
  role_exists role_id (db s) = true ->
  db (after (assign_role_to_user current_user user_id role_id) s)
  = (if has_membership user_id role_id (db s) then db s
     else with_membership user_id role_id (db s))
  /\ new (after (assign_role_to_user current_user user_id role_id) s) = [].
Proof.
  intros Hnew Hgate Huser Hrole.
  destruct (assign_role_to_user_run current_user user_id role_id s
              Hgate Huser Hrole) as [s1 [[[Hdb1 Hnew1] _] Hrun]].
  unfold after. rewrite Hrun.
  destruct (has_membership user_id role_id (db s)) eqn:Hlink.
  - split; [exact Hdb1 | cbn; congruence].
  - rewrite Hnew. cbn [app flush insert]. unfold insert_role_user_link.
    rewrite same_key_membership.
    unfold has_membership in Hlink. rewrite Hlink. split; reflexivity.
Qed.

(** X20. Assigning and then removing.  When an authorized caller assigns
    a role to a user who did not hold it, and [remove_role_from_user] is
    then called for the pair, by any caller, the call returns its
    message and the database is the one before the assignment. *)
Theorem assign_then_remove_role :
  forall (current_user anyone : User.t) (user_id role_id : string)
         (s : Session),
    new s = [] ->
    may_administer_users current_user s ->
    user_exists user_id (db s) = true ->
    role_exists role_id (db s) = true ->
    has_membership user_id role_id (db s) = false ->
    let s' := after (assign_role_to_user current_user user_id role_id) s in
    outcome_w (remove_role_from_user anyone role_id user_id) (Work_ s')
    = Return {| message := "Role remove from user successfully." |}
    /\ db (session (after_w (remove_role_from_user anyone role_id user_id)
                      (Work_ s')))
       = db s.
Proof.
  intros current_user anyone user_id role_id s Hnew Hgate Huser Hrole Hlink s'.
  destruct (assign_role_to_user_db current_user user_id role_id s
              Hnew Hgate Huser Hrole) as [Hdb Hnew'].
  rewrite Hlink in Hdb. fold s' in Hdb, Hnew'.
  unfold outcome_w, after_w.
  rewrite (remove_role_from_user_run anyone role_id user_id s' Hnew'), Hdb.
  destruct (find_existing _ _ Huser) as [u Hu].
  cbn [with_membership users]. rewrite Hu.
  assert (Hnow : has_membership user_id role_id
                   (with_membership user_id role_id (db s)) = true).
  { unfold has_membership. cbn [with_membership role_user_links].
    rewrite existsb_app. apply orb_true_iff. right. cbn.
    now rewrite !String.eqb_refl. }
  rewrite Hnow. cbn [fst snd session Work_ db]. split; [reflexivity|].
  unfold without_membership. cbn [with_membership users links roles
                                    permissions role_user_links].
  rewrite filter_app. 
  rewrite (filter_none
             (fun r => (RoleUserLink.user_id r =? user_id)
                       && (RoleUserLink.role_id r =? role_id))
             (role_user_links (db s)) Hlink).
  cbn. rewrite !String.eqb_refl. cbn. rewrite app_nil_r.
  now destruct (db s).
Qed.

Lemma assign_then_remove_role_witness :
  new (Session_ deployment) = []
  /\ may_administer_users carol (Session_ deployment)
  /\ user_exists "u-bob" deployment = true
  /\ role_exists "r-admin" deployment = true
  /\ has_membership "u-bob" "r-admin" deployment = false
  /\ db (session
           (after_w (remove_role_from_user alice "r-admin" "u-bob")
              (Work_ (after (assign_role_to_user carol "u-bob" "r-admin")
                        (Session_ deployment)))))
     = deployment.
Proof.
  assert (Hcarol : may_administer_users carol (Session_ deployment))
    by reflexivity.
  split; [reflexivity|]. split; [exact Hcarol|]. split; [reflexivity|].
  split; [reflexivity|]. split; [reflexivity|].
  exact (proj2 (assign_then_remove_role carol alice "u-bob" "r-admin"
                  (Session_ deployment) eq_refl Hcarol eq_refl eq_refl
                  eq_refl)).
Defined.

(** ** [delete_link] *)

Lemma find_link_id (link_id : string) (d : Database) (l : Link.t) :
  find (fun r => Link.id r =? link_id) (links d) = Some l ->
  Link.id l = link_id.
Proof.
  intro H. apply find_some in H. destruct H as [_ H].
  now apply String.eqb_eq.
Qed.

(** What [delete_link] does, case by case, in a unit of work without
    marks. *)
Lemma delete_link_run current_user link_id s :
  new s = [] ->
  match find (fun r => Link.id r =? link_id) (links (db s)) with
  | None =>
      delete_link current_user link_id (Work_ s)
      = (Raise (HTTPException 404 None), Work_ (called CGet s))
  | Some l =>
      exists s1,
        same_store s s1
        /\ delete_link current_user link_id (Work_ s)
           = match verdict (db s)
                     (link_owner_checker (user_roles (db s) current_user)
                        (Some ADMIN_ROLE_NAME) link_id) false
             with
             | Raise e => (Raise e, Work_ s1)
             | Return _ =>
                 (Return {| message := "Link deleted successfully." |},
                  Work_ {| db := without_link link_id (db s);
                           new := [];
                           calls := CCommit :: calls s1 |})
             end
  end.
Proof.
  intro Hnew.
  destruct (find (fun r => Link.id r =? link_id) (links (db s)))
    as [l|] eqn:Hfind.
  - pose proof (find_link_id link_id (db s) l Hfind) as Hid.
    destruct (check_run
                (link_owner_checker (user_roles (db s) current_user)
                   (Some ADMIN_ROLE_NAME) link_id) false (called CGet s))
      as [s1 [Hrun [[Hdb Hnew1] _]]].
    exists s1. split; [split; assumption|].
    unfold delete_link, bind_w, lift, bind, get, load_roles, Work_.
    cbn [session dirty deleted db called]. rewrite Hfind. cbn.
    rewrite Hid. cbn in Hrun. rewrite Hrun. clear Hrun.
    destruct (verdict _ _ false) as [b|e]; [|reflexivity].
    destruct s1 as [d1 n1 c1]. cbn in Hdb, Hnew1. subst d1 n1.
    unfold commit_w. cbn. rewrite Hnew. cbn. now rewrite Hid.
  - unfold delete_link, bind_w, lift, bind, get, Work_.
    cbn [session dirty deleted db called]. now rewrite Hfind.
Qed.

Lemma find_after_delete (link_id : string) (rows : list Link.t) :
  find (fun r => Link.id r =? link_id)
    (filter (fun r => negb (Link.id r =? link_id)) rows) = None.
Proof.
  induction rows as [|r rows IH]; simpl; [reflexivity|].
  destruct (Link.id r =? link_id) eqn:Hr; simpl; [exact IH|].
  now rewrite Hr.
Qed.

(** X21. [delete_link] looks the link up before it checks the caller.
    In a session without pending objects: for a missing link every
    caller gets an exception of status 404, with whatever detail the
    guard checker gives by default; for an existing link a caller who
    fails the check (no role named admin and no role holding the scoped
    rw grant) gets the 401 exception and nothing is written; a caller
    who passes gets the message, the database loses the link and nothing
    else, and [get_link] on the id then raises its 404 exception. *)
Theorem delete_link_gate :
  forall (current_user : User.t) (link_id : string) (s : Session),
    new s = [] ->
    let run := delete_link current_user link_id in
    (link_exists link_id (db s) = false ->
     (exists detail,
         outcome_w run (Work_ s) = Raise (HTTPException 404 detail))
     /\ db (session (after_w run (Work_ s))) = db s)
    /\ (link_exists link_id (db s) = true ->
        ~ may_change_link current_user (Some ADMIN_ROLE_NAME) link_id s ->
        outcome_w run (Work_ s) = Raise not_authorized
        /\ db (session (after_w run (Work_ s))) = db s)
    /\ (link_exists link_id (db s) = true ->
        may_change_link current_user (Some ADMIN_ROLE_NAME) link_id s ->
        outcome_w run (Work_ s)
        = Return {| message := "Link deleted successfully." |}
        /\ db (session (after_w run (Work_ s))) = without_link link_id (db s)
        /\ outcome (get_link link_id) (session (after_w run (Work_ s)))
           = Raise (HTTPException 404 (Some "Link not found."))).
Proof.
  intros current_user link_id s Hnew run.
  pose proof (delete_link_run current_user link_id s Hnew) as Hrun.
  unfold may_change_link. rewrite check_outcome.
  unfold run, outcome_w, after_w, link_exists.
  rewrite <- !is_not_None_find.
  destruct (find (fun r => Link.id r =? link_id) (links (db s))) as [l|].
  - destruct Hrun as [s1 [[Hdb _] Hrun]]. rewrite Hrun. clear Hrun.
    split; [intro H; discriminate H|].
    destruct (verdict_cases (db s)
                (link_owner_checker (user_roles (db s) current_user)
                   (Some ADMIN_ROLE_NAME) link_id) false) as [Hv|Hv];
      rewrite Hv.
    + split; [intros _ H; now elim H|]. intros _ _.
      split; [reflexivity|]. split; [reflexivity|].
      cbn [snd session Work_]. unfold outcome, get_link, bind, get.
      cbn [db without_link links]. now rewrite find_after_delete.
    + split; [|intros _ H; discriminate H].
      intros _ _. split; [reflexivity | exact Hdb].
  - rewrite Hrun. split; [intros _; split; [now eexists | reflexivity]|].
    split; intro H; discriminate H.
Qed.

Lemma delete_link_gate_witness :
  new (Session_ deployment) = []
  /\ link_exists "lnk-none" deployment = false
  /\ (exists detail,
         outcome_w (delete_link bob "lnk-none") (Work_ (Session_ deployment))
         = Raise (HTTPException 404 detail))
  /\ link_exists "lnk-docs" deployment = true
  /\ ~ may_change_link bob (Some ADMIN_ROLE_NAME) "lnk-docs"
         (Session_ deployment)
  /\ outcome_w (delete_link bob "lnk-docs") (Work_ (Session_ deployment))
     = Raise not_authorized
  /\ may_change_link carol (Some ADMIN_ROLE_NAME) "lnk-docs"
       (Session_ deployment)
  /\ db (session (after_w (delete_link carol "lnk-docs")
                    (Work_ (Session_ deployment))))
     = without_link "lnk-docs" deployment.
Proof.
  assert (Hbob : ~ may_change_link bob (Some ADMIN_ROLE_NAME) "lnk-docs"
                     (Session_ deployment)) by (intro H; discriminate H).
  assert (Hcarol : may_change_link carol (Some ADMIN_ROLE_NAME) "lnk-docs"
                     (Session_ deployment)) by reflexivity.
  split; [reflexivity|]. split; [reflexivity|]. split.
  - exact (proj1 (proj1 (delete_link_gate bob "lnk-none"
                           (Session_ deployment) eq_refl) eq_refl)).
  - split; [reflexivity|]. split; [exact Hbob|]. split.
    + exact (proj1 (proj1 (proj2 (delete_link_gate bob "lnk-docs"
                                    (Session_ deployment) eq_refl))
                      eq_refl Hbob)).
    + split; [exact Hcarol|].
      exact (proj1 (proj2 (proj2 (proj2 (delete_link_gate carol "lnk-docs"
                                           (Session_ deployment) eq_refl))
                             eq_refl Hcarol))).
Defined.

(** The owner's check on the new link succeeds on the database
    [create_link] writes. *)
Lemma owner_verdict_with_link drawn current_user data d bypass_role :
  verdict (with_link drawn current_user data d)
    (link_owner_checker
       (user_roles (with_link drawn current_user data d) current_user)
       bypass_role (link_id drawn)) false
  = Return true.
Proof.
  unfold verdict. destruct (bypassed _); [reflexivity|].
  match goal with |- (if ?b then _ else _) = _ =>
    assert (Hb : b = true); [|now rewrite Hb] end.
  apply existsb_exists. exists (the_personal_role drawn). split.
  - apply creator_holds_personal_role.
  - cbn [link_owner_checker PermissionChecker.pcheck_models forallb
           action_names].
    rewrite (personal_role_granted drawn current_user data d _
               (or_introl eq_refl)).
    reflexivity.
Qed.

(** The reader's check succeeds for the creator as long as the role, the
    membership and the permission [create_link] wrote are there, with
    or without the link. *)
Lemma reader_verdict_without_link drawn current_user data d :
  verdict (without_link (link_id drawn) (with_link drawn current_user data d))
    (link_reader_checker
       (user_roles
          (without_link (link_id drawn) (with_link drawn current_user data d))
          current_user)) true
  = Return true.
Proof.
  unfold verdict. destruct (bypassed _); [reflexivity|].
  match goal with |- (if ?b then _ else _) = _ =>
    assert (Hb : b = true); [|now rewrite Hb] end.
  apply existsb_exists. exists (the_personal_role drawn). split.
  - exact (creator_holds_personal_role drawn current_user data d).
  - cbn [link_reader_checker PermissionChecker.pcheck_models existsb
           action_names].
    change (granted
              (without_link (link_id drawn)
                 (with_link drawn current_user data d)))
      with (granted (with_link drawn current_user data d)).
    rewrite (personal_role_granted drawn current_user data d
               (GlobalPermissionCheckModel LINK_RESOURCE [ACTION_READWRITE])
               (or_intror eq_refl)).
    now rewrite !orb_true_r.
Qed.

(** X22. [delete_link] does not undo [create_link].  When the creator
    deletes the link just created, the call returns its message and the
    links are those before the creation, but the personal role, the
    membership and the rw permission written with the link stay in the
    database; with them the former owner still passes the check of
    [get_user_link]. *)
Theorem create_link_then_delete_link :
  forall (drawn : Defaults) (current_user : User.t)
         (data : LinkCreationDTO.t) (s : Session),
    new s = [] ->
    label_taken (LinkCreationDTO.label data) (db s) = false ->
    fresh_keys drawn (db s) = true ->
    let s1 := after (create_link drawn current_user data) s in
    let w2 := after_w (delete_link current_user (link_id drawn)) (Work_ s1) in
    outcome_w (delete_link current_user (link_id drawn)) (Work_ s1)
    = Return {| message := "Link deleted successfully." |}
    /\ links (db (session w2)) = links (db s)
    /\ roles (db (session w2)) = (roles (db s) ++ [the_personal_role drawn])%list
    /\ role_user_links (db (session w2))
       = (role_user_links (db s) ++ [the_membership drawn current_user])%list
    /\ permissions (db (session w2))
       = (permissions (db s) ++ [the_rw_permission drawn])%list
    /\ may_list_links current_user (session w2).
Proof.
  intros drawn current_user data s Hnew Hlabel Hfresh s1 w2.
  assert (Hs1 : s1 = {| db := with_link drawn current_user data (db s);
                        new := [];
                        calls := CRefresh :: CCommit :: CAdd :: CAdd :: CAdd
                                   :: CExec :: calls s |}).
  { unfold s1, after.
    now rewrite (create_link_success drawn current_user data s Hnew Hlabel
                   Hfresh). }
  destruct (fresh_keys_parts drawn (db s) Hfresh) as [Hl _].
  assert (Hfind : find (fun r => Link.id r =? link_id drawn) (links (db s1))
                  = Some (the_link drawn current_user data)).
  { rewrite Hs1. cbn [db with_link links].
    apply find_app_last; [exact Hl | apply String.eqb_refl]. }
  assert (Hnew1 : new s1 = []) by (now rewrite Hs1).
  pose proof (delete_link_run current_user (link_id drawn) s1 Hnew1) as Hrun.
  rewrite Hfind in Hrun. destruct Hrun as [s2 [_ Hrun]].
  assert (Hv : verdict (db s1)
                 (link_owner_checker (user_roles (db s1) current_user)
                    (Some ADMIN_ROLE_NAME) (link_id drawn)) false
               = Return true).
  { rewrite Hs1. cbn [db]. apply owner_verdict_with_link. }
  rewrite Hv in Hrun.
  unfold w2, outcome_w, after_w. rewrite Hrun. cbn [fst snd session Work_ db].
  split; [reflexivity|].
  rewrite Hs1. cbn [db without_link with_link users links roles permissions
                      role_user_links].
  split.
  - rewrite filter_app, (filter_none _ _ Hl). cbn.
    rewrite String.eqb_refl. cbn. apply app_nil_r.
  - split; [reflexivity|]. split; [reflexivity|]. split; [reflexivity|].
    unfold may_list_links. rewrite check_outcome. cbn [db].
    exact (reader_verdict_without_link drawn current_user data (db s)).
Qed.

Lemma create_link_then_delete_link_witness :
  new (Session_ deployment) = []
  /\ label_taken (LinkCreationDTO.label blog) deployment = false
  /\ fresh_keys drawn_new deployment = true
  /\ ~ may_list_links bob (Session_ deployment)
  /\ may_list_links bob
       (session
          (after_w (delete_link bob (link_id drawn_new))
             (Work_ (after (create_link drawn_new bob blog)
                       (Session_ deployment))))).
Proof.
  split; [reflexivity|]. split; [reflexivity|]. split; [reflexivity|].
  split; [intro H; discriminate H|].
  exact (proj2 (proj2 (proj2 (proj2 (proj2
           (create_link_then_delete_link drawn_new bob blog
              (Session_ deployment) eq_refl eq_refl eq_refl)))))).
Defined.

(** ** [update_link] *)

Lemma find_replaced (key : string) (l' : Link.t) (rows : list Link.t)
  (l : Link.t) :
  Link.id l' = key ->
  find (fun r => Link.id r =? key) rows = Some l ->
  find (fun r => Link.id r =? key)
    (map (fun r => if Link.id r =? key then l' else r) rows) = Some l'.
Proof.
  intros Hid. induction rows as [|r rows IH]; simpl; [discriminate|].
  destruct (Link.id r =? key) eqn:Hr; simpl.
  - intros _. now rewrite Hid, String.eqb_refl.
  - rewrite Hr. exact IH.
Qed.

(** What [update_link] does for an existing link, in a unit of work
    without marks. *)
Lemma update_link_run current_user data s l :
  new s = [] ->
  find (fun r => Link.id r =? LinkUpdateDTO.id data) (links (db s)) = Some l ->
  exists s1,
    same_store s s1
    /\ update_link current_user data (Work_ s)
       = match verdict (db s)
                 (link_owner_checker (user_roles (db s) current_user) None
                    (Link.id l)) false
         with
         | Raise e => (Raise e, Work_ s1)
         | Return _ =>
             (Return (to_dto (updated_link l data)),
              Work_ {| db := update_link_row (updated_link l data) (db s);
                       new := [];
                       calls := CRefresh :: CCommit :: CAdd :: calls s1 |})
         end.
Proof.
  intros Hnew Hfind.
  pose proof (find_link_id _ (db s) l Hfind) as Hid.
  destruct (check_run
              (link_owner_checker (user_roles (db s) current_user) None
                 (Link.id l)) false (called CGet s))
    as [s1 [Hrun [[Hdb Hnew1] _]]].
  exists s1. split; [split; assumption|].
  change (db (called CGet s)) with (db s) in Hrun.
  remember (verdict (db s)
              (link_owner_checker (user_roles (db s) current_user) None
                 (Link.id l)) false) as v eqn:Hv.
  unfold update_link, bind_w, lift, bind, get, load_roles, Work_.
  cbn [session dirty deleted db called]. rewrite Hfind.
  cbn [check_existence ret Link.id session dirty deleted].
  change (db (called CGet s)) with (db s).
  rewrite Hrun. clear Hrun Hv.
  destruct v as [b|e]; [|reflexivity].
  destruct s1 as [d1 n1 c1]. cbn in Hdb, Hnew1. subst d1 n1.
  unfold commit_w, add_modified. cbn. rewrite Hnew. cbn.
  fold (updated_link l data).
  unfold refresh. cbn [db links called].
  assert (Hnow :
            find (fun r => Link.id r =? Link.id (updated_link l data))
              (links (update_link_row (updated_link l data) (db s)))
            = Some (updated_link l data)).
  { rewrite <- Hid in Hfind. unfold update_link_row. cbn [links].
    change (Link.id (updated_link l data)) with (Link.id l).
    exact (find_replaced (Link.id l) (updated_link l data) (links (db s)) l
             eq_refl Hfind). }
  now rewrite Hnow.
Qed.

Lemma map_injective_on {A B} (h : A -> B) (l : list A) (x y : A) :
  NoDup (map h l) -> In x l -> In y l -> h x = h y -> x = y.
Proof.
  induction l as [|a l IH]; simpl; intros Hnd Hx Hy Hxy; [contradiction|].
  inversion Hnd as [|? ? Hnotin Hnd']; subst.
  destruct Hx as [->|Hx], Hy as [->|Hy]; auto.
  - exfalso. apply Hnotin. rewrite Hxy. now apply in_map.
  - exfalso. apply Hnotin. rewrite <- Hxy. now apply in_map.
Qed.

(** X23. [update_link] rewrites the row and does not look at the other
    labels.  In a session without pending objects, for an existing link
    and a caller who passes the all-of check without bypass role, the
    call returns the DTO of the link with its id, author and creation
    time kept and its label, url and description replaced, and the
    database differs only in that row.  The new label is not compared
    with the committed ones: when another link carries it, the update
    goes through all the same and two links share the label
    afterwards. *)
Theorem update_link_ignores_labels :
  forall (current_user : User.t) (data : LinkUpdateDTO.t) (s : Session)
         (l : Link.t),
    new s = [] ->
    find (fun r => Link.id r =? LinkUpdateDTO.id data) (links (db s))
    = Some l ->
    may_change_link current_user None (Link.id l) s ->
    let run := update_link current_user data in
    outcome_w run (Work_ s) = Return (to_dto (updated_link l data))
    /\ db (session (after_w run (Work_ s)))
       = update_link_row (updated_link l data) (db s)
    /\ (forall l2,
           In l2 (links (db s)) ->
           Link.id l2 <> LinkUpdateDTO.id data ->
           Link.label l2 = LinkUpdateDTO.label data ->
           ~ NoDup (map Link.label
                      (links (db (session (after_w run (Work_ s))))))).
Proof.
  intros current_user data s l Hnew Hfind Hmay run.
  destruct (update_link_run current_user data s l Hnew Hfind)
    as [s1 [_ Hrun]].
  unfold may_change_link in Hmay. rewrite check_outcome in Hmay.
  rewrite Hmay in Hrun.
  unfold run, outcome_w, after_w. rewrite Hrun.
  cbn [fst snd session Work_ db].
  split; [reflexivity|]. split; [reflexivity|].
  intros l2 Hin2 Hid2 Hlabel2 Hnd.
  pose proof (find_link_id _ (db s) l Hfind) as Hid.
  apply find_some in Hfind. destruct Hfind as [Hin _].
  cbn [update_link_row links updated_link Link.id] in Hnd.
  set (replace := fun r : Link.t =>
                    if Link.id r =? Link.id l then updated_link l data else r)
    in Hnd.
  assert (H1 : In (updated_link l data) (map replace (links (db s)))).
  { apply in_map_iff. exists l. split; [|exact Hin].
    unfold replace. now rewrite String.eqb_refl. }
  assert (H2 : In l2 (map replace (links (db s)))).
  { apply in_map_iff. exists l2. split; [|exact Hin2].
    unfold replace. rewrite Hid.
    apply String.eqb_neq in Hid2. now rewrite Hid2. }
  pose proof (map_injective_on Link.label _ (updated_link l data) l2
                Hnd H1 H2 (eq_sym Hlabel2)) as Heq.
  apply Hid2. rewrite <- Heq. exact Hid.
Qed.

Lemma update_link_ignores_labels_witness :
  new (Session_ two_links) = []
  /\ find (fun r => Link.id r =? LinkUpdateDTO.id rename_notes_to_docs)
       (links two_links) = Some notes_link
  /\ may_change_link alice None (Link.id notes_link) (Session_ two_links)
  /\ NoDup (map Link.label (links two_links))
  /\ In docs_link (links two_links)
  /\ ~ NoDup (map Link.label
                (links (db (session
                              (after_w (update_link alice rename_notes_to_docs)
                                 (Work_ (Session_ two_links))))))).
Proof.
  assert (Hmay : may_change_link alice None (Link.id notes_link)
                   (Session_ two_links)) by reflexivity.
  assert (Hin : In docs_link (links (db (Session_ two_links))))
    by (now left).
  split; [reflexivity|]. split; [reflexivity|]. split; [exact Hmay|].
  split.
  - simpl. constructor.
    + intros [H|[]]. discriminate H.
    + constructor; [intros [] | constructor].
  - split; [exact Hin|].
    refine (proj2 (proj2 (update_link_ignores_labels alice
                            rename_notes_to_docs (Session_ two_links)
                            notes_link eq_refl eq_refl Hmay))
              docs_link Hin _ eq_refl).
    simpl. discriminate.
Defined.

(** X24. A role named admin opens [delete_link] and not [update_link].
    In a session without pending objects, for an existing link and a
    caller who holds a role named admin but no role with the rw grant
    scoped to that link: [update_link] raises the 401 exception and
    writes nothing, while [delete_link] returns its message and the
    link is gone. *)
Theorem admin_deletes_but_cannot_update :
  forall (current_user : User.t) (data : LinkUpdateDTO.t) (s : Session)
         (l : Link.t),
    new s = [] ->
    find (fun r => Link.id r =? LinkUpdateDTO.id data) (links (db s))
    = Some l ->
    (exists role,
        In role (user_roles (db s) current_user)
        /\ Role.name role = Some "admin") ->
    (forall role p,
        In role (user_roles (db s) current_user) ->
        In p (permissions (db s)) ->
        grants role "link" "rw" p ->
        Permission.resource_id p <> Some (Link.id l)) ->
    (outcome_w (update_link current_user data) (Work_ s) = Raise not_authorized
     /\ db (session (after_w (update_link current_user data) (Work_ s)))
        = db s)
    /\ (outcome_w (delete_link current_user (LinkUpdateDTO.id data)) (Work_ s)
        = Return {| message := "Link deleted successfully." |}
        /\ db (session (after_w (delete_link current_user
                                   (LinkUpdateDTO.id data)) (Work_ s)))
           = without_link (LinkUpdateDTO.id data) (db s)).
Proof.
  intros current_user data s l Hnew Hfind [admin_role [Hheld Hname]] Hnone.
  pose proof (find_link_id _ (db s) l Hfind) as Hid.
  split.
  - destruct (update_link_run current_user data s l Hnew Hfind)
      as [s1 [[Hdb _] Hrun]].
    assert (Hv : verdict (db s)
                   (link_owner_checker (user_roles (db s) current_user) None
                      (Link.id l)) false
                 = Raise not_authorized).
    { unfold verdict.
      cbn [bypassed link_owner_checker PermissionChecker.bypass_role
             PermissionChecker.bypass_roles opt_in filter any existsb orb
             PermissionChecker.roles PermissionChecker.pcheck_models forallb
             action_names].
      match goal with |- (if ?b then _ else _) = _ => destruct b eqn:Hb end;
        [|reflexivity].
      exfalso. apply existsb_exists in Hb. destruct Hb as [role [Hr Hg]].
      rewrite !andb_true_r in Hg. simpl in Hg.
      apply existsb_exists in Hg. destruct Hg as [p [Hin Hp]].
      apply scoped_where_true in Hp. destruct Hp as [Hgr Hrid].
      exact (Hnone role p Hr Hin Hgr Hrid). }
    unfold outcome_w, after_w. rewrite Hrun, Hv.
    split; [reflexivity | exact Hdb].
  - pose proof (delete_link_run current_user (LinkUpdateDTO.id data) s Hnew)
      as Hrun.
    rewrite Hfind in Hrun. destruct Hrun as [s1 [_ Hrun]].
    assert (Hv : verdict (db s)
                   (link_owner_checker (user_roles (db s) current_user)
                      (Some ADMIN_ROLE_NAME) (LinkUpdateDTO.id data)) false
                 = Return true).
    { unfold verdict.
      assert (Hb : bypassed
                     (link_owner_checker (user_roles (db s) current_user)
                        (Some ADMIN_ROLE_NAME) (LinkUpdateDTO.id data))
                   = true).
      { apply bypassed_true. exists admin_role, "admin".
        split; [exact Hheld|]. split; [exact Hname | now left]. }
      now rewrite Hb. }
    unfold outcome_w, after_w. rewrite Hrun, Hv. split; reflexivity.
Qed.

Lemma admin_deletes_but_cannot_update_witness :
  new (Session_ two_links) = []
  /\ find (fun r => Link.id r =? LinkUpdateDTO.id rename_notes_to_docs)
       (links two_links) = Some notes_link
  /\ In admin (user_roles two_links carol)
  /\ outcome_w (update_link carol rename_notes_to_docs)
       (Work_ (Session_ two_links)) = Raise not_authorized
  /\ outcome_w (delete_link carol "lnk-notes") (Work_ (Session_ two_links))
     = Return {| message := "Link deleted successfully." |}.
Proof.
  assert (Hadmin : exists role,
             In role (user_roles (db (Session_ two_links)) carol)
             /\ Role.name role = Some "admin").
  { exists admin. split; [now left | reflexivity]. }
  assert (Hnone : forall role p,
             In role (user_roles (db (Session_ two_links)) carol) ->
             In p (permissions (db (Session_ two_links))) ->
             grants role "link" "rw" p ->
             Permission.resource_id p <> Some (Link.id notes_link)).
  { intros role p Hr Hp [Hrole _]. simpl in Hr.
    destruct Hr as [<-|[]]. simpl in Hp.
    destruct Hp as [<-|[<-|[<-|[]]]]; simpl in *; discriminate. }
  pose proof (admin_deletes_but_cannot_update carol rename_notes_to_docs
                (Session_ two_links) notes_link eq_refl eq_refl Hadmin Hnone)
    as [[Hup _] [Hdel _]].
  split; [reflexivity|]. split; [reflexivity|]. split; [now left|].
  split; [exact Hup | exact Hdel].
Defined.

(** ** The provider [create_permission] and [delete_permission] *)

(** What the provider [create_permission] does up to its commit. *)
Lemma provider_create_permission_run drawn_id current_user role_id an rn
  res s :
  exists s1,
    only_queried s s1
    /\ UserProvider.create_permission drawn_id current_user role_id an rn res s
       = match verdict (db s)
                 (role_rw_checker (user_roles (db s) current_user)) false
         with
         | Raise e => (Raise e, s1)
         | Return _ =>
             match find (fun r => Role.id r =? role_id) (roles (db s)) with
             | None =>
                 (Raise (HTTPException 404 (Some "Role not found.")),
                  called CGet s1)
             | Some role =>
                 (commit ;;;
                  ret {| message := "Permission created successfully." |})
                   {| db := db s;
                      new := new s
                             ++ [NewPermission
                                   (provided_row drawn_id (Role.id role) an rn
                                      res)];
                      calls := CAdd :: CGet :: calls s1 |}
             end
         end.
Proof.
  destruct (check_run (role_rw_checker (user_roles (db s) current_user))
              false s) as [s1 [Hrun Hq]].
  exists s1. split; [exact Hq|].
  destruct Hq as [[Hdb Hnew] _].
  unfold UserProvider.create_permission, bind, load_roles.
  rewrite Hrun. clear Hrun.
  destruct (verdict _ _ false) as [b|e]; [|reflexivity].
  destruct s1 as [d1 n1 c1]. simpl in Hdb, Hnew. subst d1 n1.
  unfold get. cbn [db called].
  destruct (find _ (roles (db s))) as [role|]; reflexivity.
Qed.

(** The successful run of the provider [create_permission]. *)
Lemma provider_create_permission_success drawn_id current_user role_id an rn
  res s :
  new s = [] ->
  may_administer_roles current_user s ->
  role_exists role_id (db s) = true ->
  permission_key_free drawn_id (db s) = true ->
  exists s1,
    UserProvider.create_permission drawn_id current_user role_id an rn res s
    = (Return {| message := "Permission created successfully." |},
       {| db := with_permission (provided_row drawn_id role_id an rn res)
                  (db s);
          new := [];
          calls := CCommit :: CAdd :: CGet :: calls s1 |}).
Proof.
  intros Hnew Hgate Hrole Hfree.
  destruct (provider_create_permission_run drawn_id current_user role_id an rn
              res s) as [s1 [_ Hrun]].
  exists s1. unfold may_administer_roles in Hgate.
  rewrite check_outcome in Hgate. rewrite Hrun, Hgate.
  destruct (find_by_key Role.id role_id (roles (db s)) Hrole)
    as [role [Hfind Hid]].
  rewrite Hfind, Hid, Hnew. unfold bind, commit. cbn [db new app].
  now rewrite (flush_one_permission (provided_row drawn_id role_id an rn res)
                 (db s) Hfree).
Qed.

(** X25. The provider [create_permission] does not look for an existing
    grant.  From a session without pending objects, for a caller who
    passes the gate, an existing role and an unused drawn key, it
    returns its message and the database gains exactly the row asked
    for, whatever rows the role already has, an identical grant
    included; afterwards [has_global_permission] answers [True] for the
    role, and for a given resource id so does [has_permission]. *)
Theorem provider_create_permission_adds :
  forall (drawn_id : string) (current_user : User.t)
         (role_id action_name resource_name : string)
         (resource_id : option string) (s : Session),
    new s = [] ->
    may_administer_roles current_user s ->
    role_exists role_id (db s) = true ->
    permission_key_free drawn_id (db s) = true ->
    let run := UserProvider.create_permission drawn_id current_user role_id
                 action_name resource_name resource_id in
    outcome run s = Return {| message := "Permission created successfully." |}
    /\ db (after run s)
       = with_permission
           (provided_row drawn_id role_id action_name resource_name resource_id)
           (db s)
    /\ (forall role,
           Role.id role = role_id ->
           outcome (has_global_permission role resource_name action_name)
             (after run s) = Return true
           /\ forall r,
               resource_id = Some r ->
               outcome (has_permission role resource_name r action_name)
                 (after run s) = Return true).
Proof.
  intros drawn_id current_user role_id an rn res s Hnew Hgate Hrole Hfree run.
  destruct (provider_create_permission_success drawn_id current_user role_id
              an rn res s Hnew Hgate Hrole Hfree) as [s1 Hrun].
  unfold run, outcome, after. rewrite Hrun. cbn [fst snd].
  split; [reflexivity|]. split; [reflexivity|].
  intros role Hid. split.
  - rewrite has_global_permission_run. cbn [fst db with_permission permissions].
    f_equal. rewrite existsb_app. apply orb_true_iff. right. simpl.
    unfold global_where. simpl. now rewrite Hid, !String.eqb_refl.
  - intros r ->. rewrite has_permission_run.
    cbn [fst db with_permission permissions]. f_equal.
    rewrite existsb_app. apply orb_true_iff. right. simpl.
    unfold scoped_where. simpl. now rewrite Hid, !String.eqb_refl.
Qed.

Lemma provider_create_permission_adds_witness :
  new (Session_ deployment) = []
  /\ may_administer_roles carol (Session_ deployment)
  /\ role_exists "r-alice" deployment = true
  /\ permission_key_free draw_p1 deployment = true
  /\ existsb (scoped_where alice_personal "link" "lnk-docs" "rw")
       (permissions deployment) = true
  /\ db (after (UserProvider.create_permission draw_p1 carol "r-alice" "rw"
                  "link" (Some "lnk-docs")) (Session_ deployment))
     = with_permission
         (provided_row draw_p1 "r-alice" "rw" "link" (Some "lnk-docs"))
         deployment.
Proof.
  split; [reflexivity|]. split; [reflexivity|]. split; [reflexivity|].
  split; [reflexivity|]. split; [reflexivity|].
  exact (proj1 (proj2 (provider_create_permission_adds draw_p1 carol "r-alice"
                         "rw" "link" (Some "lnk-docs") (Session_ deployment)
                         eq_refl eq_refl eq_refl eq_refl))).
Defined.

(** What [delete_permission] does, case by case, in a unit of work
    without marks. *)
Lemma delete_permission_run current_user permission_id s :
  new s = [] ->
  exists s1,
    same_store s s1
    /\ delete_permission current_user permission_id (Work_ s)
       = match verdict (db s)
                 (role_rw_checker (user_roles (db s) current_user)) false
         with
         | Raise e => (Raise e, Work_ s1)
         | Return _ =>
             match find (fun p => Permission.permission_id p =? permission_id)
                     (permissions (db s)) with
             | None =>
                 (Raise (HTTPException 404 (Some "Permission not found.")),
                  Work_ (called CGet s1))
             | Some p =>
                 (Return {| message := "Permission deleted successfully." |},
                  Work_ {| db := delete_row (APermission p) (db s);
                           new := [];
                           calls := CCommit :: CGet :: calls s1 |})
             end
         end.
Proof.
  intro Hnew.
  destruct (check_run (role_rw_checker (user_roles (db s) current_user))
              false s) as [s1 [Hrun [[Hdb Hnew1] _]]].
  exists s1. split; [split; assumption|].
  unfold delete_permission, bind_w, lift, bind, load_roles, Work_.
  cbn [session dirty deleted]. rewrite Hrun. clear Hrun.
  destruct (verdict _ _ false) as [b|e]; [|reflexivity].
  destruct s1 as [d1 n1 c1]. cbn in Hdb, Hnew1. subst d1 n1.
  unfold get. cbn [db called session dirty deleted].
  destruct (find _ (permissions (db s))) as [p|]; cbn; [|reflexivity].
  unfold commit_w. cbn. now rewrite Hnew.
Qed.

(** A check in all-of mode that passes still passes with one more
    permission row. *)
Lemma verdict_with_permission row d self :
  verdict d self false = Return true ->
  verdict (with_permission row d) self false = Return true.
Proof.
  unfold verdict. destruct (bypassed self); [reflexivity|].
  match goal with |- (if ?b then _ else _) = _ -> _ => destruct b eqn:Hb end;
    [intros _ | discriminate].
  match goal with |- (if ?b then _ else _) = _ =>
    assert (Hb' : b = true); [|now rewrite Hb'] end.
  apply existsb_exists in Hb. destruct Hb as [role [Hr Hall]].
  apply existsb_exists. exists role. split; [exact Hr|].
  rewrite forallb_forall in Hall. apply forallb_forall. intros pcheck Hp.
  specialize (Hall pcheck Hp). rewrite forallb_forall in Hall.
  apply forallb_forall. intros an Ha. specialize (Hall an Ha).
  destruct pcheck; simpl in *; rewrite existsb_app, Hall; reflexivity.
Qed.

(** X26. [delete_permission] checks the caller first, and undoes the
    provider [create_permission].  In a session without pending
    objects, a caller who fails the gate gets the 401 exception whether
    or not the permission exists, and a caller who passes gets the 404
    exception for a missing permission, nothing being written.  When a
    permission created by the provider [create_permission] is deleted
    by a caller who passed the gate before the creation, the call
    returns its message and the database is the one before the
    creation. *)
Theorem delete_permission_gate_and_round_trip :
  forall (drawn_id : string) (creator deleter : User.t)
         (role_id action_name resource_name : string)
         (resource_id : option string) (s : Session),
    new s = [] ->
    (~ may_administer_roles deleter s ->
     outcome_w (delete_permission deleter drawn_id) (Work_ s)
     = Raise not_authorized
     /\ db (session (after_w (delete_permission deleter drawn_id) (Work_ s)))
        = db s)
    /\ (may_administer_roles deleter s ->
        permission_exists drawn_id (db s) = false ->
        outcome_w (delete_permission deleter drawn_id) (Work_ s)
        = Raise (HTTPException 404 (Some "Permission not found."))
        /\ db (session (after_w (delete_permission deleter drawn_id)
                          (Work_ s)))
           = db s)
    /\ (may_administer_roles creator s ->
        may_administer_roles deleter s ->
        role_exists role_id (db s) = true ->
        permission_key_free drawn_id (db s) = true ->
        let s' :=
          after (UserProvider.create_permission drawn_id creator role_id
                   action_name resource_name resource_id) s in
        outcome_w (delete_permission deleter drawn_id) (Work_ s')
        = Return {| message := "Permission deleted successfully." |}
        /\ db (session (after_w (delete_permission deleter drawn_id)
                          (Work_ s')))
           = db s).
Proof.
  intros drawn_id creator deleter role_id an rn res s Hnew.
  split; [|split].
  - intro Hno. destruct (delete_permission_run deleter drawn_id s Hnew)
      as [s1 [[Hdb _] Hrun]].
    unfold may_administer_roles in Hno. rewrite check_outcome in Hno.
    unfold outcome_w, after_w. rewrite Hrun.
    destruct (verdict_cases (db s)
                (role_rw_checker (user_roles (db s) deleter)) false)
      as [Hv|Hv]; [contradiction|].
    rewrite Hv. split; [reflexivity | exact Hdb].
  - intros Hgate Hnone.
    destruct (delete_permission_run deleter drawn_id s Hnew)
      as [s1 [[Hdb _] Hrun]].
    unfold may_administer_roles in Hgate. rewrite check_outcome in Hgate.
    unfold permission_exists in Hnone. apply find_None_existsb in Hnone.
    unfold outcome_w, after_w. rewrite Hrun, Hgate, Hnone.
    split; [reflexivity | exact Hdb].
  - intros Hcreator Hdeleter Hrole Hfree s'.
    destruct (provider_create_permission_success drawn_id creator role_id an
                rn res s Hnew Hcreator Hrole Hfree) as [s1 Hcreated].
    assert (Hs' : s' = {| db := with_permission
                                  (provided_row drawn_id role_id an rn res)
                                  (db s);
                          new := [];
                          calls := CCommit :: CAdd :: CGet :: calls s1 |})
      by (unfold s', after; now rewrite Hcreated).
    assert (Hnew' : new s' = []) by (now rewrite Hs').
    destruct (delete_permission_run deleter drawn_id s' Hnew')
      as [s2 [_ Hrun]].
    unfold may_administer_roles in Hdeleter.
    rewrite check_outcome in Hdeleter.
    assert (Hv : verdict (db s') (role_rw_checker (user_roles (db s') deleter))
                   false = Return true).
    { rewrite Hs'. cbn [db].
      change (user_roles
                (with_permission (provided_row drawn_id role_id an rn res)
                   (db s)) deleter)
        with (user_roles (db s) deleter).
      now apply verdict_with_permission. }
    unfold permission_key_free in Hfree. rewrite negb_true_iff in Hfree.
    assert (Hfind : find (fun p => Permission.permission_id p =? drawn_id)
                      (permissions (db s'))
                    = Some (provided_row drawn_id role_id an rn res)).
    { rewrite Hs'. cbn [db with_permission permissions].
      apply find_app_last; [exact Hfree | apply String.eqb_refl]. }
    unfold outcome_w, after_w. rewrite Hrun, Hv, Hfind.
    cbn [fst snd session Work_ db]. split; [reflexivity|].
    rewrite Hs'. cbn [db delete_row with_permission users links roles
                        permissions role_user_links provided_row
                        Permission.permission_id].
    rewrite filter_app, (filter_none _ _ Hfree). cbn.
    rewrite String.eqb_refl. cbn. rewrite app_nil_r. now destruct (db s).
Qed.

Lemma delete_permission_gate_and_round_trip_witness :
  new (Session_ deployment) = []
  /\ ~ may_administer_roles bob (Session_ deployment)
  /\ outcome_w (delete_permission bob "p-admin-user")
       (Work_ (Session_ deployment)) = Raise not_authorized
  /\ may_administer_roles carol (Session_ deployment)
  /\ permission_exists "p-none" deployment = false
  /\ outcome_w (delete_permission carol "p-none") (Work_ (Session_ deployment))
     = Raise (HTTPException 404 (Some "Permission not found."))
  /\ role_exists "r-alice" deployment = true
  /\ permission_key_free draw_p1 deployment = true
  /\ db (session
           (after_w (delete_permission carol draw_p1)
              (Work_ (after (UserProvider.create_permission draw_p1 carol
                               "r-alice" "r" "link" None)
                        (Session_ deployment)))))
     = deployment.
Proof.
  assert (Hbob : ~ may_administer_roles bob (Session_ deployment))
    by (intro H; discriminate H).
  assert (Hcarol : may_administer_roles carol (Session_ deployment))
    by reflexivity.
  split; [reflexivity|]. split; [exact Hbob|]. split.
  - exact (proj1 (proj1 (delete_permission_gate_and_round_trip "p-admin-user"
                           carol bob "r-alice" "r" "link" None
                           (Session_ deployment) eq_refl) Hbob)).
  - split; [exact Hcarol|]. split; [reflexivity|]. split.
    + exact (proj1 (proj1 (proj2 (delete_permission_gate_and_round_trip
                                    "p-none" carol carol "r-alice" "r" "link"
                                    None (Session_ deployment) eq_refl))
                      Hcarol eq_refl)).
    + split; [reflexivity|]. split; [reflexivity|].
      exact (proj2 (proj2 (proj2 (delete_permission_gate_and_round_trip
                                    draw_p1 carol carol "r-alice" "r" "link"
                                    None (Session_ deployment) eq_refl))
                      Hcarol Hcarol eq_refl eq_refl)).
Defined.

(** ** The two modes of [check], and the roles as a set *)

(** X27. All-of implies any-of, unless there is nothing to check.  When
    [check(either=False)] returns [True] and at least one check request
    names at least one action, [check(either=True)] returns [True] in
    the same session. *)
Theorem check_all_of_implies_either :
  forall (self : PermissionChecker.t) (s : Session),
    outcome (check self false) s = Return true ->
    (exists pcheck action_name,
        In pcheck (PermissionChecker.pcheck_models self)
        /\ In action_name (action_names pcheck)) ->
    outcome (check self true) s = Return true.
Proof.
  intros self s Hall [pcheck [an [Hp Ha]]].
  rewrite check_outcome in *. unfold verdict in *.
  destruct (bypassed self); [reflexivity|].
  match type of Hall with (if ?b then _ else _) = _ => destruct b eqn:Hb end;
    [|discriminate].
  match goal with |- (if ?b then _ else _) = _ =>
    assert (Hb' : b = true); [|now rewrite Hb'] end.
  apply existsb_exists in Hb. destruct Hb as [role [Hr Hforall]].
  apply existsb_exists. exists role. split; [exact Hr|].
  apply existsb_exists. exists pcheck. split; [exact Hp|].
  apply existsb_exists. exists an. split; [exact Ha|].
  rewrite forallb_forall in Hforall. specialize (Hforall pcheck Hp).
  rewrite forallb_forall in Hforall. exact (Hforall an Ha).
Qed.

Lemma check_all_of_implies_either_witness :
  outcome (check alice_on_docs false) (Session_ deployment) = Return true
  /\ (exists pcheck action_name,
         In pcheck (PermissionChecker.pcheck_models alice_on_docs)
         /\ In action_name (action_names pcheck))
  /\ outcome (check alice_on_docs true) (Session_ deployment) = Return true
  /\ outcome (check alice_no_requests false) (Session_ deployment)
     = Return true
  /\ outcome (check alice_no_requests true) (Session_ deployment)
     = Raise not_authorized_this.
Proof.
  assert (Hsome : exists pcheck action_name,
             In pcheck (PermissionChecker.pcheck_models alice_on_docs)
             /\ In action_name (action_names pcheck)).
  { exists (PermissionCheckModel LINK_RESOURCE (PyStr "lnk-docs")
              [ACTION_READWRITE]), ACTION_READWRITE.
    split; now left. }
  split; [reflexivity|]. split; [exact Hsome|]. split.
  - exact (check_all_of_implies_either alice_on_docs (Session_ deployment)
             eq_refl Hsome).
  - split; reflexivity.
Defined.

Lemma verdict_more_roles d self rs1 rs2 either :
  (forall r, In r rs1 -> In r rs2) ->
  verdict d (with_roles rs1 self) either = Return true ->
  verdict d (with_roles rs2 self) either = Return true.
Proof.
  intros Hincl. unfold verdict.
  destruct (bypassed (with_roles rs1 self)) eqn:Hb1.
  - intros _.
    assert (Hb2 : bypassed (with_roles rs2 self) = true).
    { apply bypassed_true. apply bypassed_true in Hb1.
      destruct Hb1 as [role [n [Hr [Hn Hby]]]]. exists role, n.
      split; [exact (Hincl role Hr)|]. split; [exact Hn | exact Hby]. }
    now rewrite Hb2.
  - destruct (bypassed (with_roles rs2 self)); [reflexivity|].
    cbn [with_roles checker_for PermissionChecker.roles
           PermissionChecker.pcheck_models].
    destruct either;
      (match goal with |- (if ?b then _ else _) = _ -> _ =>
         destruct b eqn:Hv end; [intros _ | discriminate]);
      (match goal with |- (if ?b then _ else _) = _ =>
         assert (Hv' : b = true); [|now rewrite Hv'] end);
      apply existsb_exists in Hv; destruct Hv as [role [Hr Hg]];
      apply existsb_exists; exists role; split;
      [exact (Hincl role Hr) | exact Hg | exact (Hincl role Hr) | exact Hg].
Qed.

(** X28. [check] reads the caller's roles as a set, and more roles never
    hurt.  If every role of one list is in another, a check that
    returns [True] on the first list returns [True] on the second, in
    either mode and for any bypass configuration and check requests; so
    two lists with the same members, in any order and with any
    repetition, give the same outcome. *)
Theorem check_roles_as_a_set :
  forall (self : PermissionChecker.t) (rs1 rs2 : list Role.t) (either : bool)
         (s : Session),
    ((forall r, In r rs1 -> In r rs2) ->
     outcome (check (with_roles rs1 self) either) s = Return true ->
     outcome (check (with_roles rs2 self) either) s = Return true)
    /\ ((forall r, In r rs1 <-> In r rs2) ->
        outcome (check (with_roles rs1 self) either) s
        = outcome (check (with_roles rs2 self) either) s).
Proof.
  intros self rs1 rs2 either s. rewrite !check_outcome. split.
  - apply verdict_more_roles.
  - intro Hsame.
    assert (H12 : forall r, In r rs1 -> In r rs2)
      by (intros r; apply Hsame).
    assert (H21 : forall r, In r rs2 -> In r rs1)
      by (intros r; apply Hsame).
    destruct (verdict_cases (db s) (with_roles rs1 self) either) as [H1|H1];
      destruct (verdict_cases (db s) (with_roles rs2 self) either) as [H2|H2];
      try congruence.
    + pose proof (verdict_more_roles (db s) self rs1 rs2 either H12 H1).
      congruence.
    + pose proof (verdict_more_roles (db s) self rs2 rs1 either H21 H2).
      congruence.
Qed.

Lemma check_roles_as_a_set_witness :
  (forall r, In r [alice_personal] -> In r [blank; alice_personal; blank])
  /\ outcome (check (with_roles [alice_personal] alice_on_docs) false)
       (Session_ deployment) = Return true
  /\ outcome (check (with_roles [blank; alice_personal; blank] alice_on_docs)
                false) (Session_ deployment) = Return true.
Proof.
  assert (Hincl : forall r,
             In r [alice_personal] -> In r [blank; alice_personal; blank]).
  { intros r [<-|[]]. right. now left. }
  split; [exact Hincl|]. split; [reflexivity|].
  exact (proj1 (check_roles_as_a_set alice_on_docs [alice_personal]
                  [blank; alice_personal; blank] false (Session_ deployment))
           Hincl eq_refl).
Defined.
